(** * IoT Intrusion System Dashboard: device-access decision engine

    A shallow embedding of the Express route handlers of
    [routes/deviceAccess.js] (connect / disconnect) and of the alert
    resolution route of [routes/alerts.js], over a relational store that
    follows the SQL migrations of the repository and the helper functions
    of [config/database.js].

    Conventions.
    - A JavaScript number holding an integer is a [Z]; [NaN] is [None].
    - SQL [NULL] and JavaScript [undefined]/[null] are [None].
    - An [async] function is a computation in the monad [M]: it reads and
      writes the server state and either returns or throws.
    - The store can fail for reasons that lie outside the program (lost
      connection, time-out, ...): the environment says, for each statement
      the handlers issue, whether [db.query] ends by throwing. *)

From Stdlib Require Import ZArith List String Ascii Bool Lia.
From Stdlib Require Import DecimalString DecimalZ DecimalPos.
Import ListNotations.
Open Scope string_scope.
Open Scope Z_scope.

Set Implicit Arguments.
Set Warnings "-register-all".

(** ** JavaScript values *)

Module Js.

(** JSON values, as carried by [jsonb] columns and by response bodies.
    Objects keep the insertion order of their keys. *)
Inductive Json : Type :=
| JNull
| JBool (b : bool)
| JNum (n : Z)
| JStr (s : string)
| JObj (fields : list (string * Json)).

(** ToBoolean. *)
Definition truthy (v : Json) : bool :=
  match v with
  | JNull => false
  | JBool b => b
  | JNum n => negb (n =? 0)
  | JStr s => negb (s =? "")%string
  | JObj _ => true
  end.

(** [o[k]]: [None] is [undefined]. *)
Fixpoint get (k : string) (o : list (string * Json)) : option Json :=
  match o with
  | [] => None
  | (k', v) :: o' => if (k =? k')%string then Some v else get k o'
  end.

(** [o[k] = v] on an object literal under construction: an existing key
    keeps its place, a new key goes last. *)
Fixpoint set (k : string) (v : Json) (o : list (string * Json))
  : list (string * Json) :=
  match o with
  | [] => [(k, v)]
  | (k', v') :: o' =>
      if (k =? k')%string then (k', v) :: o' else (k', v') :: set k v o'
  end.

(** [{ ...base, ...more }]. *)
Definition spread (base more : list (string * Json)) : list (string * Json) :=
  fold_left (fun o kv => set (fst kv) (snd kv) o) more base.

(** [a || b] where [a] may be [undefined]. *)
Definition or_else (a : option Json) (b : Json) : Json :=
  match a with
  | Some v => if truthy v then v else b
  | None => b
  end.

Definition of_opt_string (s : option string) : Json :=
  match s with Some s => JStr s | None => JNull end.

(** *** [parseInt(string)] with no radix argument *)

(** StrWhiteSpaceChar, on the ASCII range. *)
Definition isWhiteSpace (c : ascii) : bool :=
  let n := Z.of_nat (nat_of_ascii c) in
  (n =? 32) || ((9 <=? n) && (n <=? 13)).

Fixpoint trimStart (s : string) : string :=
  match s with
  | String c r => if isWhiteSpace c then trimStart r else s
  | EmptyString => s
  end.

(** Value of a character as a digit (0-9, a-z, A-Z). *)
Definition digitValue (c : ascii) : option Z :=
  let n := Z.of_nat (nat_of_ascii c) in
  if (48 <=? n) && (n <=? 57) then Some (n - 48)
  else if (97 <=? n) && (n <=? 122) then Some (n - 87)
  else if (65 <=? n) && (n <=? 90) then Some (n - 55)
  else None.

(** The longest prefix of radix-[R] digits, read as a number; [None] when
    that prefix is empty. *)
Fixpoint parseDigits (R : Z) (s : string) (acc : option Z) : option Z :=
  match s with
  | String c r =>
      match digitValue c with
      | Some d =>
          if d <? R
          then parseDigits R r
                 (Some (match acc with Some a => a * R + d | None => d end))
          else acc
      | None => acc
      end
  | EmptyString => acc
  end.

(** [parseInt]: leading white space is skipped, a sign is read, a [0x]
    prefix selects radix 16, and what follows the digits is ignored.
    [None] is [NaN].  The result is exact; the JavaScript number is the
    nearest double, equal to it up to 2^53. *)
Definition parseInt (s : string) : option Z :=
  let inputString := trimStart s in
  let '(sign, unsigned) :=
    match inputString with
    | String "-" r => (-1, r)
    | String "+" r => (1, r)
    | _ => (1, inputString)
    end in
  let '(R, digits) :=
    match unsigned with
    | String "0" (String "x" r) => (16, r)
    | String "0" (String "X" r) => (16, r)
    | _ => (10, unsigned)
    end in
  option_map (Z.mul sign) (parseDigits R digits None).

End Js.

Import Js.


(** ** The relational store

    Tables follow the migrations: [devices], [users], [blocked_attempts]
    (004) and [security_alerts] (006).  A table with a [SERIAL] key that the
    handlers insert into is a list of (key, columns) pairs. *)

Module Device.
(** The columns of [devices] that the handlers select. *)
Record t : Type := mk {
  id : Z;
  name : string;
  device_type : string;
  mac_address : option string;
  ip_address : option string;
  location : option string;
  firmware_version : option string;
  status : option string
}.

(** [CASE WHEN firmware_version IS NOT NULL AND firmware_version != ''
     THEN true ELSE false END as has_security_enabled] *)
Definition has_security_enabled (d : t) : bool :=
  match firmware_version d with
  | Some v => negb (v =? "")%string
  | None => false
  end.
End Device.

Module User.
Record t : Type := mk {
  id : Z;
  role : option string
}.
End User.

Module BlockedAttempt.
Record t : Type := mk {
  source_ip : string;               (* INET NOT NULL *)
  target_device_id : option Z;      (* INTEGER REFERENCES devices(id) *)
  attempt_type : string;            (* VARCHAR(100) NOT NULL *)
  blocked_at : Z;
  attempt_count : Z;
  user_agent : option string;
  request_details : Json
}.
End BlockedAttempt.

Module Alert.
Record t : Type := mk {
  device_id : option Z;             (* INTEGER REFERENCES devices(id) *)
  alert_type : string;
  severity : string;
  description : option string;
  source_ip : option string;
  detected_at : Z;
  resolved_at : option Z;
  status : option string;           (* DEFAULT 'active' *)
  resolved_by : option Z;           (* INTEGER REFERENCES users(id) *)
  metadata : option Json
}.

(** One [column = value] of an UPDATE's SET clause, for the columns the
    resolve route writes. *)
Inductive assign : Type :=
| SetStatus (s : string)
| SetResolvedAt (at_ : Z)
| SetResolvedBy (u : Z)
| SetMetadata (m : Json).

Definition apply1 (a : t) (x : assign) : t :=
  match x with
  | SetStatus s =>
      mk (device_id a) (alert_type a) (severity a) (description a)
         (source_ip a) (detected_at a) (resolved_at a) (Some s)
         (resolved_by a) (metadata a)
  | SetResolvedAt at_ =>
      mk (device_id a) (alert_type a) (severity a) (description a)
         (source_ip a) (detected_at a) (Some at_) (status a)
         (resolved_by a) (metadata a)
  | SetResolvedBy u =>
      mk (device_id a) (alert_type a) (severity a) (description a)
         (source_ip a) (detected_at a) (resolved_at a) (status a)
         (Some u) (metadata a)
  | SetMetadata m =>
      mk (device_id a) (alert_type a) (severity a) (description a)
         (source_ip a) (detected_at a) (resolved_at a) (status a)
         (resolved_by a) (Some m)
  end.

Definition apply (data : list assign) (a : t) : t :=
  fold_left apply1 data a.
End Alert.

Module Store.

Record Db : Type := mkDb {
  devices : list Device.t;
  users : list User.t;
  blocked_attempts : list (Z * BlockedAttempt.t);
  security_alerts : list (Z * Alert.t);
  blocked_attempts_id_seq : Z;
  security_alerts_id_seq : Z
}.

(** The statements the handlers send to the store. *)
Inductive stmt : Type :=
| SelectDevice
| SelectRole
| InsertBlockedAttempt
| InsertSecurityAlert
| FindAlert
| FindUser
| UpdateAlert.

Record Error : Type := mkError {
  code : option string;
  message : string
}.

Inductive Result (A : Type) : Type :=
| Returned (a : A)
| Threw (e : Error).
Arguments Returned {A} a.
Arguments Threw {A} e.

(** What the handlers cannot control: which statements the store fails
    (so that [db.query], after its retries, throws), and the clock, read
    once per request. *)
Record Env : Type := mkEnv {
  fails : stmt -> bool;
  now : Z;                     (* new Date() *)
  localeNow : string           (* new Date().toLocaleString() *)
}.

Definition unavailable : Error :=
  mkError None "connection terminated".

(** SQLSTATE 23503, which [query] rethrows without a retry. *)
Definition foreign_key_violation : Error :=
  mkError (Some "23503") "violates foreign key constraint".

Definition device_exists (db : Db) (id : Z) : bool :=
  existsb (fun d => Device.id d =? id) (devices db).

Definition user_exists (db : Db) (id : Z) : bool :=
  existsb (fun u => User.id u =? id) (users db).

(** A nullable foreign key holds when it is NULL or names a row. *)
Definition references (exists_ : Z -> bool) (k : option Z) : bool :=
  match k with
  | Some id => exists_ id
  | None => true
  end.

(** [SELECT ... FROM devices WHERE id = $1]: the [rows]. *)
Definition select_device (env : Env) (db : Db) (deviceId : Z)
  : Result (list Device.t) :=
  if fails env SelectDevice then Threw unavailable
  else Returned (filter (fun d => Device.id d =? deviceId) (devices db)).

(** [SELECT role FROM users WHERE id = $1]: the [rows]. *)
Definition select_role (env : Env) (db : Db) (userId : Z)
  : Result (list (option string)) :=
  if fails env SelectRole then Threw unavailable
  else Returned (map User.role
                   (filter (fun u => User.id u =? userId) (users db))).

(** [db.insert('blocked_attempts', data)]: the inserted row and the new
    store.  The row is refused when [target_device_id] names no device. *)
Definition insert_blocked_attempt (env : Env) (db : Db)
    (data : BlockedAttempt.t)
  : Result ((Z * BlockedAttempt.t) * Db) :=
  if fails env InsertBlockedAttempt then Threw unavailable
  else if negb (references (device_exists db)
                  (BlockedAttempt.target_device_id data))
  then Threw foreign_key_violation
  else
    let id := blocked_attempts_id_seq db + 1 in
    Returned ((id, data),
              mkDb (devices db) (users db)
                   (blocked_attempts db ++ [(id, data)])
                   (security_alerts db)
                   id (security_alerts_id_seq db)).

(** [db.insert('security_alerts', data)]. *)
Definition insert_security_alert (env : Env) (db : Db) (data : Alert.t)
  : Result ((Z * Alert.t) * Db) :=
  if fails env InsertSecurityAlert then Threw unavailable
  else if negb (references (device_exists db) (Alert.device_id data)
                && references (user_exists db) (Alert.resolved_by data))
  then Threw foreign_key_violation
  else
    let id := security_alerts_id_seq db + 1 in
    Returned ((id, data),
              mkDb (devices db) (users db)
                   (blocked_attempts db)
                   (security_alerts db ++ [(id, data)])
                   (blocked_attempts_id_seq db) id).

(** [db.findById('security_alerts', id)]: [rows[0] || null]. *)
Definition find_alert (env : Env) (db : Db) (id : Z)
  : Result (option Alert.t) :=
  if fails env FindAlert then Threw unavailable
  else Returned (option_map snd
                   (find (fun r => fst r =? id) (security_alerts db))).

(** [db.findById('users', id)]. *)
Definition find_user (env : Env) (db : Db) (id : Z)
  : Result (option User.t) :=
  if fails env FindUser then Threw unavailable
  else Returned (find (fun u => User.id u =? id) (users db)).

Definition update_row (data : list Alert.assign) (id : Z)
    (r : Z * Alert.t) : Z * Alert.t :=
  if fst r =? id then (fst r, Alert.apply data (snd r)) else r.

(** The users that a SET clause names in [resolved_by] exist. *)
Definition assigned_users_exist (db : Db) (data : list Alert.assign) : bool :=
  forallb (fun x => match x with
                    | Alert.SetResolvedBy u => user_exists db u
                    | _ => true
                    end) data.

(** [db.update('security_alerts', data, { id })]: the updated rows
    ([RETURNING *]) and the new store. *)
Definition update_alert (env : Env) (db : Db)
    (data : list Alert.assign) (id : Z)
  : Result (list (Z * Alert.t) * Db) :=
  if fails env UpdateAlert then Threw unavailable
  else
    let rows := map (update_row data id) (security_alerts db) in
    let updated := filter (fun r => fst r =? id) rows in
    match updated with
    | [] => Returned ([], db)
    | _ :: _ =>
        if negb (assigned_users_exist db data)
        then Threw foreign_key_violation
        else
          Returned (updated,
                    mkDb (devices db) (users db) (blocked_attempts db)
                         rows
                         (blocked_attempts_id_seq db)
                         (security_alerts_id_seq db))
    end.

End Store.

Import Store.

(** ** Server state and the handler monad *)

Module ConnectedDevice.
(** [req.session.connectedDevice] *)
Record t : Type := mk {
  id : Z;
  name : string;
  deviceType : string;
  macAddress : option string;
  ipAddress : option string;
  location : option string;
  firmwareVersion : option string;
  status : option string;
  connectedAt : string;
  sessionDuration : string
}.

Definition to_json (c : t) : Json :=
  JObj [("id", JNum (id c));
        ("name", JStr (name c));
        ("deviceType", JStr (deviceType c));
        ("macAddress", of_opt_string (macAddress c));
        ("ipAddress", of_opt_string (ipAddress c));
        ("location", of_opt_string (location c));
        ("firmwareVersion", of_opt_string (firmwareVersion c));
        ("status", of_opt_string (status c));
        ("connectedAt", JStr (connectedAt c));
        ("sessionDuration", JStr (sessionDuration c))].
End ConnectedDevice.

(** [req.session]: the authenticated user (put there by
    [requireAuthOrDeny]) and the connection, if any. *)
Record Session : Type := mkSession {
  user_id : Z;
  connectedDevice : option ConnectedDevice.t
}.

Inductive level : Type := Info | Warn | Err.

Record St : Type := mkSt {
  db : Db;
  session : Session;
  logged : list (level * string)
}.

Definition M (A : Type) : Type := St -> Result A * St.

Definition ret {A : Type} (a : A) : M A :=
  fun s => (Returned a, s).

Definition bind {A B : Type} (m : M A) (k : A -> M B) : M B :=
  fun s =>
    match m s with
    | (Returned a, s') => k a s'
    | (Threw e, s') => (Threw e, s')
    end.

Definition throw {A : Type} (e : Error) : M A :=
  fun s => (Threw e, s).

(** [try { body } catch (error) { handler }]: what [body] did to the state
    before it threw stays done. *)
Definition try_catch {A : Type} (body : M A) (handler : Error -> M A) : M A :=
  fun s =>
    match body s with
    | (Returned a, s') => (Returned a, s')
    | (Threw e, s') => handler e s'
    end.

Notation "x <- c1 ;; c2" := (bind c1 (fun x => c2))
  (at level 61, c1 at next level, right associativity).
Notation "c1 ;; c2" := (bind c1 (fun _ => c2))
  (at level 61, right associativity).

(** [await db.f(...)] *)
Definition await {A : Type} (q : Db -> Result (A * Db)) : M A :=
  fun s =>
    match q (db s) with
    | Returned (a, db') => (Returned a, mkSt db' (session s) (logged s))
    | Threw e => (Threw e, s)
    end.

(** A read leaves the store as it is. *)
Definition reading {A : Type} (q : Db -> Result A) (d : Db)
  : Result (A * Db) :=
  match q d with
  | Returned a => Returned (a, d)
  | Threw e => Threw e
  end.

(** [routeLogger.info / warn / error(msg, ...)] *)
Definition log (l : level) (msg : string) : M unit :=
  fun s => (Returned tt, mkSt (db s) (session s) (logged s ++ [(l, msg)])).

(** [req.session.connectedDevice = c] and [delete req.session.connectedDevice] *)
Definition set_connectedDevice (c : option ConnectedDevice.t) : M unit :=
  fun s => (Returned tt,
            mkSt (db s) (mkSession (user_id (session s)) c) (logged s)).

Definition get_session : M Session :=
  fun s => (Returned (session s), s).

(** [res.status(n).json(body)] *)
Record Response : Type := mkResponse {
  status_code : Z;
  body : Json
}.

Definition failure (n : Z) (msg : string) : Response :=
  mkResponse n (JObj [("success", JBool false); ("message", JStr msg)]).

Definition opt_string_eqb (a : option string) (b : string) : bool :=
  match a with
  | Some s => (s =? b)%string
  | None => false
  end.

(** ** routes/deviceAccess.js *)

Module DeviceAccess.

(** What the handlers read from [req], the session apart.  [req.ip] is
    the peer address that Express supplies: a value that the INET NOT NULL
    column [blocked_attempts.source_ip] takes. *)
Record Request : Type := mkRequest {
  deviceId_param : string;        (* req.params.deviceId *)
  ip : string;                    (* req.ip *)
  userAgent : option string       (* req.get('User-Agent') *)
}.

(** Helper function to check if user has explicit permission to access
    device: the admin role, read from [users]; nothing else yet. *)
Definition hasDevicePermission (env : Env) (userId deviceId : Z) : M bool :=
  try_catch
    (userResult <- await (reading (fun d => select_role env d userId)) ;;
     match userResult with
     | role :: _ =>
         if opt_string_eqb role "admin" then ret true else ret false
     | [] => ret false
     end)
    (fun error =>
       log Err "Error checking device permissions" ;;
       ret false).

(** The object literal that [logBlockedAttempt] inserts. *)
Definition blocked_attempt_row (env : Env) (userId deviceId : Z)
    (sourceIp attemptType : string) (userAgent : option string)
    (details : list (string * Json)) : BlockedAttempt.t :=
  BlockedAttempt.mk
    sourceIp                      (* source_ip *)
    (Some deviceId)               (* target_device_id *)
    attemptType                   (* attempt_type *)
    (now env)                     (* blocked_at: new Date() *)
    1                             (* attempt_count *)
    userAgent                     (* user_agent *)
    (JObj (spread
             [("user_id", JNum userId);
              ("blocked_reason",
               or_else (get "reason" details) (JStr "unauthorized_access"))]
             details)).           (* request_details *)

(** Helper function to log blocked attempts. *)
Definition logBlockedAttempt (env : Env) (userId deviceId : Z)
    (sourceIp attemptType : string) (userAgent : option string)
    (details : list (string * Json)) : M unit :=
  try_catch
    (await (fun d =>
       insert_blocked_attempt env d
         (blocked_attempt_row env userId deviceId sourceIp attemptType
            userAgent details)) ;;
     log Warn "Blocked device access attempt logged")
    (fun error => log Err "Error logging blocked attempt").

(** The object literal that [createSecurityAlert] inserts. *)
Definition security_alert_row (env : Env) (deviceId : Z)
    (alertType severity description sourceIp : string)
    (metadata : list (string * Json)) : Alert.t :=
  Alert.mk
    (Some deviceId)               (* device_id *)
    alertType                     (* alert_type *)
    severity                      (* severity *)
    (Some description)            (* description *)
    (Some sourceIp)               (* source_ip *)
    (now env)                     (* detected_at: new Date() *)
    None                          (* resolved_at *)
    (Some "active")               (* status *)
    None                          (* resolved_by *)
    (Some (JObj metadata)).       (* metadata *)

(** Helper function to create security alert. *)
Definition createSecurityAlert (env : Env) (deviceId : Z)
    (alertType severity description sourceIp : string)
    (metadata : list (string * Json)) : M unit :=
  try_catch
    (await (fun d =>
       insert_security_alert env d
         (security_alert_row env deviceId alertType severity description
            sourceIp metadata)) ;;
     log Warn "Security alert created")
    (fun error => log Err "Error creating security alert").

Definition snapshot (env : Env) (device : Device.t) : ConnectedDevice.t :=
  ConnectedDevice.mk
    (Device.id device)
    (Device.name device)
    (Device.device_type device)
    (Device.mac_address device)
    (Device.ip_address device)
    (Device.location device)
    (Device.firmware_version device)
    (Device.status device)
    (localeNow env)
    "0m 0s".

Definition connected (device : Device.t) (c : ConnectedDevice.t) : Response :=
  mkResponse 200
    (JObj [("success", JBool true);
           ("message",
            JStr ("Successfully connected to " ++ Device.name device));
           ("device", ConnectedDevice.to_json c)]).

(** [router.post('/connect/:deviceId', requireAuthOrDeny, ...)] *)
Definition connect (env : Env) (req : Request) : M Response :=
  try_catch
    (sess <- get_session ;;
     let userId := user_id sess in
     let sourceIp := ip req in
     let userAgent := userAgent req in
     match parseInt (deviceId_param req) with
     | None => ret (failure 400 "Invalid device ID")
     | Some deviceId =>
         (* Check if device exists and is online *)
         deviceResult <-
           await (reading (fun d => select_device env d deviceId)) ;;
         match deviceResult with
         | [] =>
             logBlockedAttempt env userId deviceId sourceIp
               "invalid_device" userAgent
               [("reason", JStr "device_not_found")] ;;
             ret (failure 404 "Device not found")
         | device :: _ =>
             if negb (opt_string_eqb (Device.status device) "online") then
               logBlockedAttempt env userId deviceId sourceIp
                 "offline_device" userAgent
                 [("reason", JStr "device_offline");
                  ("device_status",
                   of_opt_string (Device.status device))] ;;
               ret (failure 400 "Device is currently offline")
             else
               (* Check if user has explicit permission *)
               hasPermission <- hasDevicePermission env userId deviceId ;;
               let establish : M Response :=
                 (* Successful connection *)
                 let connectedDevice := snapshot env device in
                 set_connectedDevice (Some connectedDevice) ;;
                 log Info "Device connection established" ;;
                 ret (connected device connectedDevice) in
               if negb hasPermission then
                 if Device.has_security_enabled device then
                   (* Device has security - block the attempt *)
                   logBlockedAttempt env userId deviceId sourceIp
                     "unauthorized_access" userAgent
                     [("reason", JStr "no_permission_secured_device");
                      ("device_name", JStr (Device.name device));
                      ("security_enabled", JBool true)] ;;
                   ret (failure 403
                          "Access denied. This device requires explicit permission and has security enabled.")
                 else
                   (* allow access but create security alert *)
                   createSecurityAlert env deviceId
                     "Unauthorized Device Access"
                     "medium"
                     ("User accessed unsecured device without explicit permission: "
                        ++ Device.name device)
                     sourceIp
                     [("user_id", JNum userId);
                      ("device_name", JStr (Device.name device));
                      ("access_granted", JBool true);
                      ("security_enabled", JBool false);
                      ("reason", JStr "unsecured_device_access")] ;;
                   log Warn "Unsecured device accessed without permission" ;;
                   establish
               else establish
         end
     end)
    (fun error =>
       log Err "Device connection error" ;;
       ret (failure 500 "An error occurred while connecting to the device")).

(** [router.post('/disconnect/:deviceId', requireAuthOrDeny, ...)] *)
Definition disconnect (req : Request) : M Response :=
  try_catch
    (sess <- get_session ;;
     match parseInt (deviceId_param req) with
     | None => ret (failure 400 "Invalid device ID")
     | Some deviceId =>
         (* Check if user is connected to this device *)
         match connectedDevice sess with
         | None => ret (failure 400 "You are not connected to this device")
         | Some c =>
             if negb (ConnectedDevice.id c =? deviceId) then
               ret (failure 400 "You are not connected to this device")
             else
               let deviceName := ConnectedDevice.name c in
               (* Clear the connection *)
               set_connectedDevice None ;;
               log Info "Device disconnection" ;;
               ret (mkResponse 200
                      (JObj [("success", JBool true);
                             ("message",
                              JStr ("Successfully disconnected from "
                                      ++ deviceName))]))
         end
     end)
    (fun error =>
       log Err "Device disconnection error" ;;
       ret (failure 500
              "An error occurred while disconnecting from the device")).

End DeviceAccess.

(** ** routes/alerts.js: resolving an alert *)

Module Alerts.

(** What the handler reads from [req]; the body is JSON in which
    [resolved_by], when present, is a number and [resolution_note] a
    string. *)
Record Request : Type := mkRequest {
  id_param : string;                 (* req.params.id *)
  resolved_by : option Z;            (* req.body.resolved_by *)
  resolution_note : option string    (* req.body.resolution_note *)
}.

Definition refusal (n : Z) (msg : string) : Response :=
  mkResponse n (JObj [("success", JBool false); ("error", JStr msg)]).

Definition of_opt_Z (n : option Z) : Json :=
  match n with Some n => JNum n | None => JNull end.

Definition resolved (row : Z * Alert.t) : Response :=
  mkResponse 200
    (JObj [("success", JBool true);
           ("message", JStr "Alert resolved successfully");
           ("data",
            JObj [("id", JNum (fst row));
                  ("status", of_opt_string (Alert.status (snd row)));
                  ("resolvedAt", of_opt_Z (Alert.resolved_at (snd row)));
                  ("resolvedBy", of_opt_Z (Alert.resolved_by (snd row)))])]).

(** [if (resolved_by)] and [if (resolution_note)] *)
Definition given_user (u : option Z) : option Z :=
  match u with
  | Some n => if n =? 0 then None else Some n
  | None => None
  end.

Definition given_note (n : option string) : option string :=
  match n with
  | Some s => if (s =? "")%string then None else Some s
  | None => None
  end.

Section Resolve.

(** [JSON.parse] applied to the [metadata] value that the driver hands
    over (a [jsonb] column arrives decoded, and is turned into a string
    again by [JSON.parse]); [None] when it throws a [SyntaxError]. *)
Variable JSON_parse : Json -> option Json.

(** [alert.metadata ? JSON.parse(alert.metadata) : {}], then
    [currentMetadata.resolution_note = resolution_note]. *)
Definition with_resolution_note (metadata : option Json) (note : string)
  : M Json :=
  let current :=
    match metadata with
    | Some m => if truthy m then JSON_parse m else Some (JObj [])
    | None => Some (JObj [])
    end in
  match current with
  | None => throw (mkError None "Unexpected token in JSON")
  | Some JNull =>
      throw (mkError None "Cannot set properties of null")
  | Some (JObj fields) =>
      ret (JObj (set "resolution_note" (JStr note) fields))
  | Some primitive => ret primitive
  end.

(** The end of the handler, once the checks have passed: build
    [updateData], send the one UPDATE, answer. *)
Definition write_resolution (env : Env) (req : Request) (alertId : Z)
    (alert : Alert.t) : M Response :=
  let updateData :=
    ([Alert.SetStatus "resolved";
      Alert.SetResolvedAt (now env)]
     ++ match given_user (resolved_by req) with
        | Some u => [Alert.SetResolvedBy u]
        | None => []
        end)%list in
  (* Add resolution note to metadata if provided *)
  updateData <-
    match given_note (resolution_note req) with
    | Some note =>
        m <- with_resolution_note (Alert.metadata alert) note ;;
        ret (updateData ++ [Alert.SetMetadata m])%list
    | None => ret updateData
    end ;;
  updatedAlerts <-
    await (fun d => update_alert env d updateData alertId) ;;
  match updatedAlerts with
  | [] => ret (refusal 404 "Alert not found")
  | row :: _ => ret (resolved row)
  end.

(** [router.put('/:id/resolve', ...)] *)
Definition resolve (env : Env) (req : Request) : M Response :=
  try_catch
    (match parseInt (id_param req) with
     | None => ret (refusal 400 "Invalid alert ID")
     | Some alertId =>
         (* Check if alert exists and is active *)
         found <- await (reading (fun d => find_alert env d alertId)) ;;
         match found with
         | None => ret (refusal 404 "Alert not found")
         | Some alert =>
             if negb (opt_string_eqb (Alert.status alert) "active") then
               ret (refusal 400 "Alert is already resolved or not active")
             else
               (* Validate user exists if resolved_by is provided *)
               match given_user (resolved_by req) with
               | Some u =>
                   user <- await (reading (fun d => find_user env d u)) ;;
                   match user with
                   | None => ret (refusal 400 "User not found")
                   | Some _ => write_resolution env req alertId alert
                   end
               | None => write_resolution env req alertId alert
               end
         end
     end)
    (fun error =>
       log Err "Resolve alert error" ;;
       ret (mkResponse 500
              (JObj [("success", JBool false);
                     ("error", JStr "Failed to resolve alert");
                     ("message", JStr (message error))]))).

End Resolve.

End Alerts.

Import DeviceAccess.

(** ** Statement helpers *)

(** The environment [env] with the outcome of both recorder writes forced:
    [failing = true] makes [db.insert] throw for [blocked_attempts] and
    [security_alerts], [false] lets the store decide on the row alone. *)
Definition with_recorder_writes (failing : bool) (env : Env) : Env :=
  mkEnv (fun q => match q with
                  | InsertBlockedAttempt | InsertSecurityAlert => failing
                  | _ => fails env q
                  end)
        (now env) (localeNow env).

(** No row of [users] gives [userId] the role [admin]. *)
Definition not_admin (d : Db) (userId : Z) : Prop :=
  forall u, In u (users d) -> User.id u = userId ->
            User.role u <> Some "admin".

(** What [hasDevicePermission] answers. *)
Definition permitted (env : Env) (d : Db) (userId : Z) : bool :=
  match select_role env d userId with
  | Returned (role :: _) => opt_string_eqb role "admin"
  | _ => false
  end.

(** The store after a recorder ran: the row is there if the store took it. *)
Definition after_blocked_attempt (env : Env) (d : Db)
    (row : BlockedAttempt.t) : Db :=
  match insert_blocked_attempt env d row with
  | Returned (_, d') => d'
  | Threw _ => d
  end.

Definition after_security_alert (env : Env) (d : Db) (row : Alert.t) : Db :=
  match insert_security_alert env d row with
  | Returned (_, d') => d'
  | Threw _ => d
  end.

(** ** The decision table *)

(** The outcomes of a connect request (error taxonomy of the decision
    engine, and [Allowed]). *)
Inductive outcome : Type :=
| InvalidInput
| StorageFailure
| NotFound
| DeviceOffline
| Forbidden
| Allowed (device : Device.t).

(** The decision table read off the specification: validate, look the
    device up, check that it is online, then permission and posture.  It
    reads the store and never writes. *)
Definition decision (env : Env) (d : Db) (userId : Z) (param : string)
  : outcome :=
  match parseInt param with
  | None => InvalidInput
  | Some deviceId =>
      match select_device env d deviceId with
      | Threw _ => StorageFailure
      | Returned [] => NotFound
      | Returned (device :: _) =>
          if negb (opt_string_eqb (Device.status device) "online")
          then DeviceOffline
          else if negb (permitted env d userId)
                  && Device.has_security_enabled device
          then Forbidden
          else Allowed device
      end
  end.

Definition response_of (env : Env) (o : outcome) : Response :=
  match o with
  | InvalidInput => failure 400 "Invalid device ID"
  | StorageFailure =>
      failure 500 "An error occurred while connecting to the device"
  | NotFound => failure 404 "Device not found"
  | DeviceOffline => failure 400 "Device is currently offline"
  | Forbidden =>
      failure 403
        "Access denied. This device requires explicit permission and has security enabled."
  | Allowed device => connected device (snapshot env device)
  end.

Definition session_after (env : Env) (o : outcome) (ss : Session) : Session :=
  match o with
  | Allowed device => mkSession (user_id ss) (Some (snapshot env device))
  | _ => ss
  end.

(** ** Sample data: the scenarios of the specification *)

Definition lobby_camera : Device.t :=
  Device.mk 1 "Lobby Camera" "camera" None (Some "10.0.0.11")
    (Some "Lobby") (Some "2.1") (Some "offline").

Definition thermostat : Device.t :=
  Device.mk 2 "Thermostat" "sensor" None (Some "10.0.0.12")
    None (Some "1.0") (Some "online").

Definition garage_sensor : Device.t :=
  Device.mk 3 "Garage Sensor" "sensor" None None
    (Some "Garage") (Some "") (Some "online").

Definition sample_db : Db :=
  mkDb [lobby_camera; thermostat; garage_sensor]
       [User.mk 1 (Some "admin"); User.mk 2 (Some "user")]
       [] [] 0 0.

Definition working : Env :=
  mkEnv (fun _ => false) 1700000000000 "11/14/2023, 10:13:20 PM".

Definition signed_in (userId : Z) : St :=
  mkSt sample_db (mkSession userId None) [].

Definition request_for (param : string) : Request :=
  mkRequest param "192.0.2.7" (Some "curl/8.0").

(** Alerts for the resolve scenarios. *)
Definition sample_alert (st : option string) (at_ : option Z) : Alert.t :=
  Alert.mk (Some 3) "Unauthorized Device Access" "medium"
    (Some "User accessed unsecured device without explicit permission: Garage Sensor")
    (Some "192.0.2.7") 1690000000000 at_ st None None.

Definition alerts_db : Db :=
  mkDb [lobby_camera; thermostat; garage_sensor]
       [User.mk 1 (Some "admin"); User.mk 2 (Some "user")]
       []
       [(1, sample_alert (Some "active") None);
        (2, sample_alert (Some "resolved") (Some 1695000000000))]
       0 2.

Definition alerts_state : St := mkSt alerts_db (mkSession 1 None) [].

(** A stand-in for [JSON.parse] on a decoded value: an object is turned
    into "[object Object]", which is not JSON. *)
Definition sample_JSON_parse (v : Json) : option Json :=
  match v with
  | JObj _ => None
  | JStr _ => None
  | other => Some other
  end.

(** * Further code of the repository

    The rest of [routes/deviceAccess.js] and [routes/alerts.js], the
    gates of [middleware/auth.js] in front of them, [query] of
    [config/database.js] under them, and the numeric settings of
    [config/env.js]. *)

(** ** [Number.prototype.toString()] on an integer *)

Module Text.

(** The decimal numeral of [n], with a minus sign when negative: what
    [String(n)], [n.toString()] and a template literal give for an integer
    below 10^21 in absolute value. *)
Definition toString (n : Z) : string :=
  NilZero.string_of_int (Z.to_int n).

(** The Number value of an integer: the nearest double, ties to the even
    mantissa.  Integers up to 2^53 in absolute value are their own Number
    value.  (From 2^1024 on the Number value is [Infinity], which this
    does not give.) *)
Definition numberValue (z : Z) : Z :=
  let m := Z.abs z in
  let bits := Z.log2 m + 1 in
  if bits <=? 53 then z
  else
    let sh := bits - 53 in
    let q := Z.shiftr m sh in
    let rest := Z.land m (Z.ones sh) in
    let half := Z.shiftl 1 (sh - 1) in
    let q' :=
      if (half <? rest) || ((rest =? half) && Z.odd q) then q + 1 else q in
    Z.sgn z * Z.shiftl q' sh.

(** [parseInt(s, 10)]: as [parseInt], but the radix is given, so that a
    [0x] prefix is not looked for; the result is the Number value of the
    digits read.  White space is skipped on the ASCII range. *)
Definition parseInt10 (s : string) : option Z :=
  let inputString := trimStart s in
  let '(sign, unsigned) :=
    match inputString with
    | String "-" r => (-1, r)
    | String "+" r => (1, r)
    | _ => (1, inputString)
    end in
  option_map (fun mathInt => numberValue (sign * mathInt))
    (parseDigits 10 unsigned None).


End Text.

(** ** config/database.js: [query] *)

Module Database.

(** What one pass through the [try] block of [query] meets. *)
Inductive attempt (A : Type) : Type :=
| ConnectFails (e : Error)         (* pool.connect() rejects *)
| QueryFails (e : Error)           (* client.query() rejects *)
| QueryReturns (res : A).
Arguments ConnectFails {A} e.
Arguments QueryFails {A} e.
Arguments QueryReturns {A} res.

(** What [query] and [transaction] do that can be seen from outside. *)
Inductive event : Type :=
| Connected                        (* client = await pool.connect() *)
| Released                         (* client.release() *)
| ErrorLogged                      (* dbLogger.error('Database query error') *)
| RetryLogged                      (* dbLogger.warn('Retrying query') *)
| Waited (ms : Z)                  (* await new Promise(... setTimeout ...) *)
| Sent (text : string)             (* await client.query(text) *)
| Called.                          (* await callback(client) *)

(** "Don't retry for certain types of errors": relation or column does
    not exist, unique violation, foreign key violation. *)
Definition not_retried (e : Error) : bool :=
  match code e with
  | Some c =>
      (c =? "42P01")%string || (c =? "42703")%string
      || (c =? "23505")%string || (c =? "23503")%string
  | None => false
  end.

(** [Math.min(1000 * Math.pow(2, attempt - 1), 5000)], for [attempt >= 1]. *)
Definition waitTime (attempt : nat) : Z :=
  Z.min (1000 * 2 ^ (Z.of_nat attempt - 1)) 5000.

Section Query.

Variable A : Type.

(** [pool k]: what the pool and the server do at the pass that starts with
    [attempt = k]. *)
Variable pool : nat -> attempt A.

Variable retries : nat.

(** The [while (attempt <= retries)] loop; [fuel] bounds the passes.
    [Returned None] is the [undefined] of a function that falls off its
    end.  The [finally] block runs last in a pass, after the wait of the
    [catch] block. *)
Fixpoint query_loop (fuel attempt : nat) : Result (option A) * list event :=
  match fuel with
  | O => (Returned None, [])
  | S fuel' =>
      if negb (attempt <=? retries)%nat then (Returned None, [])
      else
        match pool attempt with
        | QueryReturns res =>
            (Returned (Some res), [Connected; Released])
        | ConnectFails e =>
            let attempt := S attempt in
            if not_retried e then (Threw e, [ErrorLogged])
            else if (retries <? attempt)%nat then (Threw e, [ErrorLogged])
            else
              let '(r, evs) := query_loop fuel' attempt in
              (r, [ErrorLogged; RetryLogged; Waited (waitTime attempt)]
                    ++ evs)%list
        | QueryFails e =>
            let attempt := S attempt in
            if not_retried e then
              (Threw e, [Connected; ErrorLogged; Released])
            else if (retries <? attempt)%nat then
              (Threw e, [Connected; ErrorLogged; Released])
            else
              let '(r, evs) := query_loop fuel' attempt in
              (r, [Connected; ErrorLogged; RetryLogged;
                   Waited (waitTime attempt); Released] ++ evs)%list
        end
  end.

(** [query(text, params, retries)]: [attempt] starts at 0 and a pass ends
    the loop or adds one to it, so [retries + 1] passes are enough. *)
Definition query : Result (option A) * list event :=
  query_loop (S retries) 0.

(** A pass after which the loop goes round again, fuel and [retries]
    permitting: it failed, and not with one of the four codes. *)
Definition retryable (a : attempt A) : bool :=
  match a with
  | ConnectFails e | QueryFails e => negb (not_retried e)
  | QueryReturns _ => false
  end.

(** What [query] makes of the pass it stops at. *)
Definition settled (a : attempt A) : Result (option A) :=
  match a with
  | QueryReturns res => Returned (Some res)
  | ConnectFails e | QueryFails e => Threw e
  end.

(** The first pass from [a] on that is not [retryable], or the pass
    [a + n] if there is none before it. *)
Fixpoint last_pass_from (n a : nat) : nat :=
  match n with
  | O => a
  | S n' => if retryable (pool a) then last_pass_from n' (S a) else a
  end.

Definition last_pass : nat := last_pass_from retries 0.

End Query.

(** How many clients the events leave checked out, starting from [held];
    [None] when a client is released that was not held, or a second one
    is taken while one is held. *)
Fixpoint clients_held (evs : list event) (held : bool) : option bool :=
  match evs with
  | [] => Some held
  | Connected :: evs' => if held then None else clients_held evs' true
  | Released :: evs' => if held then clients_held evs' false else None
  | _ :: evs' => clients_held evs' held
  end.

Definition waits (evs : list event) : list Z :=
  flat_map (fun e => match e with Waited ms => [ms] | _ => [] end) evs.

Section Transaction.

Variable A : Type.

(** What the pool, the client and the callback do in one run of
    [transaction]: [pool.connect()] rejects or gives a client, each
    statement sent to the client is rejected or not, the callback throws or
    returns. *)
Record run : Type := mkRun {
  connects : option Error;
  begins : option Error;
  calls : Result A;
  commits : option Error;
  rolls_back : option Error
}.

(** The [try] block: BEGIN, the callback, COMMIT. *)
Definition attempted (r : run) : Result A * list event :=
  match begins r with
  | Some error => (Threw error, [Sent "BEGIN"])
  | None =>
      match calls r with
      | Threw error => (Threw error, [Sent "BEGIN"; Called])
      | Returned result =>
          match commits r with
          | Some error =>
              (Threw error, [Sent "BEGIN"; Called; Sent "COMMIT"])
          | None =>
              (Returned result, [Sent "BEGIN"; Called; Sent "COMMIT"])
          end
      end
  end.

(** [transaction(callback)]: the client is taken before the [try], the
    [catch] block sends ROLLBACK and throws the error again, the [finally]
    block releases the client. *)
Definition transaction (r : run) : Result A * list event :=
  match connects r with
  | Some error => (Threw error, [])
  | None =>
      match attempted r with
      | (Returned result, evs) =>
          (Returned result, Connected :: evs ++ [Released])%list
      | (Threw error, evs) =>
          match rolls_back r with
          | Some error' =>
              (Threw error',
               Connected :: evs ++ [Sent "ROLLBACK"; Released])%list
          | None =>
              (Threw error,
               Connected :: evs ++ [Sent "ROLLBACK"; Released])%list
          end
      end
  end.

End Transaction.

(** The statements sent, in order. *)
Definition statements (evs : list event) : list string :=
  flat_map (fun e => match e with Sent text => [text] | _ => [] end) evs.

End Database.

(** ** routes/deviceAccess.js: whose attempts the activity list shows *)

Module Activity.

(** What [request_details::jsonb->>'user_id'] gives: the text of a
    scalar, SQL NULL for a JSON null or a missing key, and for a nested
    object its JSON text, which is not spelled out here: it begins with a
    brace and so is never the numeral of a user id. *)
Inductive field : Type :=
| Text (s : string)
| Null
| Nested.

Definition field_text (v : Json) (k : string) : field :=
  match v with
  | JObj fields =>
      match get k fields with
      | Some (JStr s) => Text s
      | Some (JNum n) => Text (Text.toString n)
      | Some (JBool b) => Text (if b then "true" else "false")
      | Some (JObj _) => Nested
      | Some JNull | None => Null
      end
  | _ => Null
  end.

(** [WHERE ba.request_details::jsonb->>'user_id' = $1] with
    [$1 = userId.toString()], in [getUserRecentActivity]. *)
Definition shown_to (userId : Z) (row : BlockedAttempt.t) : bool :=
  match field_text (BlockedAttempt.request_details row) "user_id" with
  | Text s => (s =? Text.toString userId)%string
  | Null | Nested => false
  end.

End Activity.

(** ** routes/alerts.js: reading, creating and deleting an alert *)

Module AlertRoutes.

(** The store may also fail the two statements that only these routes
    send. *)
Record Env' : Type := mkEnv' {
  base : Env;
  fails_select_alert : bool;       (* SELECT sa.*, ... WHERE sa.id = $1 *)
  fails_delete_alert : bool        (* DELETE FROM security_alerts ... *)
}.

(** [a LEFT JOIN b ON ...]: every match, or the row alone. *)
Definition left_join (A B : Type) (on : A -> B -> bool)
    (l : list A) (r : list B) : list (A * option B) :=
  flat_map (fun a =>
              match filter (on a) r with
              | [] => [(a, None)]
              | ms => map (fun b => (a, Some b)) ms
              end) l.

Definition refers_to (k : option Z) (id : Z) : bool :=
  match k with
  | Some x => x =? id
  | None => false
  end.

(** [SELECT sa.*, d.name as device_name, d.device_type, u.name as
     resolved_by_name FROM security_alerts sa LEFT JOIN devices d ON
     sa.device_id = d.id LEFT JOIN users u ON sa.resolved_by = u.id
     WHERE sa.id = $1]. *)
Definition select_alert (e : Env') (d : Db) (alertId : Z)
  : Result (list ((Z * Alert.t) * option Device.t * option User.t)) :=
  if fails_select_alert e then Threw unavailable
  else
    Returned
      (filter (fun r => fst (fst (fst r)) =? alertId)
         (left_join
            (fun (r : (Z * Alert.t) * option Device.t) u =>
               refers_to (Alert.resolved_by (snd (fst r))) (User.id u))
            (left_join
               (fun (r : Z * Alert.t) dev =>
                  refers_to (Alert.device_id (snd r)) (Device.id dev))
               (security_alerts d) (devices d))
            (users d))).

(** [db.delete('security_alerts', { id })]: the [rowCount] and the new
    store.  No table refers to [security_alerts]. *)
Definition delete_alert (e : Env') (d : Db) (alertId : Z)
  : Result (Z * Db) :=
  if fails_delete_alert e then Threw unavailable
  else
    Returned
      (Z.of_nat
         (List.length
            (filter (fun r => fst r =? alertId) (security_alerts d))),
       mkDb (devices d) (users d) (blocked_attempts d)
            (filter (fun r => negb (fst r =? alertId)) (security_alerts d))
            (blocked_attempts_id_seq d) (security_alerts_id_seq d)).

(** [db.findById('devices', id)]: [rows[0] || null]. *)
Definition find_device (e : Env') (d : Db) (id : Z)
  : Result (option Device.t) :=
  match select_device (base e) d id with
  | Returned rows => Returned (hd_error rows)
  | Threw err => Threw err
  end.

Definition thrown (what : string) (error : Error) : Response :=
  mkResponse 500
    (JObj [("success", JBool false);
           ("error", JStr what);
           ("message", JStr (message error))]).

Section Reading.

(** The [name] column of a [users] row (VARCHAR NOT NULL), which the
    store's record of a user does not carry. *)
Variable user_name : User.t -> string.

Definition found (row : (Z * Alert.t) * option Device.t * option User.t)
  : Response :=
  let alert := snd (fst (fst row)) in
  let device := snd (fst row) in
  let user := snd row in
  mkResponse 200
    (JObj [("success", JBool true);
           ("data",
            JObj [("id", JNum (fst (fst (fst row))));
                  ("alertType", JStr (Alert.alert_type alert));
                  ("severity", JStr (Alert.severity alert));
                  ("description", of_opt_string (Alert.description alert));
                  ("sourceIp", of_opt_string (Alert.source_ip alert));
                  ("detectedAt", JNum (Alert.detected_at alert));
                  ("resolvedAt", Alerts.of_opt_Z (Alert.resolved_at alert));
                  ("status", of_opt_string (Alert.status alert));
                  ("metadata",
                   match Alert.metadata alert with
                   | Some m => m
                   | None => JNull
                   end);
                  ("device",
                   JObj [("id", Alerts.of_opt_Z (Alert.device_id alert));
                         ("name",
                          of_opt_string (option_map Device.name device));
                         ("type",
                          of_opt_string
                            (option_map Device.device_type device))]);
                  ("resolvedBy",
                   JObj [("id", Alerts.of_opt_Z (Alert.resolved_by alert));
                         ("name",
                          of_opt_string (option_map user_name user))])])]).

(** [router.get('/:id', ...)] *)
Definition get_alert (e : Env') (id_param : string) : M Response :=
  try_catch
    (match parseInt id_param with
     | None => ret (Alerts.refusal 400 "Invalid alert ID")
     | Some alertId =>
         result <- await (reading (fun d => select_alert e d alertId)) ;;
         match result with
         | [] => ret (Alerts.refusal 404 "Alert not found")
         | alert :: _ => ret (found alert)
         end
     end)
    (fun error =>
       log Err "Get alert error" ;;
       ret (thrown "Failed to fetch alert" error)).

End Reading.

(** The body of [POST /api/alerts]: JSON in which [device_id], when
    present, is a number, the texts are strings and [metadata] is any
    value. *)
Record NewAlert : Type := mkNewAlert {
  device_id : option Z;
  alert_type : option string;
  severity : option string;
  description : option string;
  source_ip : option string;
  metadata : option Json
}.

Definition validSeverities : list string :=
  ["low"; "medium"; "high"; "critical"].

(** [validSeverities.includes(severity)] *)
Definition includes (l : list string) (s : string) : bool :=
  existsb (fun x => (x =? s)%string) l.

Definition given_json (m : option Json) : option Json :=
  match m with
  | Some v => if truthy v then Some v else None
  | None => None
  end.

(** [alertData], with the columns that it leaves out at their defaults:
    [detected_at] is CURRENT_TIMESTAMP, the rest NULL. *)
Definition alertData (e : Env') (body : NewAlert)
    (alert_type severity : string) : Alert.t :=
  Alert.mk
    (Alerts.given_user (device_id body))
    alert_type
    severity
    (Alerts.given_note (description body))
    (Alerts.given_note (source_ip body))
    (now (base e))
    None
    (Some "active")
    None
    (given_json (metadata body)).

Definition created (row : Z * Alert.t) : Response :=
  mkResponse 201
    (JObj [("success", JBool true);
           ("message", JStr "Alert created successfully");
           ("data",
            JObj [("id", JNum (fst row));
                  ("alertType", JStr (Alert.alert_type (snd row)));
                  ("severity", JStr (Alert.severity (snd row)));
                  ("description",
                   of_opt_string (Alert.description (snd row)));
                  ("sourceIp", of_opt_string (Alert.source_ip (snd row)));
                  ("detectedAt", JNum (Alert.detected_at (snd row)));
                  ("status", of_opt_string (Alert.status (snd row)));
                  ("metadata",
                   match Alert.metadata (snd row) with
                   | Some m => m
                   | None => JNull
                   end)])]).

(** [router.post('/', ...)] *)
Definition create_alert (e : Env') (body : NewAlert) : M Response :=
  try_catch
    (match Alerts.given_note (alert_type body),
           Alerts.given_note (severity body) with
     | Some alert_type, Some severity =>
         (* Validate severity *)
         if negb (includes validSeverities severity) then
           ret (Alerts.refusal 400
                  "Invalid severity level. Must be one of: low, medium, high, critical")
         else
           let insert : M Response :=
             newAlert <-
               await (fun d =>
                        insert_security_alert (base e) d
                          (alertData e body alert_type severity)) ;;
             ret (created newAlert) in
           (* Validate device exists if device_id is provided *)
           match Alerts.given_user (device_id body) with
           | Some device_id =>
               device <- await (reading (fun d => find_device e d device_id)) ;;
               match device with
               | None => ret (Alerts.refusal 400 "Device not found")
               | Some _ => insert
               end
           | None => insert
           end
     | _, _ =>
         ret (Alerts.refusal 400 "Alert type and severity are required")
     end)
    (fun error =>
       log Err "Create alert error" ;;
       ret (thrown "Failed to create alert" error)).

(** [router.delete('/:id', ...)] *)
Definition remove_alert (e : Env') (id_param : string) : M Response :=
  try_catch
    (match parseInt id_param with
     | None => ret (Alerts.refusal 400 "Invalid alert ID")
     | Some alertId =>
         deletedCount <- await (fun d => delete_alert e d alertId) ;;
         if deletedCount =? 0 then
           ret (Alerts.refusal 404 "Alert not found")
         else
           ret (mkResponse 200
                  (JObj [("success", JBool true);
                         ("message", JStr "Alert deleted successfully")]))
     end)
    (fun error =>
       log Err "Delete alert error" ;;
       ret (thrown "Failed to delete alert" error)).

End AlertRoutes.

(** ** middleware/auth.js *)

Module Auth.

(** [req.session.user], as a login leaves it. *)
Record SessionUser : Type := mkUser {
  id : Z;
  role : option string
}.

(** The connection that a handler leaves in its session. *)
Definition connection_of (s : St) : option ConnectedDevice.t :=
  connectedDevice (session s).

(** [req.session]. *)
Record Raw : Type := mkRaw {
  user : option SessionUser;
  returnTo : option string;
  connectedDevice : option ConnectedDevice.t
}.

(** What a gate does with the request. *)
Inductive verdict : Type :=
| Next                                   (* next() *)
| Redirect (url : string)                (* res.redirect(url) *)
| Send (r : Response)                    (* res.status(n).json(...) *)
| Render (status : Z) (view : string).   (* res.status(n).render(view, ...) *)

(** [req.session && req.session.user] *)
Definition signed_in (session : option Raw) : option SessionUser :=
  match session with
  | Some s => user s
  | None => None
  end.

(** [req.session && req.session.user && req.session.user.role === 'admin'] *)
Definition is_admin (session : option Raw) : bool :=
  match signed_in session with
  | Some u => opt_string_eqb (role u) "admin"
  | None => false
  end.

(** [requireAuth]: the verdict and the session it leaves.  Without a
    session object, [req.session.returnTo = ...] throws. *)
Definition requireAuth (session : option Raw) (originalUrl : string)
  : Result (verdict * option Raw) :=
  match signed_in session with
  | Some _ => Returned (Next, session)
  | None =>
      match session with
      | Some s =>
          Returned (Redirect "/auth/login",
                    Some (mkRaw (user s) (Some originalUrl)
                            (connectedDevice s)))
      | None =>
          Threw (mkError None
                   "Cannot set properties of undefined (setting 'returnTo')")
      end
  end.

Definition requireAuthOrDeny (session : option Raw) : verdict :=
  match signed_in session with
  | Some _ => Next
  | None => Redirect "/access-denied"
  end.

Definition requireAuthAPI (session : option Raw) : verdict :=
  match signed_in session with
  | Some _ => Next
  | None =>
      Send (mkResponse 401
              (JObj [("success", JBool false);
                     ("error", JStr "Authentication required");
                     ("message",
                      JStr "You must be logged in to access this resource")]))
  end.

Definition requireAdmin (session : option Raw) : verdict :=
  if is_admin session then Next else Render 403 "error".

Definition requireAdminAPI (session : option Raw) : verdict :=
  if is_admin session then Next
  else
    Send (mkResponse 403
            (JObj [("success", JBool false);
                   ("error", JStr "Admin access required");
                   ("message",
                    JStr "You must have admin privileges to access this resource")])).

Definition redirectIfAuth (session : option Raw) : verdict :=
  match signed_in session with
  | Some _ => Redirect "/dashboard"
  | None => Next
  end.

(** [res.locals] after [attachUser]. *)
Record Locals : Type := mkLocals {
  locals_user : option SessionUser;
  isAuthenticated : bool;
  isAdmin : bool
}.

Definition attachUser (session : option Raw) : Locals :=
  mkLocals (signed_in session)
    (match signed_in session with Some _ => true | None => false end)
    (is_admin session).

(** What a route answers, gate included. *)
Inductive reply : Type :=
| Answered (r : Response)
| Redirected (url : string)
| Rendered (status : Z) (view : string).

(** The server as a mounted route sees it: the store, the log, and the
    session of the request. *)
Record World : Type := mkWorld {
  store : Db;
  journal : list (level * string);
  cookie_session : option Raw
}.

(** A handler of [routes/deviceAccess.js] run on the request.  Its first
    statement reads [req.session.user.id], which throws when the session or
    its user is missing; the [catch] block reads it again, so the error
    leaves the handler.  Otherwise the handler works on [req.session]: what
    it leaves there is the session of the next request, the user's id
    included. *)
Definition enter (handler : M Response) (w : World) : Result reply * World :=
  match cookie_session w with
  | None =>
      (Threw (mkError None
                "Cannot read properties of undefined (reading 'user')"),
       w)
  | Some raw =>
      match user raw with
      | None =>
          (Threw (mkError None
                    "Cannot read properties of undefined (reading 'id')"),
           w)
      | Some u =>
          let '(r, s') :=
            handler (mkSt (store w)
                       (mkSession (id u) (connectedDevice raw))
                       (journal w)) in
          (match r with
           | Returned resp => Returned (Answered resp)
           | Threw e => Threw e
           end,
           mkWorld (db s') (logged s')
             (Some (mkRaw (Some (mkUser (user_id (session s')) (role u)))
                      (returnTo raw) (connection_of s'))))
      end
  end.

(** [router.post(path, requireAuthOrDeny, handler)]: the handler runs
    when the gate calls [next()]. *)
Definition behind_requireAuthOrDeny (handler : M Response) (w : World)
  : Result reply * World :=
  match requireAuthOrDeny (cookie_session w) with
  | Next => enter handler w
  | Redirect url =>
      (Returned (Redirected url),
       mkWorld (store w)
         (journal w ++
            [(Warn,
              "Unauthorized access attempt - redirecting to access denied")])
         (cookie_session w))
  | Send r => (Returned (Answered r), w)
  | Render status view => (Returned (Rendered status view), w)
  end.

(** [POST /device-access/connect/:deviceId] and
    [POST /device-access/disconnect/:deviceId], as mounted. *)
Definition connect_route (env : Env) (req : DeviceAccess.Request)
  : World -> Result reply * World :=
  behind_requireAuthOrDeny (DeviceAccess.connect env req).

Definition disconnect_route (req : DeviceAccess.Request)
  : World -> Result reply * World :=
  behind_requireAuthOrDeny (DeviceAccess.disconnect req).

End Auth.

(** ** config/env.js: reading the environment *)

Module Config.

(** [process.env] *)
Definition Environment : Type := string -> option string.

(** A value that is set and not empty ([if (value)]). *)
Definition present (value : option string) : option string :=
  match value with
  | Some v => if (v =? "")%string then None else Some v
  | None => None
  end.

(** [validateEnvVar(name, defaultValue = null, required = false)] *)
Definition validateEnvVar (env : Environment) (name : string)
    (defaultValue : option string) (required : bool)
  : Result (option string) :=
  let value := env name in
  match present value with
  | Some v => Returned (Some v)
  | None =>
      if required then
        Threw (mkError None
                 ("Required environment variable " ++ name ++ " is not set"))
      else Returned defaultValue
  end.

(** [value.toLowerCase()], on the ASCII range. *)
Definition lower (c : ascii) : ascii :=
  let n := nat_of_ascii c in
  if ((65 <=? n) && (n <=? 90))%nat then ascii_of_nat (n + 32) else c.

Fixpoint toLowerCase (s : string) : string :=
  match s with
  | String c r => String (lower c) (toLowerCase r)
  | EmptyString => EmptyString
  end.

(** [toBool(value)] on what [validateEnvVar] returns. *)
Definition toBool (value : option string) : bool :=
  match value with
  | Some v => (toLowerCase v =? "true")%string || (v =? "1")%string
  | None => false
  end.

(** [toNumber(value, defaultValue = 0)]; [parseInt(null, 10)] is [NaN]. *)
Definition toNumber (value : option string) (defaultValue : Z) : Z :=
  match value with
  | Some v =>
      match Text.parseInt10 v with
      | Some num => num
      | None => defaultValue
      end
  | None => defaultValue
  end.

(** The part of [config] that [validateConfig] and the pool read. *)
Record t : Type := mk {
  NODE_ENV : option string;
  PORT : Z;
  database_port : Z;
  database_user : option string;
  database_password : option string;
  database_ssl : bool;
  database_max : Z;
  database_idleTimeoutMillis : Z;
  database_connectionTimeoutMillis : Z;
  session_secret : option string;
  session_cookie_secure : bool;
  security_jwtSecret : option string;
  security_bcryptRounds : Z;
  email_port : Z
}.

(** [validateEnvVar(name, defaultValue)], which cannot throw. *)
Definition optional (env : Environment) (name : string)
    (defaultValue : option string) : option string :=
  match validateEnvVar env name defaultValue false with
  | Returned v => v
  | Threw _ => None
  end.

(** [toNumber(validateEnvVar(name, defaultValue))] *)
Definition number (env : Environment) (name defaultValue : string) : Z :=
  toNumber (optional env name (Some defaultValue)) 0.

Definition load (env : Environment) : t :=
  mk (optional env "NODE_ENV" (Some "development"))
     (number env "PORT" "3000")
     (number env "DB_PORT" "5432")
     (optional env "DB_USER" (Some ""))
     (optional env "DB_PASSWORD" (Some ""))
     (toBool (optional env "DB_SSL" (Some "false")))
     (number env "DB_POOL_MAX" "10")
     (number env "DB_IDLE_TIMEOUT" "30000")
     (number env "DB_CONNECTION_TIMEOUT" "10000")
     (optional env "SESSION_SECRET"
        (Some "your_super_secret_session_key_here"))
     (opt_string_eqb (optional env "NODE_ENV" None) "production")
     (optional env "JWT_SECRET" (Some "your_jwt_secret_key_here"))
     (number env "BCRYPT_ROUNDS" "12")
     (number env "SMTP_PORT" "587").

(** [config.isProduction()] *)
Definition isProduction (config : t) : bool :=
  opt_string_eqb (NODE_ENV config) "production".

(** The [errors] that [validateConfig] collects. *)
Definition errors (config : t) : list string :=
  if isProduction config then
    ((match present (database_user config) with
      | Some _ => []
      | None => ["DB_USER is required in production"]
      end)
     ++ (match present (database_password config) with
         | Some _ => []
         | None => ["DB_PASSWORD is required in production"]
         end)
     ++ (if opt_string_eqb (session_secret config)
              "your_super_secret_session_key_here"
         then ["SESSION_SECRET must be set to a secure value in production"]
         else [])
     ++ (if opt_string_eqb (security_jwtSecret config)
              "your_jwt_secret_key_here"
         then ["JWT_SECRET must be set to a secure value in production"]
         else []))%list
  else [].

(** [validateConfig()], run when the module is loaded. *)
Definition validateConfig (config : t) : Result unit :=
  match errors config with
  | [] => Returned tt
  | _ :: _ => Threw (mkError None "Invalid environment configuration")
  end.

(** [require('./config/env')] *)
Definition require_env (env : Environment) : Result t :=
  match validateConfig (load env) with
  | Returned _ => Returned (load env)
  | Threw e => Threw e
  end.

End Config.

(** ** The routes together *)

Module Server.

(** A request to one of the routes modelled, with what the environment
    does while it is served. *)
Inductive request : Type :=
| Connect (env : Env) (req : DeviceAccess.Request)
| Disconnect (req : DeviceAccess.Request)
| GetAlert (e : AlertRoutes.Env') (id_param : string)
| CreateAlert (e : AlertRoutes.Env') (body : AlertRoutes.NewAlert)
| ResolveAlert (env : Env) (req : Alerts.Request)
| RemoveAlert (e : AlertRoutes.Env') (id_param : string).

Section Serving.

Variable JSON_parse : Json -> option Json.
Variable user_name : User.t -> string.

Definition handler (q : request) : M Response :=
  match q with
  | Connect env req => DeviceAccess.connect env req
  | Disconnect req => DeviceAccess.disconnect req
  | GetAlert e id_param => AlertRoutes.get_alert user_name e id_param
  | CreateAlert e body => AlertRoutes.create_alert e body
  | ResolveAlert env req => Alerts.resolve JSON_parse env req
  | RemoveAlert e id_param => AlertRoutes.remove_alert e id_param
  end.

(** The state after the requests [qs], served one after the other. *)
Definition serve (qs : list request) (s : St) : St :=
  fold_left (fun s q => snd (handler q s)) qs s.

End Serving.

(** The keys of a table are distinct and the sequence is not behind
    them. *)
Definition keyed (A : Type) (rows : list (Z * A)) (seq : Z) : Prop :=
  NoDup (map fst rows) /\ forall r, In r rows -> fst r <= seq.

(** [resolved_at] is set on the resolved alerts and on no other. *)
Definition resolution_recorded (a : Alert.t) : Prop :=
  Alert.resolved_at a <> None <-> Alert.status a = Some "resolved".

(** The foreign keys of the migrations hold. *)
Definition alert_refers (d : Db) (a : Alert.t) : Prop :=
  references (device_exists d) (Alert.device_id a) = true /\
  references (user_exists d) (Alert.resolved_by a) = true.

Definition attempt_refers (d : Db) (b : BlockedAttempt.t) : Prop :=
  references (device_exists d) (BlockedAttempt.target_device_id b) = true.

Record consistent (d : Db) : Prop := mkConsistent {
  alerts_keyed : keyed (security_alerts d) (security_alerts_id_seq d);
  attempts_keyed : keyed (blocked_attempts d) (blocked_attempts_id_seq d);
  alerts_resolution :
    forall r, In r (security_alerts d) -> resolution_recorded (snd r);
  alerts_refer :
    forall r, In r (security_alerts d) -> alert_refers d (snd r);
  attempts_refer :
    forall r, In r (blocked_attempts d) -> attempt_refers d (snd r)
}.

(** The writes that the routes send to the store, one per request at
    most. *)
Inductive write (d : Db) : Db -> Prop :=
| Nothing : write d d
| AttemptLogged (row : BlockedAttempt.t) :
    attempt_refers d row ->
    write d
      (mkDb (devices d) (users d)
         (blocked_attempts d ++ [(blocked_attempts_id_seq d + 1, row)])
         (security_alerts d)
         (blocked_attempts_id_seq d + 1) (security_alerts_id_seq d))
| AlertRaised (row : Alert.t) :
    alert_refers d row ->
    Alert.status row = Some "active" ->
    Alert.resolved_at row = None ->
    write d
      (mkDb (devices d) (users d) (blocked_attempts d)
         (security_alerts d ++ [(security_alerts_id_seq d + 1, row)])
         (blocked_attempts_id_seq d) (security_alerts_id_seq d + 1))
| AlertsResolved (data : list Alert.assign) (id at_ : Z) :
    assigned_users_exist d data = true ->
    (forall a,
        Alert.status (Alert.apply data a) = Some "resolved" /\
        Alert.resolved_at (Alert.apply data a) = Some at_) ->
    write d
      (mkDb (devices d) (users d) (blocked_attempts d)
         (map (update_row data id) (security_alerts d))
         (blocked_attempts_id_seq d) (security_alerts_id_seq d))
| AlertsRemoved (id : Z) :
    write d
      (mkDb (devices d) (users d) (blocked_attempts d)
         (filter (fun r => negb (fst r =? id)) (security_alerts d))
         (blocked_attempts_id_seq d) (security_alerts_id_seq d)).

(** An alert of [d'] continues the alert [a] of [d]: same id, same
    subject. *)
Definition continues (a : Z * Alert.t) (r : Z * Alert.t) : Prop :=
  fst r = fst a /\
  Alert.device_id (snd r) = Alert.device_id (snd a) /\
  Alert.alert_type (snd r) = Alert.alert_type (snd a) /\
  Alert.severity (snd r) = Alert.severity (snd a) /\
  Alert.detected_at (snd r) = Alert.detected_at (snd a).

(** How the store may differ after some requests. *)
Record extends (d d' : Db) : Prop := mkExtends {
  devices_kept : devices d' = devices d;
  users_kept : users d' = users d;
  attempts_kept :
    exists more, blocked_attempts d' = (blocked_attempts d ++ more)%list;
  alert_ids_grow : security_alerts_id_seq d <= security_alerts_id_seq d';
  alert_ids_fresh :
    forall r, In r (security_alerts d') ->
              fst r <= security_alerts_id_seq d ->
              exists a, In a (security_alerts d) /\ continues a r
}.

End Server.

(** ** Sample data: the alert routes *)

Definition alert_routes : AlertRoutes.Env' :=
  AlertRoutes.mkEnv' working false false.

Definition port_scan : AlertRoutes.NewAlert :=
  AlertRoutes.mkNewAlert (Some 3) (Some "Port Scan") (Some "high")
    (Some "Sequential probes of the garage sensor") (Some "192.0.2.9") None.

Definition sample_user_name (u : User.t) : string :=
  if User.id u =? 1 then "Ada" else "Ben".

Definition resolve_first : Alerts.Request :=
  Alerts.mkRequest "1" (Some 1) None.

(** A visitor's afternoon: user 2 connects to the garage sensor, an alert
    is raised by hand, the first alert is resolved by the administrator,
    the second deleted, and the visitor disconnects. *)
Definition visitor : St := mkSt alerts_db (mkSession 2 None) [].

Definition afternoon : list Server.request :=
  [Server.Connect working (request_for "3");
   Server.CreateAlert alert_routes port_scan;
   Server.ResolveAlert working resolve_first;
   Server.RemoveAlert alert_routes "2";
   Server.Disconnect (request_for "3")].

(** A production environment with its secrets set. *)
Definition production : Config.Environment :=
  fun name =>
    if (name =? "NODE_ENV")%string then Some "production"
    else if (name =? "DB_USER")%string then Some "iot"
    else if (name =? "DB_PASSWORD")%string then Some "s3cret"
    else if (name =? "SESSION_SECRET")%string then Some "k1"
    else if (name =? "JWT_SECRET")%string then Some "k2"
    else if (name =? "PORT")%string then Some "8080"
    else None.

(** * Proofs *)

(** ** Facts about the store *)

Lemma filter_head_exists (A : Type) (f : A -> bool) (l : list A) x r :
  filter f l = x :: r -> existsb f l = true.
Proof.
  intros H. apply existsb_exists. exists x.
  assert (Hin : In x (filter f l)) by (rewrite H; left; reflexivity).
  apply filter_In in Hin. exact Hin.
Qed.

Lemma filter_nil_exists (A : Type) (f : A -> bool) (l : list A) :
  filter f l = [] -> existsb f l = false.
Proof.
  induction l as [|a l IH]; simpl; [reflexivity|].
  destruct (f a); [discriminate|]. exact IH.
Qed.

Lemma select_device_found env d deviceId device rest :
  select_device env d deviceId = Returned (device :: rest) ->
  fails env SelectDevice = false /\
  device_exists d deviceId = true /\
  Device.id device = deviceId /\
  In device (devices d).
Proof.
  unfold select_device. destruct (fails env SelectDevice); [discriminate|].
  intros H. injection H as H.
  split; [reflexivity|]. split.
  - unfold device_exists. eapply filter_head_exists. exact H.
  - assert (Hin : In device (filter (fun x => Device.id x =? deviceId)
                               (devices d)))
      by (rewrite H; left; reflexivity).
    apply filter_In in Hin. destruct Hin as [Hin Heq].
    split; [lia | exact Hin].
Qed.

Lemma select_device_missing env d deviceId :
  select_device env d deviceId = Returned [] ->
  device_exists d deviceId = false.
Proof.
  unfold select_device. destruct (fails env SelectDevice); [discriminate|].
  intros H. injection H as H. unfold device_exists.
  apply filter_nil_exists. exact H.
Qed.

(** ** The recorders and the permission resolver, as state transformers *)

Lemma logBlockedAttempt_eq env userId deviceId sourceIp attemptType ua
    details s :
  logBlockedAttempt env userId deviceId sourceIp attemptType ua details s =
  match insert_blocked_attempt env (db s)
          (blocked_attempt_row env userId deviceId sourceIp attemptType
             ua details) with
  | Returned (_, db') =>
      (Returned tt,
       mkSt db' (session s)
         (logged s ++ [(Warn, "Blocked device access attempt logged")]))
  | Threw _ =>
      (Returned tt,
       mkSt (db s) (session s)
         (logged s ++ [(Err, "Error logging blocked attempt")]))
  end.
Proof.
  unfold logBlockedAttempt, try_catch, bind, await, log.
  destruct (insert_blocked_attempt _ _ _) as [[row db']|e];
    destruct s; reflexivity.
Qed.

Lemma createSecurityAlert_eq env deviceId alertType severity description
    sourceIp metadata s :
  createSecurityAlert env deviceId alertType severity description sourceIp
    metadata s =
  match insert_security_alert env (db s)
          (security_alert_row env deviceId alertType severity description
             sourceIp metadata) with
  | Returned (_, db') =>
      (Returned tt,
       mkSt db' (session s)
         (logged s ++ [(Warn, "Security alert created")]))
  | Threw _ =>
      (Returned tt,
       mkSt (db s) (session s)
         (logged s ++ [(Err, "Error creating security alert")]))
  end.
Proof.
  unfold createSecurityAlert, try_catch, bind, await, log.
  destruct (insert_security_alert _ _ _) as [[row db']|e];
    destruct s; reflexivity.
Qed.

Lemma hasDevicePermission_eq env userId deviceId s :
  exists lg,
    hasDevicePermission env userId deviceId s =
    (Returned (permitted env (db s) userId),
     mkSt (db s) (session s) (logged s ++ lg)).
Proof.
  unfold hasDevicePermission, permitted, try_catch, bind, await, reading,
    log, ret.
  destruct (select_role env (db s) userId) as [[|role rows]|e]; simpl.
  - exists []. rewrite app_nil_r. destruct s; reflexivity.
  - exists []. rewrite app_nil_r.
    destruct (opt_string_eqb role "admin"); destruct s; reflexivity.
  - eexists. reflexivity.
Qed.

Lemma logBlockedAttempt_state env userId deviceId sourceIp attemptType ua
    details s :
  exists lg,
    logBlockedAttempt env userId deviceId sourceIp attemptType ua details s =
    (Returned tt,
     mkSt (after_blocked_attempt env (db s)
             (blocked_attempt_row env userId deviceId sourceIp attemptType
                ua details))
          (session s) (logged s ++ lg)).
Proof.
  rewrite logBlockedAttempt_eq. unfold after_blocked_attempt.
  destruct (insert_blocked_attempt _ _ _) as [[row db']|e];
    eexists; reflexivity.
Qed.

Lemma createSecurityAlert_state env deviceId alertType severity description
    sourceIp metadata s :
  exists lg,
    createSecurityAlert env deviceId alertType severity description sourceIp
      metadata s =
    (Returned tt,
     mkSt (after_security_alert env (db s)
             (security_alert_row env deviceId alertType severity description
                sourceIp metadata))
          (session s) (logged s ++ lg)).
Proof.
  rewrite createSecurityAlert_eq. unfold after_security_alert.
  destruct (insert_security_alert _ _ _) as [[row db']|e];
    eexists; reflexivity.
Qed.

Lemma after_blocked_attempt_frame env d row :
  devices (after_blocked_attempt env d row) = devices d /\
  users (after_blocked_attempt env d row) = users d /\
  security_alerts (after_blocked_attempt env d row) = security_alerts d.
Proof.
  unfold after_blocked_attempt, insert_blocked_attempt.
  destruct (fails env InsertBlockedAttempt); [auto|].
  destruct (negb _); simpl; auto.
Qed.

Lemma after_blocked_attempt_accepted env d row id :
  fails env InsertBlockedAttempt = false ->
  BlockedAttempt.target_device_id row = Some id ->
  device_exists d id = true ->
  blocked_attempts (after_blocked_attempt env d row) =
  (blocked_attempts d ++ [(blocked_attempts_id_seq d + 1, row)])%list.
Proof.
  intros Hf Ht He.
  unfold after_blocked_attempt, insert_blocked_attempt.
  rewrite Hf, Ht. simpl. rewrite He. reflexivity.
Qed.

Lemma after_blocked_attempt_refused env d row id :
  BlockedAttempt.target_device_id row = Some id ->
  device_exists d id = false ->
  after_blocked_attempt env d row = d.
Proof.
  intros Ht He.
  unfold after_blocked_attempt, insert_blocked_attempt.
  destruct (fails env InsertBlockedAttempt); [reflexivity|].
  rewrite Ht. simpl. rewrite He. reflexivity.
Qed.

Lemma after_blocked_attempt_failed env d row :
  fails env InsertBlockedAttempt = true ->
  after_blocked_attempt env d row = d.
Proof.
  intros Hf. unfold after_blocked_attempt, insert_blocked_attempt.
  rewrite Hf. reflexivity.
Qed.

Lemma after_security_alert_frame env d row :
  devices (after_security_alert env d row) = devices d /\
  users (after_security_alert env d row) = users d /\
  blocked_attempts (after_security_alert env d row) = blocked_attempts d.
Proof.
  unfold after_security_alert, insert_security_alert.
  destruct (fails env InsertSecurityAlert); [auto|].
  destruct (negb _); simpl; auto.
Qed.


Lemma after_security_alert_failed env d row :
  fails env InsertSecurityAlert = true ->
  after_security_alert env d row = d.
Proof.
  intros Hf. unfold after_security_alert, insert_security_alert.
  rewrite Hf. reflexivity.
Qed.

(** ** The branches of [connect] *)

Ltac enter_connect s :=
  destruct s as [d ss lg]; simpl in *;
  unfold connect, try_catch, bind, get_session; simpl.

Ltac run_permission :=
  match goal with
  | |- context [hasDevicePermission ?e ?u ?i ?st] =>
      let lg := fresh "lg" in
      let H := fresh "H" in
      destruct (hasDevicePermission_eq e u i st) as [lg H];
      rewrite H; clear H; simpl
  end.

Ltac run_blocked :=
  match goal with
  | |- context [logBlockedAttempt ?e ?u ?i ?p ?t ?a ?dt ?st] =>
      let lg := fresh "lg" in
      let H := fresh "H" in
      destruct (logBlockedAttempt_state e u i p t a dt st) as [lg H];
      rewrite H; clear H; simpl
  end.

Ltac run_alert :=
  match goal with
  | |- context [createSecurityAlert ?e ?i ?t ?sv ?ds ?p ?m ?st] =>
      let lg := fresh "lg" in
      let H := fresh "H" in
      destruct (createSecurityAlert_state e i t sv ds p m st) as [lg H];
      rewrite H; clear H; simpl
  end.

Lemma connect_invalid_id env req s :
  parseInt (deviceId_param req) = None ->
  connect env req s = (Returned (failure 400 "Invalid device ID"), s).
Proof.
  intros Hp. enter_connect s. rewrite Hp. reflexivity.
Qed.

Lemma connect_lookup_failed env req s deviceId e :
  parseInt (deviceId_param req) = Some deviceId ->
  select_device env (db s) deviceId = Threw e ->
  connect env req s =
  (Returned (failure 500 "An error occurred while connecting to the device"),
   mkSt (db s) (session s)
     (logged s ++ [(Err, "Device connection error")])).
Proof.
  intros Hp Hs. enter_connect s. rewrite Hp.
  unfold await, reading. simpl. rewrite Hs. reflexivity.
Qed.

Lemma connect_device_missing env req s deviceId :
  parseInt (deviceId_param req) = Some deviceId ->
  select_device env (db s) deviceId = Returned [] ->
  exists lg,
    connect env req s =
    (Returned (failure 404 "Device not found"),
     mkSt (after_blocked_attempt env (db s)
             (blocked_attempt_row env (user_id (session s)) deviceId
                (ip req) "invalid_device" (userAgent req)
                [("reason", JStr "device_not_found")]))
          (session s) (logged s ++ lg)).
Proof.
  intros Hp Hs. enter_connect s. rewrite Hp.
  unfold await, reading. simpl. rewrite Hs.
  match goal with
  | |- context [logBlockedAttempt ?e ?u ?i ?p ?t ?a ?dt ?st] =>
      destruct (logBlockedAttempt_state e u i p t a dt st) as [lg' Hl];
      rewrite Hl
  end.
  simpl. exists lg'. reflexivity.
Qed.

Lemma connect_device_offline env req s deviceId device rest :
  parseInt (deviceId_param req) = Some deviceId ->
  select_device env (db s) deviceId = Returned (device :: rest) ->
  opt_string_eqb (Device.status device) "online" = false ->
  exists lg,
    connect env req s =
    (Returned (failure 400 "Device is currently offline"),
     mkSt (after_blocked_attempt env (db s)
             (blocked_attempt_row env (user_id (session s)) deviceId
                (ip req) "offline_device" (userAgent req)
                [("reason", JStr "device_offline");
                 ("device_status", of_opt_string (Device.status device))]))
          (session s) (logged s ++ lg)).
Proof.
  intros Hp Hs Hst. enter_connect s. rewrite Hp.
  unfold await, reading. simpl. rewrite Hs. rewrite Hst. simpl.
  match goal with
  | |- context [logBlockedAttempt ?e ?u ?i ?p ?t ?a ?dt ?st] =>
      destruct (logBlockedAttempt_state e u i p t a dt st) as [lg' Hl];
      rewrite Hl
  end.
  simpl. exists lg'. reflexivity.
Qed.

Lemma connect_permitted env req s deviceId device rest :
  parseInt (deviceId_param req) = Some deviceId ->
  select_device env (db s) deviceId = Returned (device :: rest) ->
  opt_string_eqb (Device.status device) "online" = true ->
  permitted env (db s) (user_id (session s)) = true ->
  exists lg,
    connect env req s =
    (Returned (connected device (snapshot env device)),
     mkSt (db s)
          (mkSession (user_id (session s)) (Some (snapshot env device)))
          lg).
Proof.
  intros Hp Hs Hst Hperm. enter_connect s. rewrite Hp.
  unfold await, reading. simpl. rewrite Hs. rewrite Hst. simpl.
  run_permission. rewrite Hperm. simpl.
  unfold set_connectedDevice, log, ret. simpl.
  eexists. reflexivity.
Qed.

Lemma connect_denied env req s deviceId device rest :
  parseInt (deviceId_param req) = Some deviceId ->
  select_device env (db s) deviceId = Returned (device :: rest) ->
  opt_string_eqb (Device.status device) "online" = true ->
  permitted env (db s) (user_id (session s)) = false ->
  Device.has_security_enabled device = true ->
  exists lg,
    connect env req s =
    (Returned (failure 403
       "Access denied. This device requires explicit permission and has security enabled."),
     mkSt (after_blocked_attempt env (db s)
             (blocked_attempt_row env (user_id (session s)) deviceId
                (ip req) "unauthorized_access" (userAgent req)
                [("reason", JStr "no_permission_secured_device");
                 ("device_name", JStr (Device.name device));
                 ("security_enabled", JBool true)]))
          (session s) lg).
Proof.
  intros Hp Hs Hst Hperm Hsec. enter_connect s. rewrite Hp.
  unfold await, reading. simpl. rewrite Hs. rewrite Hst. simpl.
  run_permission. rewrite Hperm. simpl. rewrite Hsec.
  run_blocked. eexists. reflexivity.
Qed.

Lemma connect_alerted env req s deviceId device rest :
  parseInt (deviceId_param req) = Some deviceId ->
  select_device env (db s) deviceId = Returned (device :: rest) ->
  opt_string_eqb (Device.status device) "online" = true ->
  permitted env (db s) (user_id (session s)) = false ->
  Device.has_security_enabled device = false ->
  exists lg,
    connect env req s =
    (Returned (connected device (snapshot env device)),
     mkSt (after_security_alert env (db s)
             (security_alert_row env deviceId
                "Unauthorized Device Access" "medium"
                ("User accessed unsecured device without explicit permission: "
                   ++ Device.name device)
                (ip req)
                [("user_id", JNum (user_id (session s)));
                 ("device_name", JStr (Device.name device));
                 ("access_granted", JBool true);
                 ("security_enabled", JBool false);
                 ("reason", JStr "unsecured_device_access")]))
          (mkSession (user_id (session s)) (Some (snapshot env device)))
          lg).
Proof.
  intros Hp Hs Hst Hperm Hsec. enter_connect s. rewrite Hp.
  unfold await, reading. simpl. rewrite Hs. rewrite Hst. simpl.
  run_permission. rewrite Hperm. simpl. rewrite Hsec.
  run_alert.
  unfold set_connectedDevice, log, ret. simpl.
  eexists. reflexivity.
Qed.

(** ** Reading the hypotheses *)

Lemma not_admin_not_permitted env d userId :
  not_admin d userId -> permitted env d userId = false.
Proof.
  intros Hna. unfold permitted, select_role.
  destruct (fails env SelectRole); [reflexivity|].
  destruct (filter (fun u => User.id u =? userId) (users d))
    as [|u rows] eqn:Hf; [reflexivity|].
  simpl.
  assert (Hin : In u (filter (fun u => User.id u =? userId) (users d)))
    by (rewrite Hf; left; reflexivity).
  apply filter_In in Hin. destruct Hin as [Hin Hid].
  apply Z.eqb_eq in Hid. specialize (Hna u Hin Hid).
  destruct (User.role u) as [r|]; simpl; [|reflexivity].
  destruct (String.eqb_spec r "admin"); [subst; congruence | reflexivity].
Qed.

Lemma admin_permitted env d userId rest :
  select_role env d userId = Returned (Some "admin" :: rest) ->
  permitted env d userId = true.
Proof.
  intros H. unfold permitted. rewrite H. reflexivity.
Qed.

Lemma online_eqb st :
  st = Some "online" -> opt_string_eqb st "online" = true.
Proof. intros ->. reflexivity. Qed.

Lemma not_online_eqb st :
  st <> Some "online" -> opt_string_eqb st "online" = false.
Proof.
  intros H. destruct st as [x|]; simpl; [|reflexivity].
  destruct (String.eqb_spec x "online"); [subst; congruence | reflexivity].
Qed.

Lemma secured_firmware device v :
  Device.firmware_version device = Some v -> v <> "" ->
  Device.has_security_enabled device = true.
Proof.
  intros H Hv. unfold Device.has_security_enabled. rewrite H.
  destruct (String.eqb_spec v ""); [contradiction | reflexivity].
Qed.


(** ** C1: a secured device refuses a user without permission *)

(** C1. A connect request by a user who is not admin, for a device that
    the lookup finds online with a firmware version that is present and
    not empty, is answered 403 (access denied); one row is added to
    [blocked_attempts], with attempt type [unauthorized_access] and reason
    [no_permission_secured_device]; no alert is written and the session
    keeps the connection it had (none is created).  The row is written by
    a store that does not fail the insert. *)
Theorem connect_secured_device_forbidden :
  forall env req s deviceId device rest v,
    parseInt (deviceId_param req) = Some deviceId ->
    select_device env (db s) deviceId = Returned (device :: rest) ->
    Device.status device = Some "online" ->
    Device.firmware_version device = Some v ->
    v <> "" ->
    not_admin (db s) (user_id (session s)) ->
    fails env InsertBlockedAttempt = false ->
    exists s' id row,
      connect env req s =
      (Returned (failure 403
         "Access denied. This device requires explicit permission and has security enabled."),
       s') /\
      blocked_attempts (db s') = (blocked_attempts (db s) ++ [(id, row)])%list /\
      BlockedAttempt.attempt_type row = "unauthorized_access" /\
      BlockedAttempt.target_device_id row = Some deviceId /\
      BlockedAttempt.attempt_count row = 1 /\
      BlockedAttempt.request_details row =
        JObj [("user_id", JNum (user_id (session s)));
              ("blocked_reason", JStr "no_permission_secured_device");
              ("reason", JStr "no_permission_secured_device");
              ("device_name", JStr (Device.name device));
              ("security_enabled", JBool true)] /\
      security_alerts (db s') = security_alerts (db s) /\
      session s' = session s.
Proof.
  intros env req s deviceId device rest v Hp Hs Hon Hfw Hv Hna Hins.
  destruct (connect_denied env req s Hp Hs (online_eqb Hon)
              (not_admin_not_permitted env Hna)
              (secured_firmware device Hfw Hv)) as [lg Hc].
  destruct (select_device_found _ _ _ Hs) as (_ & Hex & _ & _).
  eexists. eexists. eexists.
  split; [exact Hc|]. simpl.
  split; [apply after_blocked_attempt_accepted with (id := deviceId);
          [exact Hins | reflexivity | exact Hex]|].
  repeat split.
  apply after_blocked_attempt_frame.
Qed.

Lemma connect_secured_device_forbidden_witness :
  exists s' id row,
    connect working (request_for "2") (signed_in 2) =
    (Returned (failure 403
       "Access denied. This device requires explicit permission and has security enabled."),
     s') /\
    blocked_attempts (db s') =
      (blocked_attempts (db (signed_in 2)) ++ [(id, row)])%list /\
    BlockedAttempt.attempt_type row = "unauthorized_access" /\
    BlockedAttempt.target_device_id row = Some 2 /\
    BlockedAttempt.attempt_count row = 1 /\
    BlockedAttempt.request_details row =
      JObj [("user_id", JNum (user_id (session (signed_in 2))));
            ("blocked_reason", JStr "no_permission_secured_device");
            ("reason", JStr "no_permission_secured_device");
            ("device_name", JStr (Device.name thermostat));
            ("security_enabled", JBool true)] /\
    security_alerts (db s') = security_alerts (db (signed_in 2)) /\
    session s' = session (signed_in 2).
Proof.
  apply (@connect_secured_device_forbidden working (request_for "2")
           (signed_in 2) 2 thermostat [] "1.0").
  - reflexivity.
  - reflexivity.
  - reflexivity.
  - reflexivity.
  - discriminate.
  - intros u Hin Hid. simpl in Hin.
    destruct Hin as [<-|[<-|[]]]; simpl in *; discriminate.
  - reflexivity.
Defined.

(** ** C5: a device that is not online *)

(** C5. A connect request for a device that the lookup finds with a status
    other than [online] is answered 400 "Device is currently offline",
    whoever asks; one row is added to [blocked_attempts], with attempt type
    [offline_device], reason [device_offline] and the status found; no
    alert is written and the session is left as it was.  The row is
    written by a store that does not fail the insert. *)
Theorem connect_offline_device_refused :
  forall env req s deviceId device rest,
    parseInt (deviceId_param req) = Some deviceId ->
    select_device env (db s) deviceId = Returned (device :: rest) ->
    Device.status device <> Some "online" ->
    fails env InsertBlockedAttempt = false ->
    exists s' id row,
      connect env req s =
      (Returned (failure 400 "Device is currently offline"), s') /\
      blocked_attempts (db s') = (blocked_attempts (db s) ++ [(id, row)])%list /\
      BlockedAttempt.attempt_type row = "offline_device" /\
      BlockedAttempt.target_device_id row = Some deviceId /\
      BlockedAttempt.attempt_count row = 1 /\
      BlockedAttempt.request_details row =
        JObj [("user_id", JNum (user_id (session s)));
              ("blocked_reason", JStr "device_offline");
              ("reason", JStr "device_offline");
              ("device_status", of_opt_string (Device.status device))] /\
      security_alerts (db s') = security_alerts (db s) /\
      session s' = session s.
Proof.
  intros env req s deviceId device rest Hp Hs Hoff Hins.
  destruct (connect_device_offline env req s Hp Hs (not_online_eqb Hoff))
    as [lg Hc].
  destruct (select_device_found _ _ _ Hs) as (_ & Hex & _ & _).
  eexists. eexists. eexists.
  split; [exact Hc|]. simpl.
  split; [apply after_blocked_attempt_accepted with (id := deviceId);
          [exact Hins | reflexivity | exact Hex]|].
  repeat split.
  apply after_blocked_attempt_frame.
Qed.

Lemma connect_offline_device_refused_witness :
  exists s' id row,
    connect working (request_for "1") (signed_in 1) =
    (Returned (failure 400 "Device is currently offline"), s') /\
    blocked_attempts (db s') =
      (blocked_attempts (db (signed_in 1)) ++ [(id, row)])%list /\
    BlockedAttempt.attempt_type row = "offline_device" /\
    BlockedAttempt.target_device_id row = Some 1 /\
    BlockedAttempt.attempt_count row = 1 /\
    BlockedAttempt.request_details row =
      JObj [("user_id", JNum (user_id (session (signed_in 1))));
            ("blocked_reason", JStr "device_offline");
            ("reason", JStr "device_offline");
            ("device_status", of_opt_string (Device.status lobby_camera))] /\
    security_alerts (db s') = security_alerts (db (signed_in 1)) /\
    session s' = session (signed_in 1).
Proof.
  apply (@connect_offline_device_refused working (request_for "1")
           (signed_in 1) 1 lobby_camera []).
  - reflexivity.
  - reflexivity.
  - discriminate.
  - reflexivity.
Defined.

(** ** C2: an unsecured device lets the user in and raises an alert *)



(** ** C3: an admin is let in and nothing is recorded *)

(** C3. A connect request by a user for whom [users] gives the role
    [admin], for a device that the lookup finds online (secured or not), is
    answered 200 with the device snapshot, which the session then holds;
    the store is left exactly as it was: no row is added to
    [blocked_attempts] or to [security_alerts]. *)
Theorem connect_admin_allowed :
  forall env req s deviceId device rest roles,
    parseInt (deviceId_param req) = Some deviceId ->
    select_device env (db s) deviceId = Returned (device :: rest) ->
    Device.status device = Some "online" ->
    select_role env (db s) (user_id (session s)) =
      Returned (Some "admin" :: roles) ->
    exists s',
      connect env req s =
      (Returned
         (mkResponse 200
            (JObj [("success", JBool true);
                   ("message",
                    JStr ("Successfully connected to " ++ Device.name device));
                   ("device",
                    ConnectedDevice.to_json (snapshot env device))])),
       s') /\
      connectedDevice (session s') = Some (snapshot env device) /\
      blocked_attempts (db s') = blocked_attempts (db s) /\
      security_alerts (db s') = security_alerts (db s) /\
      db s' = db s.
Proof.
  intros env req s deviceId device rest roles Hp Hs Hon Hrole.
  destruct (connect_permitted env req s Hp Hs (online_eqb Hon)
              (admin_permitted _ _ _ Hrole)) as [lg Hc].
  eexists. split; [exact Hc|]. simpl. repeat split.
Qed.

Lemma connect_admin_allowed_witness :
  exists s',
    connect working (request_for "2") (signed_in 1) =
    (Returned
       (mkResponse 200
          (JObj [("success", JBool true);
                 ("message",
                  JStr ("Successfully connected to "
                          ++ Device.name thermostat));
                 ("device",
                  ConnectedDevice.to_json (snapshot working thermostat))])),
     s') /\
    connectedDevice (session s') = Some (snapshot working thermostat) /\
    blocked_attempts (db s') = blocked_attempts (db (signed_in 1)) /\
    security_alerts (db s') = security_alerts (db (signed_in 1)) /\
    db s' = db (signed_in 1).
Proof.
  apply (@connect_admin_allowed working (request_for "2") (signed_in 1)
           2 thermostat [] []).
  - reflexivity.
  - reflexivity.
  - reflexivity.
  - reflexivity.
Defined.

(** ** C4: a device id that names no device *)

Lemma insert_for_missing_device_refused env d row id :
  fails env InsertBlockedAttempt = false ->
  BlockedAttempt.target_device_id row = Some id ->
  device_exists d id = false ->
  insert_blocked_attempt env d row = Threw foreign_key_violation.
Proof.
  intros Hf Ht He. unfold insert_blocked_attempt.
  rewrite Hf, Ht. simpl. rewrite He. reflexivity.
Qed.

(** C4 (what the code does).  When the [deviceId] parses to an integer
    for which the lookup finds no device, the answer is 404 "Device not
    found", but no row is added to [blocked_attempts]: the INSERT that
    [logBlockedAttempt] sends, with [attempt_type = 'invalid_device'] and
    [target_device_id] set to the missing id, is refused by the store
    (foreign key to [devices(id)]) even when the store is up, and the
    recorder swallows the error.  The store and the session are exactly
    what they were. *)
Theorem connect_missing_device_logs_no_row :
  forall env req s deviceId,
    parseInt (deviceId_param req) = Some deviceId ->
    select_device env (db s) deviceId = Returned [] ->
    exists s',
      connect env req s = (Returned (failure 404 "Device not found"), s') /\
      blocked_attempts (db s') = blocked_attempts (db s) /\
      db s' = db s /\
      session s' = session s /\
      (fails env InsertBlockedAttempt = false ->
       insert_blocked_attempt env (db s)
         (blocked_attempt_row env (user_id (session s)) deviceId (ip req)
            "invalid_device" (userAgent req)
            [("reason", JStr "device_not_found")])
       = Threw foreign_key_violation).
Proof.
  intros env req s deviceId Hp Hs.
  destruct (connect_device_missing env req s Hp Hs) as [lg Hc].
  pose proof (select_device_missing _ _ _ Hs) as Hmiss.
  assert (Hdb : after_blocked_attempt env (db s)
                  (blocked_attempt_row env (user_id (session s)) deviceId
                     (ip req) "invalid_device" (userAgent req)
                     [("reason", JStr "device_not_found")]) = db s).
  { apply after_blocked_attempt_refused with (id := deviceId);
      [reflexivity | exact Hmiss]. }
  eexists. split; [exact Hc|]. simpl. rewrite Hdb.
  repeat split.
  intros Hf.
  apply insert_for_missing_device_refused with (id := deviceId);
    [exact Hf | reflexivity | exact Hmiss].
Qed.

(** Device 999 does not exist: 404, an error in the log, no row. *)
Lemma connect_missing_device_logs_no_row_witness :
  exists s',
    connect working (request_for "999") (signed_in 2) =
    (Returned (failure 404 "Device not found"), s') /\
    blocked_attempts (db s') = blocked_attempts (db (signed_in 2)) /\
    db s' = db (signed_in 2) /\
    session s' = session (signed_in 2) /\
    (fails working InsertBlockedAttempt = false ->
     insert_blocked_attempt working (db (signed_in 2))
       (blocked_attempt_row working (user_id (session (signed_in 2))) 999
          (ip (request_for "999")) "invalid_device"
          (userAgent (request_for "999"))
          [("reason", JStr "device_not_found")])
     = Threw foreign_key_violation).
Proof.
  apply (@connect_missing_device_logs_no_row working (request_for "999")
           (signed_in 2) 999).
  - reflexivity.
  - reflexivity.
Defined.

Example connect_device_999 :
  connect working (request_for "999") (signed_in 2) =
  (Returned (failure 404 "Device not found"),
   mkSt sample_db (mkSession 2 None)
     [(Err, "Error logging blocked attempt")]).
Proof. reflexivity. Qed.

(** [connect] always returns, and what it answers and what it leaves in
    the session are those of the decision table. *)
Lemma connect_follows_decision env req s :
  exists s',
    connect env req s =
    (Returned
       (response_of env
          (decision env (db s) (user_id (session s)) (deviceId_param req))),
     s') /\
    session s' =
    session_after env
      (decision env (db s) (user_id (session s)) (deviceId_param req))
      (session s) /\
    devices (db s') = devices (db s) /\
    users (db s') = users (db s).
Proof.
  unfold decision.
  destruct (parseInt (deviceId_param req)) as [deviceId|] eqn:Hp.
  2:{ exists s. rewrite (connect_invalid_id env req s Hp). auto. }
  destruct (select_device env (db s) deviceId) as [[|device rest]|e] eqn:Hs.
  - destruct (connect_device_missing env req s Hp Hs) as [lg Hc].
    eexists. split; [exact Hc|]. simpl.
    split; [reflexivity|].
    split; apply after_blocked_attempt_frame.
  - destruct (opt_string_eqb (Device.status device) "online") eqn:Hst; simpl.
    + destruct (permitted env (db s) (user_id (session s))) eqn:Hperm; simpl.
      * destruct (connect_permitted env req s Hp Hs Hst Hperm) as [lg Hc].
        eexists. split; [exact Hc|]. simpl. auto.
      * destruct (Device.has_security_enabled device) eqn:Hsec.
        -- destruct (connect_denied env req s Hp Hs Hst Hperm Hsec)
             as [lg Hc].
           eexists. split; [exact Hc|]. simpl.
           split; [reflexivity|].
           split; apply after_blocked_attempt_frame.
        -- destruct (connect_alerted env req s Hp Hs Hst Hperm Hsec)
             as [lg Hc].
           eexists. split; [exact Hc|]. simpl.
           split; [reflexivity|].
           split; apply after_security_alert_frame.
    + destruct (connect_device_offline env req s Hp Hs Hst) as [lg Hc].
      eexists. split; [exact Hc|]. simpl.
      split; [reflexivity|].
      split; apply after_blocked_attempt_frame.
  - rewrite (connect_lookup_failed env req s Hp Hs).
    eexists. split; [reflexivity|]. simpl. auto.
Qed.

Lemma decision_ignores_recorder_writes failing env d userId param :
  decision (with_recorder_writes failing env) d userId param =
  decision env d userId param.
Proof. reflexivity. Qed.

Lemma response_ignores_recorder_writes failing env o :
  response_of (with_recorder_writes failing env) o = response_of env o.
Proof. destruct o; reflexivity. Qed.

(** ** C7: a failing recorder changes nothing in the answer *)

(** C7. Whatever the store does with the write, [logBlockedAttempt] and
    [createSecurityAlert] return to their caller and never throw; the
    answer to a connect request (status and body) is the one the decision
    table gives, which looks at no write, whatever became of the row; and
    that answer, and the session left behind, are the same whether both
    recorder writes are made to fail or are left to succeed. *)
Theorem recorder_failure_keeps_response :
  forall env req s,
    (forall userId deviceId sourceIp attemptType ua details,
        exists s',
          logBlockedAttempt env userId deviceId sourceIp attemptType ua
            details s = (Returned tt, s')) /\
    (forall deviceId alertType severity description sourceIp metadata,
        exists s',
          createSecurityAlert env deviceId alertType severity description
            sourceIp metadata s = (Returned tt, s')) /\
    fst (connect env req s) =
    Returned
      (response_of env
         (decision env (db s) (user_id (session s)) (deviceId_param req))) /\
    fst (connect (with_recorder_writes true env) req s) =
    fst (connect (with_recorder_writes false env) req s) /\
    session (snd (connect (with_recorder_writes true env) req s)) =
    session (snd (connect (with_recorder_writes false env) req s)).
Proof.
  intros env req s. split; [|split; [|split]].
  - intros. destruct (logBlockedAttempt_state env userId deviceId sourceIp
                        attemptType ua details s) as [lg H].
    eexists. exact H.
  - intros. destruct (createSecurityAlert_state env deviceId alertType
                        severity description sourceIp metadata s) as [lg H].
    eexists. exact H.
  - destruct (connect_follows_decision env req s) as (s0 & H0 & _).
    rewrite H0. reflexivity.
  - destruct (connect_follows_decision (with_recorder_writes true env) req s)
      as (s1 & H1 & Hs1 & _).
    destruct (connect_follows_decision (with_recorder_writes false env) req s)
      as (s2 & H2 & Hs2 & _).
    rewrite H1, H2. simpl. rewrite Hs1, Hs2.
    rewrite !decision_ignores_recorder_writes.
    rewrite !response_ignores_recorder_writes.
    split; [reflexivity|].
    destruct (decision env (db s) (user_id (session s)) (deviceId_param req));
      reflexivity.
Qed.

(** ** C10: a request that is not allowed leaves the session alone *)

(** C10. Every connect request is answered (the handler does not throw),
    and when the answer is not the 200 of an allowed connection (invalid
    id, device not found, device offline, access denied, or a failing
    lookup answered 500), [req.session] is what it was before the request:
    a connection established earlier, to this or to another device, is
    still there. *)
Theorem connect_refused_keeps_session :
  forall env req s,
    exists resp,
      fst (connect env req s) = Returned resp /\
      (status_code resp <> 200 ->
       session (snd (connect env req s)) = session s).
Proof.
  intros env req s.
  destruct (connect_follows_decision env req s) as (s' & Hc & Hs & _).
  rewrite Hc. simpl. eexists. split; [reflexivity|].
  intros Hne. rewrite Hs.
  destruct (decision env (db s) (user_id (session s)) (deviceId_param req));
    try reflexivity.
  exfalso. apply Hne. reflexivity.
Qed.

(** A user connected to device 3 asks for device 2, which is secured: the
    answer is 403 and the connection to device 3 is still in the session. *)
Lemma connect_refused_keeps_session_witness :
  fst (connect working (request_for "2")
         (mkSt sample_db
            (mkSession 2 (Some (snapshot working garage_sensor))) [])) =
  Returned (failure 403
    "Access denied. This device requires explicit permission and has security enabled.") /\
  session
    (snd (connect working (request_for "2")
            (mkSt sample_db
               (mkSession 2 (Some (snapshot working garage_sensor))) []))) =
  mkSession 2 (Some (snapshot working garage_sensor)).
Proof.
  split; [reflexivity|].
  destruct (connect_refused_keeps_session working (request_for "2")
              (mkSt sample_db
                 (mkSession 2 (Some (snapshot working garage_sensor))) []))
    as (resp & Hr & Hkeep).
  apply Hkeep.
  change (fst (connect working (request_for "2")
                 (mkSt sample_db
                    (mkSession 2 (Some (snapshot working garage_sensor)))
                    [])))
    with (Returned (failure 403
      "Access denied. This device requires explicit permission and has security enabled."))
    in Hr.
  injection Hr as <-. discriminate.
Defined.

(** ** C6: validation of the device id *)

(** C6, as stated, fails at the parameter "0": it parses to an integer
    that is not positive, it passes the [isNaN] test, and the request goes
    on to the device lookup and is answered 404 "Device not found", not 400
    "Invalid device ID". *)
Lemma connect_nonpositive_id_not_invalid :
  (forall n, parseInt (deviceId_param (request_for "0")) = Some n -> n <= 0) /\
  connect working (request_for "0") (signed_in 2) =
  (Returned (failure 404 "Device not found"),
   mkSt sample_db (mkSession 2 None)
     [(Err, "Error logging blocked attempt")]) /\
  ~ (exists s',
        connect working (request_for "0") (signed_in 2) =
        (Returned (failure 400 "Invalid device ID"), s') /\
        blocked_attempts (db s') = blocked_attempts (db (signed_in 2)) /\
        security_alerts (db s') = security_alerts (db (signed_in 2))).
Proof.
  split; [|split].
  - intros n Hn. vm_compute in Hn. injection Hn as <-. lia.
  - reflexivity.
  - intros (s' & Hc & _). vm_compute in Hc. discriminate Hc.
Qed.

(** C6, amended.  A connect request whose [deviceId] does not parse to an
    integer ([parseInt] gives [NaN]) is answered 400 "Invalid device ID",
    and nothing else happens: no row is written to [blocked_attempts] or
    [security_alerts], nothing is logged, the session is untouched. *)
Theorem connect_unparsable_id_invalid :
  forall env req s,
    parseInt (deviceId_param req) = None ->
    connect env req s = (Returned (failure 400 "Invalid device ID"), s).
Proof.
  intros env req s Hp. apply connect_invalid_id. exact Hp.
Qed.

Lemma connect_unparsable_id_invalid_witness :
  connect working (request_for "abc") (signed_in 2) =
  (Returned (failure 400 "Invalid device ID"), signed_in 2).
Proof.
  apply (@connect_unparsable_id_invalid working (request_for "abc")
           (signed_in 2)).
  reflexivity.
Defined.

(** ** C8: disconnect *)

Lemma disconnect_invalid_id req s :
  parseInt (deviceId_param req) = None ->
  disconnect req s = (Returned (failure 400 "Invalid device ID"), s).
Proof.
  intros Hp. destruct s as [d ss lg].
  unfold disconnect, try_catch, bind, get_session. simpl.
  rewrite Hp. reflexivity.
Qed.

(** C8, as stated, fails at the parameter "abc" with no connection in the
    session: the answer is 400 "Invalid device ID", not "You are not
    connected to this device". *)
Lemma disconnect_unparsable_id_not_notconnected :
  connectedDevice (session (signed_in 2)) = None /\
  disconnect (request_for "abc") (signed_in 2) =
  (Returned (failure 400 "Invalid device ID"), signed_in 2) /\
  ~ (exists s',
        disconnect (request_for "abc") (signed_in 2) =
        (Returned (failure 400 "You are not connected to this device"), s')).
Proof.
  split; [reflexivity|]. split; [reflexivity|].
  intros (s' & Hc). vm_compute in Hc. discriminate Hc.
Qed.

(** C8, amended.  For a disconnect request whose [deviceId] parses to an
    integer: if the session holds no connection, or one to another device,
    the answer is 400 "You are not connected to this device" and nothing
    changes; if it holds a connection to that device, the connection is
    removed from the session, the answer is 200 with a confirmation, and
    the store is untouched.  In both cases the handler returns (it does
    not throw). *)
Theorem disconnect_parsed_id :
  forall req s deviceId,
    parseInt (deviceId_param req) = Some deviceId ->
    (connectedDevice (session s) = None \/
     (exists c, connectedDevice (session s) = Some c /\
                ConnectedDevice.id c <> deviceId) ->
     disconnect req s =
     (Returned (failure 400 "You are not connected to this device"), s)) /\
    (forall c,
        connectedDevice (session s) = Some c ->
        ConnectedDevice.id c = deviceId ->
        exists s',
          disconnect req s =
          (Returned
             (mkResponse 200
                (JObj [("success", JBool true);
                       ("message",
                        JStr ("Successfully disconnected from "
                                ++ ConnectedDevice.name c))])),
           s') /\
          connectedDevice (session s') = None /\
          user_id (session s') = user_id (session s) /\
          db s' = db s).
Proof.
  intros req s deviceId Hp. destruct s as [d ss lg]. simpl. split.
  - intros Hnc.
    unfold disconnect, try_catch, bind, get_session. simpl.
    rewrite Hp.
    destruct Hnc as [Hn|(c & Hc & Hid)].
    + rewrite Hn. reflexivity.
    + rewrite Hc. apply Z.eqb_neq in Hid. rewrite Hid. reflexivity.
  - intros c Hc Hid.
    unfold disconnect, try_catch, bind, get_session. simpl.
    rewrite Hp, Hc. apply Z.eqb_eq in Hid. rewrite Hid. simpl.
    eexists. split; [reflexivity|]. simpl. auto.
Qed.

Lemma disconnect_parsed_id_witness :
  (connectedDevice (session (signed_in 2)) = None \/
   (exists c, connectedDevice (session (signed_in 2)) = Some c /\
              ConnectedDevice.id c <> 3) ->
   disconnect (request_for "3") (signed_in 2) =
   (Returned (failure 400 "You are not connected to this device"),
    signed_in 2)) /\
  (forall c,
      connectedDevice (session (signed_in 2)) = Some c ->
      ConnectedDevice.id c = 3 ->
      exists s',
        disconnect (request_for "3") (signed_in 2) =
        (Returned
           (mkResponse 200
              (JObj [("success", JBool true);
                     ("message",
                      JStr ("Successfully disconnected from "
                              ++ ConnectedDevice.name c))])),
         s') /\
        connectedDevice (session s') = None /\
        user_id (session s') = user_id (session (signed_in 2)) /\
        db s' = db (signed_in 2)).
Proof.
  apply (@disconnect_parsed_id (request_for "3") (signed_in 2) 3).
  reflexivity.
Defined.

(** Whatever the request, [disconnect] returns and leaves the store and
    the signed-in user alone. *)
Lemma disconnect_returns req s :
  exists resp s',
    disconnect req s = (Returned resp, s') /\
    db s' = db s /\
    user_id (session s') = user_id (session s).
Proof.
  destruct s as [d ss lg].
  unfold disconnect, try_catch, bind, get_session. simpl.
  destruct (parseInt (deviceId_param req)) as [deviceId|].
  - destruct (connectedDevice ss) as [c|].
    + destruct (ConnectedDevice.id c =? deviceId); simpl;
        eexists; eexists; (split; [reflexivity|]); simpl; auto.
    + eexists; eexists; (split; [reflexivity|]); simpl; auto.
  - eexists; eexists; (split; [reflexivity|]); simpl; auto.
Qed.

(** ** C9: resolving an alert *)

Import Alerts.

Lemma update_alert_written env d data id row rows d' :
  update_alert env d data id = Returned (row :: rows, d') ->
  security_alerts d' = map (update_row data id) (security_alerts d) /\
  blocked_attempts d' = blocked_attempts d /\
  devices d' = devices d /\
  users d' = users d.
Proof.
  unfold update_alert.
  destruct (fails env UpdateAlert); [discriminate|].
  destruct (filter _ _) as [|r0 rs]; [discriminate|].
  destruct (negb _); [discriminate|].
  intros H. injection H as _ _ <-. simpl. auto.
Qed.

Lemma update_alert_nothing env d data id d' :
  update_alert env d data id = Returned ([], d') -> d' = d.
Proof.
  unfold update_alert.
  destruct (fails env UpdateAlert); [discriminate|].
  destruct (filter _ _) as [|r0 rs].
  - intros H. injection H as <-. reflexivity.
  - destruct (negb _); discriminate.
Qed.

Lemma updated_rows data id tbl r :
  In r (map (update_row data id) tbl) ->
  fst r = id ->
  exists a, In (id, a) tbl /\ r = (id, Alert.apply data a).
Proof.
  intros Hin Hid. apply in_map_iff in Hin.
  destruct Hin as ([k a] & Hr & Hin). unfold update_row in Hr. simpl in Hr.
  destruct (Z.eqb_spec k id) as [->|Hne].
  - exists a. split; [exact Hin | symmetry; exact Hr].
  - subst r. simpl in Hid. contradiction.
Qed.

Lemma untouched_rows data id tbl r :
  In r tbl -> fst r <> id -> In r (map (update_row data id) tbl).
Proof.
  intros Hin Hne. apply in_map_iff. exists r. split; [|exact Hin].
  unfold update_row. apply Z.eqb_neq in Hne. rewrite Hne. reflexivity.
Qed.

Lemma with_resolution_note_pure JSON_parse metadata note s :
  (exists m, with_resolution_note JSON_parse metadata note s
             = (Returned m, s)) \/
  (exists e, with_resolution_note JSON_parse metadata note s
             = (Threw e, s)).
Proof.
  unfold with_resolution_note.
  destruct (match metadata with
            | Some m => if truthy m then JSON_parse m else Some (JObj [])
            | None => Some (JObj [])
            end) as [[| | | |]|];
    solve [left; eexists; reflexivity | right; eexists; reflexivity].
Qed.

Lemma active_eqb st :
  opt_string_eqb st "active" = true -> st = Some "active".
Proof.
  destruct st as [x|]; simpl; [|discriminate].
  intros H. apply String.eqb_eq in H. subst. reflexivity.
Qed.

Lemma not_active_eqb st :
  st <> Some "active" -> opt_string_eqb st "active" = false.
Proof.
  intros H. destruct st as [x|]; simpl; [|reflexivity].
  destruct (String.eqb_spec x "active"); [subst; congruence | reflexivity].
Qed.

(** What a 200 from [write_resolution] means: one UPDATE was accepted, and
    its SET clause carries both the status and the time of resolution. *)
Lemma write_resolution_success JSON_parse env req alertId alert s resp s' :
  write_resolution JSON_parse env req alertId alert s = (Returned resp, s') ->
  status_code resp = 200 ->
  exists updateData row rows,
    In (Alert.SetStatus "resolved") updateData /\
    In (Alert.SetResolvedAt (now env)) updateData /\
    (forall a,
        Alert.status (Alert.apply updateData a) = Some "resolved" /\
        Alert.resolved_at (Alert.apply updateData a) = Some (now env)) /\
    update_alert env (db s) updateData alertId =
      Returned (row :: rows, db s') /\
    resp = resolved row /\
    session s' = session s.
Proof.
  intros Hrun H200. destruct s as [d ss lg].
  unfold write_resolution, bind in Hrun.
  destruct (given_note (resolution_note req)) as [note|].
  - destruct (with_resolution_note_pure JSON_parse (Alert.metadata alert) note
                (mkSt d ss lg)) as [[m Hm]|[e He]].
    + rewrite Hm in Hrun. unfold ret at 1, await in Hrun. cbn [db] in Hrun.
      destruct (update_alert env d _ alertId) as [[[|row rows] d']|e] eqn:Hupd.
      * injection Hrun as <- _. discriminate H200.
      * injection Hrun as <- <-.
        eexists. exists row, rows.
        split; [|split; [|split; [|split; [exact Hupd|auto]]]].
        -- left. reflexivity.
        -- right. left. reflexivity.
        -- intros a. destruct (given_user (resolved_by req)); simpl; auto.
      * discriminate Hrun.
    + rewrite He in Hrun. discriminate Hrun.
  - unfold ret at 1, await in Hrun. cbn [db] in Hrun.
    destruct (update_alert env d _ alertId) as [[[|row rows] d']|e] eqn:Hupd.
    + injection Hrun as <- _. discriminate H200.
    + injection Hrun as <- <-.
      eexists. exists row, rows.
      split; [|split; [|split; [|split; [exact Hupd|auto]]]].
      * left. reflexivity.
      * right. left. reflexivity.
      * intros a. destruct (given_user (resolved_by req)); simpl; auto.
    + discriminate Hrun.
Qed.

Lemma update_alert_returns_row env d data id row rows d' :
  update_alert env d data id = Returned (row :: rows, d') ->
  In row (security_alerts d') /\ fst row = id.
Proof.
  unfold update_alert.
  destruct (fails env UpdateAlert); [discriminate|].
  destruct (filter _ _) as [|r0 rs] eqn:Hf; [discriminate|].
  destruct (negb _); [discriminate|].
  intros H. injection H as <- _ <-. simpl.
  assert (Hin : In r0 (filter (fun r => fst r =? id)
                         (map (update_row data id) (security_alerts d))))
    by (rewrite Hf; left; reflexivity).
  apply filter_In in Hin. destruct Hin as [Hin Hid].
  split; [exact Hin | lia].
Qed.

Lemma find_alert_found env d id alert :
  find_alert env d id = Returned (Some alert) ->
  In (id, alert) (security_alerts d).
Proof.
  unfold find_alert. destruct (fails env FindAlert); [discriminate|].
  destruct (find (fun r => fst r =? id) (security_alerts d))
    as [[k a]|] eqn:Hf; [|discriminate].
  intros H. injection H as <-.
  apply find_some in Hf. destruct Hf as [Hin Hk]. simpl in Hk.
  apply Z.eqb_eq in Hk. subst k. exact Hin.
Qed.

Lemma update_alert_hits env d data id alert :
  fails env UpdateAlert = false ->
  assigned_users_exist d data = true ->
  In (id, alert) (security_alerts d) ->
  exists row rows d',
    update_alert env d data id = Returned (row :: rows, d').
Proof.
  intros Hf Hfk Hin. unfold update_alert. rewrite Hf.
  destruct (filter (fun r => fst r =? id)
              (map (update_row data id) (security_alerts d)))
    as [|row rows] eqn:Hflt.
  - exfalso.
    assert (Hm : In (update_row data id (id, alert))
                   (filter (fun r => fst r =? id)
                      (map (update_row data id) (security_alerts d)))).
    { apply filter_In. split.
      - apply in_map. exact Hin.
      - unfold update_row. simpl. rewrite Z.eqb_refl. simpl.
        apply Z.eqb_refl. }
    rewrite Hflt in Hm. exact Hm.
  - rewrite Hfk. simpl. eexists. eexists. eexists. reflexivity.
Qed.

(** An active alert, no resolver and no note, a store that takes the
    UPDATE: the request succeeds. *)
Lemma resolve_active_alert_succeeds JSON_parse env req s alertId alert :
  parseInt (id_param req) = Some alertId ->
  find_alert env (db s) alertId = Returned (Some alert) ->
  Alert.status alert = Some "active" ->
  given_user (resolved_by req) = None ->
  given_note (resolution_note req) = None ->
  fails env UpdateAlert = false ->
  exists row s',
    resolve JSON_parse env req s = (Returned (resolved row), s') /\
    status_code (resolved row) = 200.
Proof.
  intros Hp Hfind Hact Hu Hn Hupd. destruct s as [d ss lg]. cbn [db] in *.
  destruct (@update_alert_hits env d
              [Alert.SetStatus "resolved"; Alert.SetResolvedAt (now env)]
              alertId alert Hupd eq_refl (find_alert_found _ _ _ Hfind))
    as (row & rows & d' & Hw).
  exists row. eexists.
  unfold resolve, try_catch, bind. rewrite Hp.
  unfold await at 1, reading at 1. cbn [db session logged]. rewrite Hfind.
  cbn iota beta. rewrite Hact. cbn [opt_string_eqb].
  change (("active" =? "active")%string) with true. cbn [negb]. cbn iota.
  rewrite Hu. unfold write_resolution, bind. rewrite Hu, Hn.
  unfold ret at 1, await. cbn [db session logged app].
  rewrite Hw. split; reflexivity.
Qed.

Lemma find_user_exists env d u user :
  find_user env d u = Returned (Some user) -> user_exists d u = true.
Proof.
  unfold find_user, user_exists. destruct (fails env FindUser); [discriminate|].
  intros H. injection H as H. apply find_some in H.
  apply existsb_exists. exists user. exact H.
Qed.

(** The metadata of the alert can take a note: it is empty, or
    [JSON.parse] reads it as something other than [null]. *)
Lemma with_resolution_note_returns JSON_parse metadata note s :
  (forall m, metadata = Some m -> truthy m = true ->
             exists v, JSON_parse m = Some v /\ v <> JNull) ->
  exists m, with_resolution_note JSON_parse metadata note s = (Returned m, s).
Proof.
  intros Hread. unfold with_resolution_note.
  destruct metadata as [m|].
  - destruct (truthy m) eqn:Ht.
    + destruct (Hread m eq_refl Ht) as (v & -> & Hv).
      destruct v; try (eexists; reflexivity). contradiction.
    + eexists. reflexivity.
  - eexists. reflexivity.
Qed.

Lemma resolve_active_alert_resolves JSON_parse env req s alertId alert :
  parseInt (id_param req) = Some alertId ->
  find_alert env (db s) alertId = Returned (Some alert) ->
  Alert.status alert = Some "active" ->
  fails env UpdateAlert = false ->
  (forall u, given_user (resolved_by req) = Some u ->
             exists user, find_user env (db s) u = Returned (Some user)) ->
  (forall note m,
      given_note (resolution_note req) = Some note ->
      Alert.metadata alert = Some m -> truthy m = true ->
      exists v, JSON_parse m = Some v /\ v <> JNull) ->
  exists row s',
    resolve JSON_parse env req s = (Returned (resolved row), s') /\
    status_code (resolved row) = 200.
Proof.
  intros Hp Hfind Hact Hupd Huser Hmeta.
  destruct s as [d ss lg]. cbn [db] in *.
  pose proof (find_alert_found _ _ _ Hfind) as Hin.
  assert (Hwrite :
    exists row s',
      write_resolution JSON_parse env req alertId alert (mkSt d ss lg) =
      (Returned (resolved row), s')).
  { unfold write_resolution, bind.
    assert (Hfk :
      forall extra,
        (forall x, In x extra ->
                   match x with Alert.SetResolvedBy _ => False | _ => True end) ->
        assigned_users_exist d
          (([Alert.SetStatus "resolved"; Alert.SetResolvedAt (now env)] ++
            match given_user (resolved_by req) with
            | Some u => [Alert.SetResolvedBy u]
            | None => []
            end) ++ extra) = true).
    { intros extra Hextra. unfold assigned_users_exist.
      rewrite forallb_app. apply andb_true_intro. split.
      - destruct (given_user (resolved_by req)) as [u|] eqn:Hu; [|reflexivity].
        destruct (Huser u eq_refl) as (user & Hfu).
        cbn. rewrite (find_user_exists _ _ _ Hfu). reflexivity.
      - apply forallb_forall. intros x Hx. specialize (Hextra x Hx).
        destruct x; try reflexivity. contradiction. }
    destruct (given_note (resolution_note req)) as [note|] eqn:Hn.
    - destruct (@with_resolution_note_returns JSON_parse (Alert.metadata alert)
                  note (mkSt d ss lg)) as (m & Hm).
      { intros m0 Hm0 Ht. exact (Hmeta note m0 eq_refl Hm0 Ht). }
      rewrite Hm. unfold ret at 1, await. cbn [db session logged].
      assert (Hfk1 : assigned_users_exist d
                       (([Alert.SetStatus "resolved";
                          Alert.SetResolvedAt (now env)] ++
                         match given_user (resolved_by req) with
                         | Some u => [Alert.SetResolvedBy u]
                         | None => []
                         end) ++ [Alert.SetMetadata m]) = true).
      { apply Hfk. intros x [<-|[]]. exact I. }
      destruct (@update_alert_hits env d _ alertId alert Hupd Hfk1 Hin)
        as (row & rows & d' & Hw).
      rewrite Hw. eexists. eexists. reflexivity.
    - unfold ret at 1, await. cbn [db session logged].
      assert (Hfk0 := Hfk [] (fun x (Hx : In x []) => match Hx with end)).
      rewrite app_nil_r in Hfk0.
      destruct (@update_alert_hits env d _ alertId alert Hupd Hfk0 Hin)
        as (row & rows & d' & Hw).
      rewrite Hw. eexists. eexists. reflexivity. }
  destruct Hwrite as (row & s' & Hw).
  exists row, s'. split; [|reflexivity].
  unfold resolve, try_catch, bind. rewrite Hp.
  unfold await at 1, reading at 1. cbn [db session logged]. rewrite Hfind.
  cbn iota beta. rewrite Hact. cbn [opt_string_eqb].
  change (("active" =? "active")%string) with true. cbn [negb]. cbn iota.
  destruct (given_user (resolved_by req)) as [u|] eqn:Hu.
  - destruct (Huser u eq_refl) as (user & Hfu).
    unfold await at 1, reading at 1. cbn [db session logged]. rewrite Hfu.
    cbn iota beta. rewrite Hw. reflexivity.
  - rewrite Hw. reflexivity.
Qed.

(** C9. For an alert that [findById] returns: (1) when the alert is
    [active] and the store does its part (it takes the UPDATE, it finds the
    resolver that the request names, and the alert's metadata can take the
    note that the request carries), the request succeeds: the answer is the
    200 with a row of the alert's id that is in the new table with status
    [resolved] and [resolved_at] the time of the request; (2) whenever the
    answer is 200, the handler has sent one UPDATE whose SET clause holds
    both [status = 'resolved'] and [resolved_at = now]; the new table is
    the old one with that UPDATE applied, so every row with the alert's id
    now has status [resolved] and a [resolved_at] that is not NULL, and
    the alert is among them; (3) when the alert's status is not [active],
    the request is answered 400 and the whole state is exactly what it
    was. *)
Theorem resolve_alert_transition :
  forall JSON_parse env req s alertId alert,
    parseInt (id_param req) = Some alertId ->
    find_alert env (db s) alertId = Returned (Some alert) ->
    (Alert.status alert = Some "active" ->
     fails env UpdateAlert = false ->
     (forall u,
         given_user (resolved_by req) = Some u ->
         exists user, find_user env (db s) u = Returned (Some user)) ->
     (forall note m,
         given_note (resolution_note req) = Some note ->
         Alert.metadata alert = Some m -> truthy m = true ->
         exists v, JSON_parse m = Some v /\ v <> JNull) ->
     exists row s',
       resolve JSON_parse env req s = (Returned (resolved row), s') /\
       status_code (resolved row) = 200 /\
       In row (security_alerts (db s')) /\ fst row = alertId /\
       Alert.status (snd row) = Some "resolved" /\
       Alert.resolved_at (snd row) = Some (now env) /\
       blocked_attempts (db s') = blocked_attempts (db s) /\
       devices (db s') = devices (db s) /\
       users (db s') = users (db s)) /\
    (forall resp s',
        resolve JSON_parse env req s = (Returned resp, s') ->
        status_code resp = 200 ->
        Alert.status alert = Some "active" /\
        exists updateData row rows,
          In (Alert.SetStatus "resolved") updateData /\
          In (Alert.SetResolvedAt (now env)) updateData /\
          update_alert env (db s) updateData alertId =
            Returned (row :: rows, db s') /\
          security_alerts (db s') =
            map (update_row updateData alertId) (security_alerts (db s)) /\
          (forall r, In r (security_alerts (db s')) -> fst r = alertId ->
                     Alert.status (snd r) = Some "resolved" /\
                     Alert.resolved_at (snd r) = Some (now env)) /\
          In row (security_alerts (db s')) /\ fst row = alertId /\
          resp = resolved row) /\
    (Alert.status alert <> Some "active" ->
     resolve JSON_parse env req s =
     (Returned (refusal 400 "Alert is already resolved or not active"), s)).
Proof.
  intros JSON_parse env req s alertId alert Hp Hfind.
  assert (Hwritten :
    forall resp s',
      resolve JSON_parse env req s = (Returned resp, s') ->
      status_code resp = 200 ->
      Alert.status alert = Some "active" /\
      exists updateData row rows,
        In (Alert.SetStatus "resolved") updateData /\
        In (Alert.SetResolvedAt (now env)) updateData /\
        update_alert env (db s) updateData alertId =
          Returned (row :: rows, db s') /\
        security_alerts (db s') =
          map (update_row updateData alertId) (security_alerts (db s)) /\
        (forall r, In r (security_alerts (db s')) -> fst r = alertId ->
                   Alert.status (snd r) = Some "resolved" /\
                   Alert.resolved_at (snd r) = Some (now env)) /\
        In row (security_alerts (db s')) /\ fst row = alertId /\
        resp = resolved row).
  { destruct s as [d ss lg]. cbn [db] in *.
    intros resp s' Hrun H200.
    unfold resolve, try_catch, bind in Hrun.
    rewrite Hp in Hrun. unfold await at 1, reading at 1 in Hrun.
    cbn [db session logged] in Hrun. rewrite Hfind in Hrun.
    cbn iota beta in Hrun.
    destruct (opt_string_eqb (Alert.status alert) "active") eqn:Hact;
      cbn [negb] in Hrun; cbn iota in Hrun.
    2:{ injection Hrun as <- _. discriminate H200. }
    split; [apply active_eqb; exact Hact|].
    assert (Hw : write_resolution JSON_parse env req alertId alert
                   (mkSt d ss lg) = (Returned resp, s')).
    { destruct (given_user (resolved_by req)) as [u|].
      - unfold await at 1, reading at 1 in Hrun. cbn [db session logged] in Hrun.
        destruct (find_user env d u) as [[usr|]|e]; cbn iota beta in Hrun.
        + destruct (write_resolution JSON_parse env req alertId alert
                      (mkSt d ss lg)) as [[r|e] s1].
          * exact Hrun.
          * injection Hrun as <- _. discriminate H200.
        + injection Hrun as <- _. discriminate H200.
        + injection Hrun as <- _. discriminate H200.
      - destruct (write_resolution JSON_parse env req alertId alert
                    (mkSt d ss lg)) as [[r|e] s1].
        + exact Hrun.
        + injection Hrun as <- _. discriminate H200. }
    destruct (write_resolution_success _ _ _ _ _ _ Hw H200)
      as (updateData & row & rows & H1 & H2 & Happ & Hupd & Hresp & _).
    cbn [db] in Hupd.
    destruct (update_alert_written _ _ _ _ Hupd) as (Htbl & _).
    destruct (update_alert_returns_row _ _ _ _ Hupd) as (Hrow & Hid).
    exists updateData, row, rows.
    repeat (split; [assumption|]).
    split; [|auto].
    intros r Hin Hr. rewrite Htbl in Hin.
    destruct (@updated_rows _ _ _ _ Hin Hr) as (a & _ & ->). simpl.
    apply Happ. }
  split; [|split].
  - intros Hact Hupd Huser Hmeta.
    destruct (resolve_active_alert_resolves JSON_parse env req s
                Hp Hfind Hact Hupd Huser Hmeta)
      as (row & s' & Hrun & H200).
    destruct (Hwritten _ _ Hrun H200)
      as (_ & updateData & row' & rows & _ & _ & Hw & _ & Hall & Hin & Hid
          & Hrow).
    destruct (update_alert_written _ _ _ _ Hw) as (_ & Hba & Hdev & Hus).
    destruct (Hall _ Hin Hid) as [Hst Hat].
    exists row', s'. rewrite <- Hrow.
    split; [exact Hrun|]. split; [exact H200|]. auto 8.
  - exact Hwritten.
  - intros Hna. destruct s as [d ss lg]. cbn [db] in *.
    unfold resolve, try_catch, bind. rewrite Hp.
    unfold await, reading. cbn [db session logged]. rewrite Hfind.
    cbn iota beta. rewrite (not_active_eqb Hna). reflexivity.
Qed.

Lemma resolve_alert_transition_witness :
  (exists row s',
      resolve sample_JSON_parse working
        (Alerts.mkRequest "1" (Some 1) None) alerts_state =
      (Returned (resolved row), s') /\
      status_code (resolved row) = 200 /\
      In row (security_alerts (db s')) /\ fst row = 1 /\
      Alert.status (snd row) = Some "resolved" /\
      Alert.resolved_at (snd row) = Some (now working) /\
      blocked_attempts (db s') = blocked_attempts (db alerts_state) /\
      devices (db s') = devices (db alerts_state) /\
      users (db s') = users (db alerts_state)) /\
  resolve sample_JSON_parse working
    (Alerts.mkRequest "2" (Some 1) None) alerts_state =
  (Returned (refusal 400 "Alert is already resolved or not active"),
   alerts_state).
Proof.
  split.
  - apply (proj1 (@resolve_alert_transition sample_JSON_parse working
                    (Alerts.mkRequest "1" (Some 1) None) alerts_state 1
                    (sample_alert (Some "active") None) eq_refl eq_refl)).
    + reflexivity.
    + reflexivity.
    + intros u Hu. injection Hu as <-. eexists. reflexivity.
    + intros note m Hnote. discriminate Hnote.
  - apply (proj2 (proj2 (@resolve_alert_transition sample_JSON_parse working
                           (Alerts.mkRequest "2" (Some 1) None) alerts_state 2
                           (sample_alert (Some "resolved")
                              (Some 1695000000000))
                           eq_refl eq_refl))).
    discriminate.
Defined.

(** The two runs of the scenario: alert 1 is active and gets resolved by
    user 1; alert 2 is resolved already and the request is refused. *)
Example resolve_active_alert :
  resolve sample_JSON_parse working
    (Alerts.mkRequest "1" (Some 1) None) alerts_state =
  (Returned
     (resolved (1, Alert.apply
                     [Alert.SetStatus "resolved";
                      Alert.SetResolvedAt 1700000000000;
                      Alert.SetResolvedBy 1]
                     (sample_alert (Some "active") None))),
   mkSt (mkDb (devices alerts_db) (users alerts_db) []
           [(1, Alert.mk (Some 3) "Unauthorized Device Access" "medium"
                  (Some "User accessed unsecured device without explicit permission: Garage Sensor")
                  (Some "192.0.2.7") 1690000000000
                  (Some 1700000000000) (Some "resolved") (Some 1) None);
            (2, sample_alert (Some "resolved") (Some 1695000000000))]
           0 2)
        (mkSession 1 None) []).
Proof. reflexivity. Qed.

Example resolve_resolved_alert :
  resolve sample_JSON_parse working
    (Alerts.mkRequest "2" (Some 1) (Some "duplicate")) alerts_state =
  (Returned (refusal 400 "Alert is already resolved or not active"),
   alerts_state).
Proof. reflexivity. Qed.

(** An alert written by [createSecurityAlert] carries an object as
    metadata; with a resolution note the handler hands that object to
    [JSON.parse], which throws: the request is answered 500 and nothing is
    written. *)
Example resolve_with_note_on_object_metadata :
  let alert :=
    Alert.mk (Some 3) "Unauthorized Device Access" "medium" None None 0
      None (Some "active") None
      (Some (JObj [("reason", JStr "unsecured_device_access")])) in
  let s := mkSt (mkDb [garage_sensor] [] [] [(1, alert)] 0 1)
             (mkSession 1 None) [] in
  fst (resolve sample_JSON_parse working
         (Alerts.mkRequest "1" None (Some "checked")) s) =
  Returned
    (mkResponse 500
       (JObj [("success", JBool false);
              ("error", JStr "Failed to resolve alert");
              ("message", JStr "Unexpected token in JSON")])) /\
  db (snd (resolve sample_JSON_parse working
             (Alerts.mkRequest "1" None (Some "checked")) s)) = db s.
Proof. split; reflexivity. Qed.

(** ** Runs of the scenarios *)

Example parseInt_42 : parseInt "42" = Some 42.
Proof. reflexivity. Qed.

Example parseInt_negative : parseInt "-5" = Some (-5).
Proof. reflexivity. Qed.

Example parseInt_ignores_suffix : parseInt " 12abc" = Some 12.
Proof. reflexivity. Qed.

Example parseInt_hex : parseInt "0x1F" = Some 31.
Proof. reflexivity. Qed.

Example parseInt_nan : parseInt "abc" = None.
Proof. reflexivity. Qed.

Example parseInt_bare_hex_prefix : parseInt "0x" = None.
Proof. reflexivity. Qed.

(** A failing insert: same 403, no row. *)
Example connect_forbidden_with_failing_insert :
  connect (with_recorder_writes true working) (request_for "2") (signed_in 2)
  = (Returned (failure 403
       "Access denied. This device requires explicit permission and has security enabled."),
     mkSt sample_db (mkSession 2 None)
       [(Err, "Error logging blocked attempt")]).
Proof. reflexivity. Qed.

(** A failing role lookup closes the door on an admin too. *)
Example connect_admin_with_failing_role_lookup :
  fst (connect
         (mkEnv (fun q => match q with SelectRole => true | _ => false end)
            0 "")
         (request_for "2") (signed_in 1))
  = Returned (failure 403
      "Access denied. This device requires explicit permission and has security enabled.").
Proof. reflexivity. Qed.

(** Connecting to a second device replaces the connection. *)
Example connect_replaces_connection :
  session
    (snd (connect working (request_for "2")
            (mkSt sample_db
               (mkSession 1 (Some (snapshot working garage_sensor))) [])))
  = mkSession 1 (Some (snapshot working thermostat)).
Proof. reflexivity. Qed.

Example disconnect_connected_device :
  disconnect (request_for "3")
    (mkSt sample_db (mkSession 2 (Some (snapshot working garage_sensor))) [])
  = (Returned
       (mkResponse 200
          (JObj [("success", JBool true);
                 ("message",
                  JStr "Successfully disconnected from Garage Sensor")])),
     mkSt sample_db (mkSession 2 None) [(Info, "Device disconnection")]).
Proof. reflexivity. Qed.

Example disconnect_other_device :
  disconnect (request_for "2")
    (mkSt sample_db (mkSession 2 (Some (snapshot working garage_sensor))) [])
  = (Returned (failure 400 "You are not connected to this device"),
     mkSt sample_db (mkSession 2 (Some (snapshot working garage_sensor))) []).
Proof. reflexivity. Qed.


(** * Further properties of the code *)

(** ** Numerals *)

Ltac eval_digit :=
  match goal with
  | |- context [digitValue ?c] =>
      let v := eval vm_compute in (digitValue c) in
      change (digitValue c) with v
  end;
  cbv iota beta;
  match goal with
  | |- context [?d <? 10] =>
      let v := eval vm_compute in (d <? 10) in
      change (d <? 10) with v
  end;
  cbv iota beta.

Lemma parseDigits_uint u acc :
  parseDigits 10 (NilEmpty.string_of_uint u) (Some (Zpos acc)) =
  Some (Zpos (Pos.of_uint_acc u acc)).
Proof.
  revert acc. induction u; intros acc; simpl NilEmpty.string_of_uint;
    [reflexivity| ..];
    cbn [parseDigits]; eval_digit; cbn [Pos.of_uint_acc];
    rewrite <- IHu; f_equal; f_equal; lia.
Qed.

Lemma parseDigits_uint_zero u :
  parseDigits 10 (NilEmpty.string_of_uint u) (Some 0) =
  Some (Z.of_N (Pos.of_uint u)).
Proof.
  induction u; simpl NilEmpty.string_of_uint; [reflexivity| ..];
    cbn [parseDigits]; eval_digit; cbn [Pos.of_uint Z.mul Z.add];
    try exact IHu;
    rewrite parseDigits_uint; reflexivity.
Qed.

Lemma parseDigits_first u :
  u <> Decimal.Nil ->
  parseDigits 10 (NilEmpty.string_of_uint u) None =
  parseDigits 10 (NilEmpty.string_of_uint u) (Some 0).
Proof.
  destruct u; intros H; [contradiction| ..]; reflexivity.
Qed.

Ltac parse_prefix :=
  unfold parseInt; simpl NilEmpty.string_of_uint; cbn [trimStart];
  repeat match goal with
         | |- context [isWhiteSpace ?c] =>
             let v := eval vm_compute in (isWhiteSpace c) in
             change (isWhiteSpace c) with v
         end;
  cbv iota beta zeta;
  first
    [ reflexivity
    | match goal with
      | |- option_map _ ?p = _ =>
          destruct p as [z|]; cbn; [destruct z|]; reflexivity
      end ].

Lemma parseInt_uint u :
  u <> Decimal.Nil ->
  parseInt (NilEmpty.string_of_uint u) =
  parseDigits 10 (NilEmpty.string_of_uint u) (Some 0).
Proof.
  intros H. rewrite <- (@parseDigits_first u H).
  destruct u as [|u|u|u|u|u|u|u|u|u|u]; [contradiction| ..];
    try parse_prefix.
  destruct u; parse_prefix.
Qed.

Lemma parseInt_neg_uint u :
  u <> Decimal.Nil ->
  parseInt (String "-" (NilEmpty.string_of_uint u)) =
  option_map Z.opp (parseDigits 10 (NilEmpty.string_of_uint u) (Some 0)).
Proof.
  intros H. rewrite <- (@parseDigits_first u H).
  destruct u as [|u|u|u|u|u|u|u|u|u|u]; [contradiction| ..];
    try parse_prefix.
  destruct u; parse_prefix.
Qed.

Lemma parseInt_toString n : parseInt (Text.toString n) = Some n.
Proof.
  unfold Text.toString. destruct n as [|p|p]; [reflexivity| |].
  - unfold Z.to_int, NilZero.string_of_int, NilZero.string_of_uint.
    pose proof (DecimalPos.Unsigned.to_uint_nonnil p) as Hn.
    destruct (Pos.to_uint p) eqn:Hu; try contradiction;
      rewrite <- Hu; rewrite parseInt_uint by (rewrite Hu; discriminate);
      rewrite parseDigits_uint_zero, DecimalPos.Unsigned.of_to; reflexivity.
  - unfold Z.to_int, NilZero.string_of_int, NilZero.string_of_uint.
    pose proof (DecimalPos.Unsigned.to_uint_nonnil p) as Hn.
    destruct (Pos.to_uint p) eqn:Hu; try contradiction;
      rewrite <- Hu; rewrite parseInt_neg_uint by (rewrite Hu; discriminate);
      rewrite parseDigits_uint_zero, DecimalPos.Unsigned.of_to; reflexivity.
Qed.

Lemma toString_inj a b : Text.toString a = Text.toString b -> a = b.
Proof.
  intros H. pose proof (parseInt_toString a) as Ha.
  rewrite H, parseInt_toString in Ha. congruence.
Qed.


(** ** config/database.js: the retry loop of [query] *)

Section QueryFacts.

Variable A : Type.
Variable pool : nat -> Database.attempt A.
Variable retries : nat.

Lemma last_pass_from_ge n a : (a <= Database.last_pass_from pool n a)%nat.
Proof.
  revert a. induction n as [|n IH]; intros a; simpl; [lia|].
  destruct (Database.retryable (pool a)); [|lia].
  specialize (IH (S a)). lia.
Qed.

Lemma last_pass_from_le n a :
  (Database.last_pass_from pool n a <= a + n)%nat.
Proof.
  revert a. induction n as [|n IH]; intros a; simpl; [lia|].
  destruct (Database.retryable (pool a)); [|lia].
  specialize (IH (S a)). lia.
Qed.

Lemma query_loop_settles n :
  forall a fuel,
    (a + n = retries)%nat ->
    (n < fuel)%nat ->
    fst (Database.query_loop pool retries fuel a) =
      Database.settled (pool (Database.last_pass_from pool n a)) /\
    Database.waits (snd (Database.query_loop pool retries fuel a)) =
      map Database.waitTime
        (seq (S a) (Database.last_pass_from pool n a - a)).
Proof.
  induction n as [|n IH]; intros a fuel Ha Hf.
  - destruct fuel as [|fuel]; [lia|]. simpl.
    assert (Hle : (a <=? retries)%nat = true) by (apply Nat.leb_le; lia).
    assert (Hlt : (retries <? S a)%nat = true) by (apply Nat.ltb_lt; lia).
    rewrite Hle, Nat.sub_diag. simpl.
    destruct (pool a) as [e|e|res]; simpl.
    + destruct (Database.not_retried e); [auto|]. rewrite Hlt. auto.
    + destruct (Database.not_retried e); [auto|]. rewrite Hlt. auto.
    + auto.
  - destruct fuel as [|fuel]; [lia|].
    assert (Hle : (a <=? retries)%nat = true) by (apply Nat.leb_le; lia).
    assert (Hlt : (retries <? S a)%nat = false) by (apply Nat.ltb_ge; lia).
    pose proof (last_pass_from_ge n (S a)) as Hge.
    destruct (IH (S a) fuel ltac:(lia) ltac:(lia)) as [IH1 IH2].
    cbn [Database.query_loop Database.last_pass_from].
    rewrite Hle. cbn [negb].
    destruct (pool a) as [e|e|res] eqn:Hpa; cbn [Database.retryable].
    + destruct (Database.not_retried e); cbn [negb].
      * rewrite Hpa, Nat.sub_diag. auto.
      * rewrite Hlt.
        destruct (Database.query_loop pool retries fuel (S a)) as [r evs].
        simpl in *. split; [exact IH1|].
        rewrite IH2.
        replace (Database.last_pass_from pool n (S a) - a)%nat
          with (S (Database.last_pass_from pool n (S a) - S a)) by lia.
        reflexivity.
    + destruct (Database.not_retried e); cbn [negb].
      * rewrite Hpa, Nat.sub_diag. auto.
      * rewrite Hlt.
        destruct (Database.query_loop pool retries fuel (S a)) as [r evs].
        simpl in *. split; [exact IH1|].
        rewrite IH2.
        replace (Database.last_pass_from pool n (S a) - a)%nat
          with (S (Database.last_pass_from pool n (S a) - S a)) by lia.
        reflexivity.
    + rewrite Hpa, Nat.sub_diag. auto.
Qed.

Lemma last_pass_from_retried n a i :
  (a <= i < Database.last_pass_from pool n a)%nat ->
  Database.retryable (pool i) = true.
Proof.
  revert a. induction n as [|n IH]; intros a Hi; simpl in Hi; [lia|].
  destruct (Database.retryable (pool a)) eqn:Hr; [|lia].
  destruct (Nat.eq_dec i a) as [->|Hne]; [exact Hr|].
  apply (IH (S a)). lia.
Qed.

Lemma last_pass_from_stops n a :
  (Database.last_pass_from pool n a < a + n)%nat ->
  Database.retryable (pool (Database.last_pass_from pool n a)) = false.
Proof.
  revert a. induction n as [|n IH]; intros a Hlt; simpl in *; [lia|].
  destruct (Database.retryable (pool a)) eqn:Hr; [|exact Hr].
  apply IH. lia.
Qed.

Lemma query_loop_balanced fuel :
  forall a,
    Database.clients_held
      (snd (Database.query_loop pool retries fuel a)) false = Some false.
Proof.
  induction fuel as [|fuel IH]; intros a; simpl; [reflexivity|].
  destruct (a <=? retries)%nat; simpl; [|reflexivity].
  destruct (pool a) as [e|e|res]; simpl; [| |reflexivity].
  - destruct (Database.not_retried e); [reflexivity|].
    destruct (retries <? S a)%nat; [reflexivity|].
    specialize (IH (S a)).
    destruct (Database.query_loop pool retries fuel (S a)) as [r evs].
    simpl in *. exact IH.
  - destruct (Database.not_retried e); [reflexivity|].
    destruct (retries <? S a)%nat; [reflexivity|].
    specialize (IH (S a)).
    destruct (Database.query_loop pool retries fuel (S a)) as [r evs].
    simpl in *. exact IH.
Qed.

End QueryFacts.

Lemma waitTime_bounds i :
  (1 <= i)%nat -> 1000 <= Database.waitTime i <= 5000.
Proof.
  intros Hi. unfold Database.waitTime.
  assert (1 <= 2 ^ (Z.of_nat i - 1)).
  { change 1 with (2 ^ 0) at 1. apply Z.pow_le_mono_r; lia. }
  lia.
Qed.

(** X1. [query] stops at the first pass that returns or fails with one of the
    four codes that are not retried, and at pass [retries + 1] at the
    latest; it returns the result of that pass or throws its error (it
    never falls off the loop); before pass [k + 1] it has waited [k]
    times, [min(1000 * 2^(i-1), 5000)] ms the [i]-th time. *)
Theorem query_outcome :
  forall (A : Type) (pool : nat -> Database.attempt A) (retries : nat),
    let k := Database.last_pass pool retries in
    fst (Database.query pool retries) = Database.settled (pool k) /\
    fst (Database.query pool retries) <> Returned None /\
    Database.waits (snd (Database.query pool retries)) =
      map Database.waitTime (seq 1 k) /\
    (k <= retries)%nat /\
    (forall i, (i < k)%nat -> Database.retryable (pool i) = true) /\
    ((k < retries)%nat -> Database.retryable (pool k) = false).
Proof.
  intros A pool retries k. unfold Database.query.
  destruct (@query_loop_settles A pool retries retries 0 (S retries))
    as [H1 H2]; [lia | lia |].
  fold (Database.last_pass pool retries) in H1, H2. fold k in H1, H2.
  rewrite Nat.sub_0_r in H2.
  split; [exact H1|]. split.
  - rewrite H1. destruct (pool k); discriminate.
  - split; [exact H2|]. split.
    + pose proof (last_pass_from_le pool retries 0). unfold k, Database.last_pass. lia.
    + split.
      * intros i Hi. apply (@last_pass_from_retried A pool retries 0 i).
        unfold k, Database.last_pass in Hi. lia.
      * intros Hk. apply last_pass_from_stops.
        unfold k, Database.last_pass in Hk. lia.
Qed.

(** X2. Between two passes [query] waits at least one second and at most five;
    it waits at most [retries] times; with the three retries that every
    caller in the repository gets by default, the waits are 1000, 2000 and
    4000 ms, seven seconds at most in all. *)
Theorem query_waits_bounded :
  forall (A : Type) (pool : nat -> Database.attempt A) (retries : nat),
    (List.length (Database.waits (snd (Database.query pool retries)))
     <= retries)%nat /\
    Forall (fun ms => 1000 <= ms <= 5000)
      (Database.waits (snd (Database.query pool retries))) /\
    Database.waits (snd (Database.query pool 3)) =
      firstn (Database.last_pass pool 3) [1000; 2000; 4000] /\
    fold_right Z.add 0 (Database.waits (snd (Database.query pool 3))) <= 7000.
Proof.
  intros A pool retries.
  destruct (@query_loop_settles A pool retries retries 0 (S retries))
    as [_ Hw]; [lia | lia |].
  destruct (@query_loop_settles A pool 3 3 0 4) as [_ Hw3]; [lia | lia |].
  pose proof (last_pass_from_le pool retries 0) as Hk.
  rewrite Nat.sub_0_r in Hw, Hw3.
  fold (Database.query pool retries) in Hw.
  fold (Database.query pool 3) in Hw3.
  fold (Database.last_pass pool 3) in Hw3.
  split; [|split; [|split]].
  - rewrite Hw, length_map, length_seq. lia.
  - rewrite Hw. apply Forall_forall. intros ms Hin.
    apply in_map_iff in Hin. destruct Hin as (i & <- & Hi).
    apply in_seq in Hi. apply waitTime_bounds. lia.
  - rewrite Hw3.
    pose proof (last_pass_from_le pool 3 0) as Hk3.
    fold (Database.last_pass pool 3) in Hk3.
    destruct (Database.last_pass pool 3) as [|[|[|[|n]]]]; try reflexivity.
    lia.
  - rewrite Hw3.
    pose proof (last_pass_from_le pool 3 0) as Hk3.
    fold (Database.last_pass pool 3) in Hk3.
    destruct (Database.last_pass pool 3) as [|[|[|[|n]]]];
      try (vm_compute; discriminate).
    lia.
Qed.

(** X3. [query] gives back every client it takes: it never holds two, never
    releases one it does not hold, and holds none when it returns or
    throws. *)
Theorem query_releases_clients :
  forall (A : Type) (pool : nat -> Database.attempt A) (retries : nat),
    Database.clients_held (snd (Database.query pool retries)) false =
    Some false.
Proof.
  intros A pool retries. unfold Database.query.
  apply query_loop_balanced.
Qed.

(** ** config/database.js: [transaction] *)

(** X4. [transaction] gives back the client it takes, whatever fails:
    with a client, the first event is the taking of it, BEGIN is sent next,
    and the release is the last event, the only one, no second client
    being taken in between.  It returns the result
    of the callback exactly when BEGIN, the callback and COMMIT all go
    through, having sent BEGIN and COMMIT only.  In every other case with a
    client it sends ROLLBACK once, as its last statement, and throws; the
    callback is run only after a BEGIN that went through and COMMIT is sent
    only after a callback that returned.  When ROLLBACK itself is rejected,
    the error thrown is that of ROLLBACK and not the cause; otherwise it is
    the first failure.  When no client can be taken nothing is sent. *)
Theorem transaction_settles :
  forall (A : Type) (r : Database.run A),
    Database.clients_held (snd (Database.transaction r)) false = Some false /\
    (Database.connects r = None ->
     exists between,
       snd (Database.transaction r) =
       (Database.Connected :: Database.Sent "BEGIN" :: between
          ++ [Database.Released])%list /\
       Forall (fun e => e <> Database.Connected /\ e <> Database.Released /\
                        e <> Database.Sent "BEGIN")
         between) /\
    (forall x,
        fst (Database.transaction r) = Returned x <->
        Database.connects r = None /\ Database.begins r = None /\
        Database.calls r = Returned x /\ Database.commits r = None) /\
    (forall x,
        fst (Database.transaction r) = Returned x ->
        Database.statements (snd (Database.transaction r)) =
        ["BEGIN"; "COMMIT"]) /\
    (forall e,
        fst (Database.transaction r) = Threw e ->
        Database.connects r = None ->
        (exists before,
            Database.statements (snd (Database.transaction r)) =
            (before ++ ["ROLLBACK"])%list /\
            (before = ["BEGIN"] \/ before = ["BEGIN"; "COMMIT"])) /\
        (In Database.Called (snd (Database.transaction r)) <->
         Database.begins r = None) /\
        (In (Database.Sent "COMMIT") (snd (Database.transaction r)) <->
         Database.begins r = None /\
         exists x, Database.calls r = Returned x) /\
        match Database.rolls_back r with
        | Some e' => e = e'
        | None =>
            match Database.begins r, Database.calls r, Database.commits r with
            | Some e', _, _ => e = e'
            | None, Threw e', _ => e = e'
            | None, Returned _, Some e' => e = e'
            | None, Returned _, None => False
            end
        end) /\
    (forall e,
        Database.connects r = Some e ->
        Database.transaction r = (Threw e, [])).
Proof.
  intros A [[ec|] [eb|] [x|ex] [em|] [er|]];
    unfold Database.transaction, Database.attempted;
    cbn [Database.connects Database.begins Database.calls Database.commits
         Database.rolls_back fst snd app];
    (split; [reflexivity|]);
    (split;
     [intros Hc; first
        [ discriminate Hc
        | exists [Database.Sent "ROLLBACK"];
          split; [reflexivity | repeat constructor; discriminate]
        | exists [Database.Called; Database.Sent "ROLLBACK"];
          split; [reflexivity | repeat constructor; discriminate]
        | exists [Database.Called; Database.Sent "COMMIT";
                  Database.Sent "ROLLBACK"];
          split; [reflexivity | repeat constructor; discriminate]
        | exists [Database.Called; Database.Sent "COMMIT"];
          split; [reflexivity | repeat constructor; discriminate] ]|]);
    (split;
     [intros y; split;
      [intros H; first [discriminate H | injection H as ->; auto]
      |intros (H1 & H2 & H3 & H4);
       first [discriminate | injection H3 as ->; reflexivity]]|]);
    (split; [intros y H; first [discriminate H | reflexivity]|]);
    (split; [|intros e H; first [discriminate H | injection H as ->;
                                                  reflexivity]]);
    intros e H Hc; try discriminate Hc; try discriminate H;
    injection H as <-;
    (split;
     [first [exists ["BEGIN"]; split; [reflexivity | left; reflexivity]
            |exists ["BEGIN"; "COMMIT"];
             split; [reflexivity | right; reflexivity]]|]);
    (split;
     [split;
      [intros Hin; first [reflexivity
                         |cbn in Hin; exfalso;
                          repeat destruct Hin as [Hin|Hin];
                          solve [discriminate Hin | contradiction]]
      |intros Hb; first [discriminate Hb | cbn; tauto]]|]);
    (split;
     [split;
      [intros Hin;
       first [split; [reflexivity | eexists; reflexivity]
             |cbn in Hin; exfalso;
              repeat destruct Hin as [Hin|Hin];
              solve [discriminate Hin | contradiction]]
      |intros [Hb [y Hy]];
       first [discriminate Hb | discriminate Hy | cbn; tauto]]|]);
    reflexivity.
Qed.

(** ** routes/deviceAccess.js: the permission resolver *)

(** X5. [hasDevicePermission] always returns, touches neither the store nor
    the session, and does not look at the device.  It answers [true] only
    on evidence: the role lookup went through and [users] holds a row for
    this user with the role [admin]. *)
Theorem hasDevicePermission_needs_evidence :
  forall env userId deviceId s,
    exists b s',
      hasDevicePermission env userId deviceId s = (Returned b, s') /\
      db s' = db s /\
      session s' = session s /\
      (forall deviceId',
          fst (hasDevicePermission env userId deviceId' s) = Returned b) /\
      (b = true ->
       fails env SelectRole = false /\
       exists u, In u (users (db s)) /\ User.id u = userId /\
                 User.role u = Some "admin").
Proof.
  intros env userId deviceId s.
  destruct (hasDevicePermission_eq env userId deviceId s) as [lg H].
  eexists. eexists. split; [exact H|]. simpl.
  split; [reflexivity|]. split; [reflexivity|]. split.
  - intros deviceId'.
    destruct (hasDevicePermission_eq env userId deviceId' s) as [lg' H'].
    rewrite H'. reflexivity.
  - unfold permitted, select_role.
    destruct (fails env SelectRole); [discriminate|].
    destruct (filter (fun u => User.id u =? userId) (users (db s)))
      as [|u rows] eqn:Hf; [discriminate|].
    simpl. intros Hb. split; [reflexivity|].
    assert (Hin : In u (filter (fun u => User.id u =? userId)
                          (users (db s))))
      by (rewrite Hf; left; reflexivity).
    apply filter_In in Hin. destruct Hin as [Hin Hid].
    exists u. split; [exact Hin|]. split; [lia|].
    destruct (User.role u) as [r|]; [|discriminate].
    simpl in Hb. apply String.eqb_eq in Hb. subst. reflexivity.
Qed.

(** ** routes/deviceAccess.js: what [connect] writes *)

Lemma insert_blocked_attempt_written env d row res d' :
  insert_blocked_attempt env d row = Returned (res, d') ->
  res = (blocked_attempts_id_seq d + 1, row) /\
  d' = mkDb (devices d) (users d)
         (blocked_attempts d ++ [(blocked_attempts_id_seq d + 1, row)])
         (security_alerts d)
         (blocked_attempts_id_seq d + 1) (security_alerts_id_seq d) /\
  references (device_exists d) (BlockedAttempt.target_device_id row) = true.
Proof.
  unfold insert_blocked_attempt.
  destruct (fails env InsertBlockedAttempt); [discriminate|].
  destruct (references _ _); simpl; [|discriminate].
  intros H. injection H as <- <-. auto.
Qed.

Lemma insert_security_alert_written env d row res d' :
  insert_security_alert env d row = Returned (res, d') ->
  res = (security_alerts_id_seq d + 1, row) /\
  d' = mkDb (devices d) (users d) (blocked_attempts d)
         (security_alerts d ++ [(security_alerts_id_seq d + 1, row)])
         (blocked_attempts_id_seq d) (security_alerts_id_seq d + 1) /\
  references (device_exists d) (Alert.device_id row) = true /\
  references (user_exists d) (Alert.resolved_by row) = true.
Proof.
  unfold insert_security_alert.
  destruct (fails env InsertSecurityAlert); [discriminate|].
  destruct (references (device_exists d) _); simpl; [|discriminate].
  destruct (references (user_exists d) _); simpl; [|discriminate].
  intros H. injection H as <- <-. auto.
Qed.

(** The store after [connect]: as it was, or after one recorder. *)
Lemma connect_store_effect env req s :
  exists resp s',
    connect env req s = (Returned resp, s') /\
    (db s' = db s \/
     (exists id attemptType details,
         parseInt (deviceId_param req) = Some id /\
         get "user_id" details = None /\
         status_code resp <> 200 /\
         db s' =
         after_blocked_attempt env (db s)
           (blocked_attempt_row env (user_id (session s)) id (ip req)
              attemptType (userAgent req) details)) \/
     (exists id description metadata,
         parseInt (deviceId_param req) = Some id /\
         status_code resp = 200 /\
         db s' =
         after_security_alert env (db s)
           (security_alert_row env id "Unauthorized Device Access" "medium"
              description (ip req) metadata))).
Proof.
  destruct (parseInt (deviceId_param req)) as [deviceId|] eqn:Hp.
  2:{ exists (failure 400 "Invalid device ID"), s.
      split; [apply connect_invalid_id; exact Hp | left; reflexivity]. }
  destruct (select_device env (db s) deviceId) as [[|device rest]|e] eqn:Hs.
  - destruct (connect_device_missing env req s Hp Hs) as [lg Hc].
    eexists. eexists. split; [exact Hc|]. right. left.
    exists deviceId. eexists. eexists.
    split; [reflexivity|]. split; [|split; [|reflexivity]].
    + reflexivity.
    + discriminate.
  - destruct (opt_string_eqb (Device.status device) "online") eqn:Hst.
    + destruct (permitted env (db s) (user_id (session s))) eqn:Hperm.
      * destruct (connect_permitted env req s Hp Hs Hst Hperm) as [lg Hc].
        eexists. eexists. split; [exact Hc|]. left. reflexivity.
      * destruct (Device.has_security_enabled device) eqn:Hsec.
        -- destruct (connect_denied env req s Hp Hs Hst Hperm Hsec)
             as [lg Hc].
           eexists. eexists. split; [exact Hc|]. right. left.
           exists deviceId. eexists. eexists.
           split; [reflexivity|]. split; [|split; [|reflexivity]].
           ++ reflexivity.
           ++ discriminate.
        -- destruct (connect_alerted env req s Hp Hs Hst Hperm Hsec)
             as [lg Hc].
           eexists. eexists. split; [exact Hc|]. right. right.
           exists deviceId. eexists. eexists.
           split; [reflexivity|]. split; reflexivity.
    + destruct (connect_device_offline env req s Hp Hs Hst) as [lg Hc].
      eexists. eexists. split; [exact Hc|]. right. left.
      exists deviceId. eexists. eexists.
      split; [reflexivity|]. split; [|split; [|reflexivity]].
      * reflexivity.
      * discriminate.
  - eexists. eexists.
    split; [apply (connect_lookup_failed env req s Hp Hs)|].
    left. reflexivity.
Qed.

Lemma after_blocked_attempt_appends env d row :
  after_blocked_attempt env d row = d \/
  after_blocked_attempt env d row =
  mkDb (devices d) (users d)
    (blocked_attempts d ++ [(blocked_attempts_id_seq d + 1, row)])
    (security_alerts d)
    (blocked_attempts_id_seq d + 1) (security_alerts_id_seq d) /\
  references (device_exists d) (BlockedAttempt.target_device_id row) = true.
Proof.
  unfold after_blocked_attempt.
  destruct (insert_blocked_attempt env d row) as [[res d']|e] eqn:Hi;
    [|left; reflexivity].
  right. apply insert_blocked_attempt_written in Hi.
  destruct Hi as (_ & -> & Hr). auto.
Qed.

Lemma after_security_alert_appends env d row :
  after_security_alert env d row = d \/
  after_security_alert env d row =
  mkDb (devices d) (users d) (blocked_attempts d)
    (security_alerts d ++ [(security_alerts_id_seq d + 1, row)])
    (blocked_attempts_id_seq d) (security_alerts_id_seq d + 1) /\
  references (device_exists d) (Alert.device_id row) = true /\
  references (user_exists d) (Alert.resolved_by row) = true.
Proof.
  unfold after_security_alert.
  destruct (insert_security_alert env d row) as [[res d']|e] eqn:Hi;
    [|left; reflexivity].
  right. apply insert_security_alert_written in Hi.
  destruct Hi as (_ & -> & Hr). auto.
Qed.

(** X6. A connect request adds at most one row to the audit tables, a blocked
    attempt or an alert, never both, and changes nothing else in the
    store: no row of [blocked_attempts] or [security_alerts] is altered or
    removed, [devices] and [users] are left alone.  A blocked attempt goes
    with a refusal and carries the requested id, the caller's address and
    the count 1; an alert goes with the 200, is [active], [medium] and
    unresolved. *)
Theorem connect_audit_trail :
  forall env req s,
    exists resp s' attempts alerts,
      connect env req s = (Returned resp, s') /\
      devices (db s') = devices (db s) /\
      users (db s') = users (db s) /\
      blocked_attempts (db s') = (blocked_attempts (db s) ++ attempts)%list /\
      security_alerts (db s') = (security_alerts (db s) ++ alerts)%list /\
      (List.length attempts + List.length alerts <= 1)%nat /\
      (forall r, In r attempts ->
                 status_code resp <> 200 /\
                 BlockedAttempt.target_device_id (snd r) =
                   parseInt (deviceId_param req) /\
                 BlockedAttempt.source_ip (snd r) = ip req /\
                 BlockedAttempt.attempt_count (snd r) = 1) /\
      (forall r, In r alerts ->
                 status_code resp = 200 /\
                 Alert.device_id (snd r) = parseInt (deviceId_param req) /\
                 Alert.status (snd r) = Some "active" /\
                 Alert.severity (snd r) = "medium" /\
                 Alert.resolved_at (snd r) = None).
Proof.
  intros env req s.
  destruct (connect_store_effect env req s)
    as (resp & s' & Hc & [Hdb|[Hdb|Hdb]]).
  - exists resp, s', [], []. split; [exact Hc|]. rewrite Hdb.
    rewrite !app_nil_r. simpl. repeat split; try lia; intros r [].
  - destruct Hdb as (id & ty & det & Hp & _ & Hst & Hdb).
    destruct (after_blocked_attempt_appends env (db s)
                (blocked_attempt_row env (user_id (session s)) id (ip req)
                   ty (userAgent req) det)) as [He|[He _]];
      rewrite He in Hdb.
    + exists resp, s', [], []. split; [exact Hc|]. rewrite Hdb.
      rewrite !app_nil_r. simpl. repeat split; try lia; intros r [].
    + eexists resp, s', [_], []. split; [exact Hc|]. rewrite Hdb. simpl.
      rewrite app_nil_r.
      repeat split; try lia; try (intros r []);
        destruct H as [<-|[]]; simpl; auto.
  - destruct Hdb as (id & ds & md & Hp & Hst & Hdb).
    destruct (after_security_alert_appends env (db s)
                (security_alert_row env id "Unauthorized Device Access"
                   "medium" ds (ip req) md)) as [He|[He _]];
      rewrite He in Hdb.
    + exists resp, s', [], []. split; [exact Hc|]. rewrite Hdb.
      rewrite !app_nil_r. simpl. repeat split; try lia; intros r [].
    + eexists resp, s', [], [_]. split; [exact Hc|]. rewrite Hdb. simpl.
      rewrite app_nil_r.
      repeat split; try lia; try (intros r []);
        destruct H as [<-|[]]; simpl; auto.
Qed.

(** ** routes/deviceAccess.js: whose attempts [getUserRecentActivity] finds *)

Lemma get_set_other k k' v o :
  (k =? k')%string = false -> get k (set k' v o) = get k o.
Proof.
  intros Hne. induction o as [|[k0 v0] o IH]; simpl.
  - rewrite Hne. reflexivity.
  - destruct (k' =? k0)%string eqn:Hk.
    + apply String.eqb_eq in Hk. subst k0. simpl. rewrite Hne. reflexivity.
    + simpl. destruct (k =? k0)%string; [reflexivity | exact IH].
Qed.

Lemma get_spread k more :
  get k more = None ->
  forall base, get k (spread base more) = get k base.
Proof.
  unfold spread.
  induction more as [|[k' v] more IH]; intros Hm base; simpl; [reflexivity|].
  simpl in Hm. destruct (k =? k')%string eqn:Hk; [discriminate|].
  rewrite IH by exact Hm. apply get_set_other. exact Hk.
Qed.

Lemma shown_to_own_row env userId deviceId sourceIp attemptType ua details :
  get "user_id" details = None ->
  forall u,
    Activity.shown_to u
      (blocked_attempt_row env userId deviceId sourceIp attemptType ua
         details) = true <-> u = userId.
Proof.
  intros Hd u. unfold Activity.shown_to, Activity.field_text. simpl.
  rewrite get_spread by exact Hd. simpl. split.
  - intros H. apply String.eqb_eq in H. symmetry. apply toString_inj. exact H.
  - intros ->. apply String.eqb_refl.
Qed.

(** X7. The row that a connect request adds to [blocked_attempts] meets the
    WHERE clause of [getUserRecentActivity] for the user who made the
    request and for no other user: the numeral of one id is never that of
    another, and the details that [connect] passes never overwrite
    [user_id]. *)
Theorem blocked_attempt_shown_to_its_user :
  forall env req s r,
    In r (blocked_attempts (db (snd (connect env req s)))) ->
    ~ In r (blocked_attempts (db s)) ->
    forall u,
      Activity.shown_to u (snd r) = true <-> u = user_id (session s).
Proof.
  intros env req s r Hin Hnew u.
  destruct (connect_store_effect env req s)
    as (resp & s' & Hc & [Hdb|[Hdb|Hdb]]);
    rewrite Hc in Hin; simpl in Hin.
  - rewrite Hdb in Hin. contradiction.
  - destruct Hdb as (id & ty & det & Hp & Hdet & Hst & Hdb).
    rewrite Hdb in Hin.
    destruct (after_blocked_attempt_appends env (db s)
                (blocked_attempt_row env (user_id (session s)) id (ip req)
                   ty (userAgent req) det)) as [He|[He _]];
      rewrite He in Hin; [contradiction|].
    simpl in Hin. apply in_app_or in Hin.
    destruct Hin as [Hin|[<-|[]]]; [contradiction|].
    simpl. apply shown_to_own_row. exact Hdet.
  - destruct Hdb as (id & ds & md & Hp & Hst & Hdb).
    rewrite Hdb in Hin.
    destruct (after_security_alert_frame env (db s)
                (security_alert_row env id "Unauthorized Device Access"
                   "medium" ds (ip req) md)) as (_ & _ & Hb).
    rewrite Hb in Hin. contradiction.
Qed.

(** User 2 is refused device 2; the row written is shown to user 2 and
    not to user 22. *)
Lemma blocked_attempt_shown_to_its_user_witness :
  Activity.shown_to 2
    (blocked_attempt_row working 2 2 "192.0.2.7" "unauthorized_access"
       (Some "curl/8.0")
       [("reason", JStr "no_permission_secured_device");
        ("device_name", JStr "Thermostat");
        ("security_enabled", JBool true)]) = true /\
  Activity.shown_to 22
    (blocked_attempt_row working 2 2 "192.0.2.7" "unauthorized_access"
       (Some "curl/8.0")
       [("reason", JStr "no_permission_secured_device");
        ("device_name", JStr "Thermostat");
        ("security_enabled", JBool true)]) <> true.
Proof.
  pose proof (@blocked_attempt_shown_to_its_user working (request_for "2")
                (signed_in 2)
                (1, blocked_attempt_row working 2 2 "192.0.2.7"
                      "unauthorized_access" (Some "curl/8.0")
                      [("reason", JStr "no_permission_secured_device");
                       ("device_name", JStr "Thermostat");
                       ("security_enabled", JBool true)])) as H.
  assert (Hin : In (1, blocked_attempt_row working 2 2 "192.0.2.7"
                         "unauthorized_access" (Some "curl/8.0")
                         [("reason", JStr "no_permission_secured_device");
                          ("device_name", JStr "Thermostat");
                          ("security_enabled", JBool true)])
                  (blocked_attempts
                     (db (snd (connect working (request_for "2")
                                 (signed_in 2))))))
    by (left; reflexivity).
  assert (Hnew : ~ In (1, blocked_attempt_row working 2 2 "192.0.2.7"
                            "unauthorized_access" (Some "curl/8.0")
                            [("reason", JStr "no_permission_secured_device");
                             ("device_name", JStr "Thermostat");
                             ("security_enabled", JBool true)])
                     (blocked_attempts (db (signed_in 2))))
    by (intros []).
  split.
  - apply (H Hin Hnew 2). reflexivity.
  - intros Hs. apply (H Hin Hnew 22) in Hs. discriminate Hs.
Defined.

(** ** routes/deviceAccess.js: connecting and disconnecting *)

Lemma connect_allowed_session env req s resp s' :
  connect env req s = (Returned resp, s') ->
  status_code resp = 200 ->
  exists deviceId c,
    parseInt (deviceId_param req) = Some deviceId /\
    connectedDevice (session s') = Some c /\
    ConnectedDevice.id c = deviceId /\
    user_id (session s') = user_id (session s).
Proof.
  intros Hc H200.
  destruct (connect_follows_decision env req s) as (s1 & Hc1 & Hs1 & _).
  rewrite Hc in Hc1. injection Hc1 as -> ->.
  unfold decision in *.
  destruct (parseInt (deviceId_param req)) as [deviceId|];
    [|discriminate H200].
  destruct (select_device env (db s) deviceId) as [[|device rest]|e] eqn:Hs;
    try discriminate H200.
  destruct (select_device_found _ _ _ Hs) as (_ & _ & Hid & _).
  destruct (negb (opt_string_eqb (Device.status device) "online"));
    [discriminate H200|].
  destruct (negb (permitted env (db s) (user_id (session s)))
            && Device.has_security_enabled device);
    [discriminate H200|].
  simpl in Hs1. rewrite Hs1. simpl.
  exists deviceId, (snapshot env device). auto.
Qed.

(** X8. After a connect request that was allowed, a disconnect request for
    the same [deviceId] succeeds: it is answered 200, the session holds no
    connection any more, and the store is what [connect] left. *)
Theorem connect_then_disconnect :
  forall env req s resp s',
    connect env req s = (Returned resp, s') ->
    status_code resp = 200 ->
    exists resp' s'',
      disconnect req s' = (Returned resp', s'') /\
      status_code resp' = 200 /\
      connectedDevice (session s'') = None /\
      user_id (session s'') = user_id (session s) /\
      db s'' = db s'.
Proof.
  intros env req s resp s' Hc H200.
  destruct (connect_allowed_session env req s Hc H200)
    as (deviceId & c & Hp & Hcd & Hid & Hu).
  destruct s' as [d' ss' lg']. simpl in *.
  unfold disconnect, try_catch, bind, get_session. simpl.
  rewrite Hp, Hcd. apply Z.eqb_eq in Hid. rewrite Hid. simpl.
  eexists. eexists. split; [reflexivity|]. simpl. auto.
Qed.

Lemma connect_then_disconnect_witness :
  exists resp' s'',
    disconnect (request_for "3")
      (snd (connect working (request_for "3") (signed_in 2))) =
    (Returned resp', s'') /\
    status_code resp' = 200 /\
    connectedDevice (session s'') = None /\
    user_id (session s'') = user_id (session (signed_in 2)) /\
    db s'' = db (snd (connect working (request_for "3") (signed_in 2))).
Proof.
  apply (@connect_then_disconnect working (request_for "3") (signed_in 2)
           (connected garage_sensor (snapshot working garage_sensor))).
  - reflexivity.
  - reflexivity.
Defined.

(** X9. A disconnect that succeeded cannot be repeated: whatever device id the
    next disconnect request names, it is answered 400 "You are not
    connected to this device" and changes nothing. *)
Theorem disconnect_is_final :
  forall req s resp s',
    disconnect req s = (Returned resp, s') ->
    status_code resp = 200 ->
    forall req' deviceId,
      parseInt (deviceId_param req') = Some deviceId ->
      disconnect req' s' =
      (Returned (failure 400 "You are not connected to this device"), s').
Proof.
  intros req s resp s' Hd H200 req' deviceId Hp'.
  destruct s as [d ss lg].
  unfold disconnect, try_catch, bind, get_session in Hd. simpl in Hd.
  destruct (parseInt (deviceId_param req)) as [id|].
  2:{ injection Hd as <- _. discriminate H200. }
  destruct (connectedDevice ss) as [c|].
  2:{ injection Hd as <- _. discriminate H200. }
  destruct (ConnectedDevice.id c =? id); simpl in Hd.
  2:{ injection Hd as <- _. discriminate H200. }
  injection Hd as _ <-.
  unfold disconnect, try_catch, bind, get_session. simpl.
  rewrite Hp'. reflexivity.
Qed.

Lemma disconnect_is_final_witness :
  disconnect (request_for "3")
    (mkSt sample_db (mkSession 2 None) [(Info, "Device disconnection")]) =
  (Returned (failure 400 "You are not connected to this device"),
   mkSt sample_db (mkSession 2 None) [(Info, "Device disconnection")]).
Proof.
  apply (@disconnect_is_final (request_for "3")
           (mkSt sample_db
              (mkSession 2 (Some (snapshot working garage_sensor))) [])
           (mkResponse 200
              (JObj [("success", JBool true);
                     ("message",
                      JStr "Successfully disconnected from Garage Sensor")]))
           (mkSt sample_db (mkSession 2 None)
              [(Info, "Device disconnection")])
           eq_refl eq_refl (request_for "3") 3 eq_refl).
Defined.


(** ** routes/alerts.js: creating, reading, resolving and deleting an alert *)

Lemma includes_In l x : AlertRoutes.includes l x = true -> In x l.
Proof.
  unfold AlertRoutes.includes. intros H. apply existsb_exists in H.
  destruct H as (y & Hin & Hy). apply String.eqb_eq in Hy. subst. exact Hin.
Qed.

Lemma given_note_present n v :
  Alerts.given_note n = Some v -> n = Some v /\ v <> "".
Proof.
  unfold Alerts.given_note. destruct n as [x|]; [|discriminate].
  destruct (String.eqb_spec x ""); [discriminate|].
  intros H. injection H as <-. auto.
Qed.

Ltac refused_unchanged :=
  eexists; eexists; split; [reflexivity|]; split; [reflexivity|];
  right; split; [discriminate | reflexivity].

Lemma create_alert_effect e body s :
  exists resp s',
    AlertRoutes.create_alert e body s = (Returned resp, s') /\
    session s' = session s /\
    ((exists ty sev,
         Alerts.given_note (AlertRoutes.alert_type body) = Some ty /\
         Alerts.given_note (AlertRoutes.severity body) = Some sev /\
         AlertRoutes.includes AlertRoutes.validSeverities sev = true /\
         insert_security_alert (AlertRoutes.base e) (db s)
           (AlertRoutes.alertData e body ty sev) =
         Returned ((security_alerts_id_seq (db s) + 1,
                    AlertRoutes.alertData e body ty sev), db s') /\
         resp = AlertRoutes.created
                  (security_alerts_id_seq (db s) + 1,
                   AlertRoutes.alertData e body ty sev)) \/
     (status_code resp <> 201 /\ db s' = db s)).
Proof.
  destruct s as [d ss lg].
  unfold AlertRoutes.create_alert.
  destruct (Alerts.given_note (AlertRoutes.alert_type body)) as [ty|] eqn:Hty.
  2:{ refused_unchanged. }
  destruct (Alerts.given_note (AlertRoutes.severity body)) as [sev|] eqn:Hsev.
  2:{ refused_unchanged. }
  destruct (AlertRoutes.includes AlertRoutes.validSeverities sev) eqn:Hinc;
    cbn [negb].
  2:{ refused_unchanged. }
  cbn [db].
  unfold try_catch, bind, await, reading, ret, log, AlertRoutes.find_device.
  cbn [db session logged].
  destruct (Alerts.given_user (AlertRoutes.device_id body)) as [dev|];
    cbn [db session logged].
  - destruct (select_device (AlertRoutes.base e) d dev) as [rows|err];
      cbn [db session logged]; [|refused_unchanged].
    destruct (hd_error rows) as [device|];
      cbn [db session logged]; [|refused_unchanged].
    destruct (insert_security_alert (AlertRoutes.base e) d
                (AlertRoutes.alertData e body ty sev))
      as [[res d']|err] eqn:Hi; cbn [db session logged];
      [|refused_unchanged].
    destruct (insert_security_alert_written _ _ _ Hi) as (-> & _).
    eexists. eexists. split; [reflexivity|]. split; [reflexivity|].
    left. exists ty, sev. auto.
  - destruct (insert_security_alert (AlertRoutes.base e) d
                (AlertRoutes.alertData e body ty sev))
      as [[res d']|err] eqn:Hi; cbn [db session logged];
      [|refused_unchanged].
    destruct (insert_security_alert_written _ _ _ Hi) as (-> & _).
    eexists. eexists. split; [reflexivity|]. split; [reflexivity|].
    left. exists ty, sev. auto.
Qed.

Lemma get_alert_effect user_name e id_param s :
  exists resp,
    AlertRoutes.get_alert user_name e id_param s =
    (Returned resp,
     mkSt (db s) (session s)
       (logged s ++
          if AlertRoutes.fails_select_alert e &&
             match parseInt id_param with Some _ => true | None => false end
          then [(Err, "Get alert error")] else [])%list).
Proof.
  destruct s as [d ss lg].
  unfold AlertRoutes.get_alert, try_catch, bind, await, reading, ret, log,
    AlertRoutes.select_alert.
  cbn [db session logged].
  destruct (parseInt id_param) as [alertId|]; cbn [db session logged].
  2:{ rewrite andb_false_r, app_nil_r. eexists. reflexivity. }
  destruct (AlertRoutes.fails_select_alert e); cbn [db session logged andb].
  - eexists. reflexivity.
  - rewrite app_nil_r.
    destruct (filter _ _) as [|row rest]; eexists; reflexivity.
Qed.

Lemma filter_none (A : Type) (f : A -> bool) l :
  filter f l = [] -> filter (fun x => negb (f x)) l = l.
Proof.
  induction l as [|x l IH]; simpl; [reflexivity|].
  destruct (f x); simpl; [discriminate|].
  intros H. rewrite (IH H). reflexivity.
Qed.

Lemma remove_alert_effect e id_param s :
  exists resp s',
    AlertRoutes.remove_alert e id_param s = (Returned resp, s') /\
    session s' = session s /\
    devices (db s') = devices (db s) /\
    users (db s') = users (db s) /\
    blocked_attempts (db s') = blocked_attempts (db s) /\
    blocked_attempts_id_seq (db s') = blocked_attempts_id_seq (db s) /\
    security_alerts_id_seq (db s') = security_alerts_id_seq (db s) /\
    ((status_code resp = 200 /\
      exists alertId,
        parseInt id_param = Some alertId /\
        filter (fun r => fst r =? alertId) (security_alerts (db s)) <> [] /\
        security_alerts (db s') =
        filter (fun r => negb (fst r =? alertId)) (security_alerts (db s))) \/
     (status_code resp <> 200 /\
      security_alerts (db s') = security_alerts (db s))).
Proof.
  destruct s as [d ss lg].
  unfold AlertRoutes.remove_alert, try_catch, bind, await, ret, log,
    AlertRoutes.delete_alert.
  cbn [db session logged].
  destruct (parseInt id_param) as [alertId|]; cbn [db session logged].
  2:{ eexists. eexists. split; [reflexivity|]. cbn [db session].
      repeat (split; [reflexivity|]). right.
      split; [discriminate | reflexivity]. }
  destruct (AlertRoutes.fails_delete_alert e); cbn [db session logged].
  { eexists. eexists. split; [reflexivity|]. cbn [db session].
    repeat (split; [reflexivity|]). right.
    split; [discriminate | reflexivity]. }
  destruct (filter (fun r => fst r =? alertId) (security_alerts d))
    as [|row rest] eqn:Hf.
  - cbn. eexists. eexists. split; [reflexivity|]. cbn.
    repeat (split; [reflexivity|]). right.
    split; [discriminate|]. apply filter_none. exact Hf.
  - replace (Z.of_nat (List.length (row :: rest)) =? 0) with false.
    2:{ symmetry. apply Z.eqb_neq. cbn [List.length]. lia. }
    eexists. eexists. split; [reflexivity|]. cbn.
    repeat (split; [reflexivity|]). left.
    split; [reflexivity|]. exists alertId.
    split; [reflexivity|]. split; [rewrite Hf; discriminate | reflexivity].
Qed.

Lemma apply_keeps_identity data a :
  Alert.device_id (Alert.apply data a) = Alert.device_id a /\
  Alert.alert_type (Alert.apply data a) = Alert.alert_type a /\
  Alert.severity (Alert.apply data a) = Alert.severity a /\
  Alert.description (Alert.apply data a) = Alert.description a /\
  Alert.source_ip (Alert.apply data a) = Alert.source_ip a /\
  Alert.detected_at (Alert.apply data a) = Alert.detected_at a.
Proof.
  unfold Alert.apply. revert a.
  induction data as [|x data IH]; intros a; [simpl; auto 6|].
  cbn [fold_left].
  destruct (IH (Alert.apply1 a x)) as (H1 & H2 & H3 & H4 & H5 & H6).
  rewrite H1, H2, H3, H4, H5, H6. destruct x; simpl; auto 6.
Qed.

Lemma apply_refers d data a :
  assigned_users_exist d data = true ->
  references (user_exists d) (Alert.resolved_by a) = true ->
  references (user_exists d) (Alert.resolved_by (Alert.apply data a)) = true.
Proof.
  unfold Alert.apply, assigned_users_exist. revert a.
  induction data as [|x data IH]; intros a Hall Ha; [exact Ha|].
  cbn [fold_left forallb] in *. apply andb_prop in Hall.
  destruct Hall as [Hx Hall]. apply IH; [exact Hall|].
  destruct x; simpl; auto.
Qed.

Lemma update_alert_accepted env d data id row rows d' :
  update_alert env d data id = Returned (row :: rows, d') ->
  assigned_users_exist d data = true /\
  blocked_attempts_id_seq d' = blocked_attempts_id_seq d /\
  security_alerts_id_seq d' = security_alerts_id_seq d.
Proof.
  unfold update_alert.
  destruct (fails env UpdateAlert); [discriminate|].
  destruct (filter _ _) as [|r0 rs]; [discriminate|].
  destruct (assigned_users_exist d data); simpl; [|discriminate].
  intros H. injection H as _ _ <-. simpl. auto.
Qed.

(** [write_resolution] either has one UPDATE accepted and answers 200
    with its first row, or leaves the store as it was. *)
Lemma write_resolution_cases JSON_parse env req alertId alert s :
  exists r s',
    Alerts.write_resolution JSON_parse env req alertId alert s = (r, s') /\
    session s' = session s /\
    logged s' = logged s /\
    ((exists data row rows,
         r = Returned (Alerts.resolved row) /\
         update_alert env (db s) data alertId =
           Returned (row :: rows, db s') /\
         (forall a,
             Alert.status (Alert.apply data a) = Some "resolved" /\
             Alert.resolved_at (Alert.apply data a) = Some (now env)) /\
         (forall a,
             Alert.resolved_by (Alert.apply data a) =
             match Alerts.given_user (Alerts.resolved_by req) with
             | Some u => Some u
             | None => Alert.resolved_by a
             end) /\
         (forall u,
             Alerts.given_user (Alerts.resolved_by req) = Some u ->
             In (Alert.SetResolvedBy u) data)) \/
     (db s' = db s /\
      (r = Returned (Alerts.refusal 404 "Alert not found") \/
       exists e, r = Threw e))).
Proof.
  destruct s as [d ss lg].
  unfold Alerts.write_resolution, bind.
  assert (Hwrite :
    forall data,
      (forall a,
          Alert.status (Alert.apply data a) = Some "resolved" /\
          Alert.resolved_at (Alert.apply data a) = Some (now env)) ->
      (forall a,
          Alert.resolved_by (Alert.apply data a) =
          match Alerts.given_user (Alerts.resolved_by req) with
          | Some u => Some u
          | None => Alert.resolved_by a
          end) ->
      (forall u,
          Alerts.given_user (Alerts.resolved_by req) = Some u ->
          In (Alert.SetResolvedBy u) data) ->
      exists r s',
        (let (r, s'0) :=
           await (fun d0 => update_alert env d0 data alertId)
             (mkSt d ss lg) in
         match r with
         | Returned a =>
             match a with
             | [] => ret (Alerts.refusal 404 "Alert not found")
             | row :: _ => ret (Alerts.resolved row)
             end s'0
         | Threw e => (Threw e, s'0)
         end) = (r, s') /\
        session s' = ss /\ logged s' = lg /\
        ((exists data row rows,
             r = Returned (Alerts.resolved row) /\
             update_alert env d data alertId =
               Returned (row :: rows, db s') /\
             (forall a,
                 Alert.status (Alert.apply data a) = Some "resolved" /\
                 Alert.resolved_at (Alert.apply data a) = Some (now env)) /\
             (forall a,
                 Alert.resolved_by (Alert.apply data a) =
                 match Alerts.given_user (Alerts.resolved_by req) with
                 | Some u => Some u
                 | None => Alert.resolved_by a
                 end) /\
             (forall u,
                 Alerts.given_user (Alerts.resolved_by req) = Some u ->
                 In (Alert.SetResolvedBy u) data)) \/
         (db s' = d /\
          (r = Returned (Alerts.refusal 404 "Alert not found") \/
           exists e, r = Threw e)))).
  { intros data Hdata Hby Hin. unfold await, ret. cbn [db session logged].
    destruct (update_alert env d data alertId) as [[[|row rows] d']|e]
      eqn:Hupd.
    - apply update_alert_nothing in Hupd. subst d'.
      eexists. eexists. split; [reflexivity|]. cbn.
      split; [reflexivity|]. split; [reflexivity|]. right.
      split; [reflexivity|]. left. reflexivity.
    - eexists. eexists. split; [reflexivity|]. cbn.
      split; [reflexivity|]. split; [reflexivity|]. left.
      exists data, row, rows. auto.
    - eexists. eexists. split; [reflexivity|]. cbn.
      split; [reflexivity|]. split; [reflexivity|]. right.
      split; [reflexivity|]. right. eexists. reflexivity. }
  destruct (Alerts.given_note (Alerts.resolution_note req)) as [note|].
  - destruct (with_resolution_note_pure JSON_parse (Alert.metadata alert) note
                (mkSt d ss lg)) as [[m Hm]|[e He]].
    + rewrite Hm. unfold ret at 1. apply Hwrite.
      * intros a.
        destruct (Alerts.given_user (Alerts.resolved_by req)); simpl; auto.
      * intros a.
        destruct (Alerts.given_user (Alerts.resolved_by req)); reflexivity.
      * intros u ->. cbn. auto.
    + rewrite He. eexists. eexists. split; [reflexivity|]. cbn.
      split; [reflexivity|]. split; [reflexivity|]. right.
      split; [reflexivity|]. right. eexists. reflexivity.
  - unfold ret at 1. apply Hwrite.
    + intros a.
      destruct (Alerts.given_user (Alerts.resolved_by req)); simpl; auto.
    + intros a.
      destruct (Alerts.given_user (Alerts.resolved_by req)); reflexivity.
    + intros u ->. cbn. auto.
Qed.

(** What [resolve] does: it answers 200 after one accepted UPDATE of an
    alert that it found active, or something else with the store as it
    was. *)
Lemma resolve_effect JSON_parse env req s :
  exists resp s',
    Alerts.resolve JSON_parse env req s = (Returned resp, s') /\
    session s' = session s /\
    ((status_code resp = 200 /\
      exists alertId alert data row rows,
        parseInt (Alerts.id_param req) = Some alertId /\
        find_alert env (db s) alertId = Returned (Some alert) /\
        Alert.status alert = Some "active" /\
        update_alert env (db s) data alertId =
          Returned (row :: rows, db s') /\
        resp = Alerts.resolved row /\
        (forall a,
            Alert.status (Alert.apply data a) = Some "resolved" /\
            Alert.resolved_at (Alert.apply data a) = Some (now env)) /\
        (forall a,
            Alert.resolved_by (Alert.apply data a) =
            match Alerts.given_user (Alerts.resolved_by req) with
            | Some u => Some u
            | None => Alert.resolved_by a
            end) /\
        (forall u,
            Alerts.given_user (Alerts.resolved_by req) = Some u ->
            In (Alert.SetResolvedBy u) data)) \/
     (status_code resp <> 200 /\ db s' = db s)).
Proof.
  destruct s as [d ss lg].
  unfold Alerts.resolve, try_catch.
  destruct (parseInt (Alerts.id_param req)) as [alertId|];
    [|refused_unchanged].
  unfold bind at 1, await at 1, reading at 1. cbn [db session logged].
  destruct (find_alert env d alertId) as [[alert|]|e] eqn:Hfind;
    cbn [db session logged]; [| refused_unchanged | refused_unchanged].
  destruct (opt_string_eqb (Alert.status alert) "active") eqn:Hact;
    cbn [negb]; [|refused_unchanged].
  apply active_eqb in Hact.
  assert (Hwrite :
    forall lg0,
    exists resp s',
      (let (r, s'0) :=
         Alerts.write_resolution JSON_parse env req alertId alert
           (mkSt d ss lg0) in
       match r with
       | Returned a => (Returned a, s'0)
       | Threw e =>
           (log Err "Resolve alert error";;
            ret (mkResponse 500
                   (JObj [("success", JBool false);
                          ("error", JStr "Failed to resolve alert");
                          ("message", JStr (message e))]))) s'0
       end) = (Returned resp, s') /\
      session s' = ss /\
      ((status_code resp = 200 /\
        exists alertId0 alert0 data row rows,
          Some alertId = Some alertId0 /\
          find_alert env d alertId0 = Returned (Some alert0) /\
          Alert.status alert0 = Some "active" /\
          update_alert env d data alertId0 = Returned (row :: rows, db s') /\
          resp = Alerts.resolved row /\
          (forall a,
              Alert.status (Alert.apply data a) = Some "resolved" /\
              Alert.resolved_at (Alert.apply data a) = Some (now env)) /\
          (forall a,
              Alert.resolved_by (Alert.apply data a) =
              match Alerts.given_user (Alerts.resolved_by req) with
              | Some u => Some u
              | None => Alert.resolved_by a
              end) /\
          (forall u,
              Alerts.given_user (Alerts.resolved_by req) = Some u ->
              In (Alert.SetResolvedBy u) data)) \/
       (status_code resp <> 200 /\ db s' = d))).
  { intros lg0.
    destruct (write_resolution_cases JSON_parse env req alertId alert
                (mkSt d ss lg0))
      as (r & s1 & Hrun & Hss & Hlg & Hcase).
    rewrite Hrun. cbn [db session logged] in *.
    destruct Hcase as [(data & row & rows & -> & Hupd & Hdata & Hby & Hin)
                      |(Hdb & [-> | [e ->]])].
    - eexists. eexists. split; [reflexivity|]. split; [exact Hss|].
      left. split; [reflexivity|].
      exists alertId, alert, data, row, rows. auto 9.
    - eexists. eexists. split; [reflexivity|]. split; [exact Hss|].
      right. split; [discriminate | exact Hdb].
    - unfold bind, log, ret. destruct s1 as [d1 ss1 lg1].
      cbn [db session logged] in *.
      eexists. eexists. split; [reflexivity|]. cbn [db session].
      split; [exact Hss|].
      right. split; [discriminate | exact Hdb]. }
  destruct (Alerts.given_user (Alerts.resolved_by req)) as [u|].
  - unfold bind at 1, await at 1, reading at 1. cbn [db session logged].
    destruct (find_user env d u) as [[user|]|e];
      cbn [db session logged]; [| refused_unchanged | refused_unchanged].
    apply Hwrite.
  - apply Hwrite.
Qed.

(** X10. POST /api/alerts answers every request; a 201 stands for exactly one
    new row at the end of [security_alerts], under the next id, active and
    unresolved, with a severity from the list and an existing device (or
    none); any other answer leaves the store as it was. *)
Theorem create_alert_appends_valid_row e body s :
  exists resp s',
    AlertRoutes.create_alert e body s = (Returned resp, s') /\
    session s' = session s /\
    (status_code resp <> 201 -> db s' = db s) /\
    (status_code resp = 201 ->
     exists row,
       let id := security_alerts_id_seq (db s) + 1 in
       resp = AlertRoutes.created (id, row) /\
       security_alerts (db s') = (security_alerts (db s) ++ [(id, row)])%list /\
       security_alerts_id_seq (db s') = id /\
       devices (db s') = devices (db s) /\
       users (db s') = users (db s) /\
       blocked_attempts (db s') = blocked_attempts (db s) /\
       Alert.status row = Some "active" /\
       Alert.resolved_at row = None /\
       Alert.resolved_by row = None /\
       Alert.detected_at row = now (AlertRoutes.base e) /\
       In (Alert.severity row) AlertRoutes.validSeverities /\
       Alert.alert_type row <> "" /\
       AlertRoutes.alert_type body = Some (Alert.alert_type row) /\
       AlertRoutes.severity body = Some (Alert.severity row) /\
       references (device_exists (db s)) (Alert.device_id row) = true).
Proof.
  destruct (create_alert_effect e body s)
    as (resp & s' & Hrun & Hss & Hcase).
  exists resp, s'. split; [exact Hrun|]. split; [exact Hss|].
  destruct Hcase as [(ty & sev & Hty & Hsev & Hinc & Hins & Hresp)
                    |[Hne Hdb]].
  - split; [intros Hne; subst resp; exfalso; apply Hne; reflexivity|].
    intros _. exists (AlertRoutes.alertData e body ty sev).
    destruct (insert_security_alert_written _ _ _ Hins)
      as (_ & Hd' & Hdev & _).
    apply given_note_present in Hty. destruct Hty as [Hty Htyne].
    apply given_note_present in Hsev. destruct Hsev as [Hsev _].
    rewrite Hd'.
    cbn [security_alerts security_alerts_id_seq devices users
         blocked_attempts Alert.status Alert.resolved_at Alert.resolved_by
         Alert.detected_at Alert.severity Alert.alert_type
         AlertRoutes.alertData].
    split; [exact Hresp|].
    repeat (split; [reflexivity|]).
    split; [apply includes_In; exact Hinc|].
    split; [exact Htyne|].
    split; [exact Hty|]. split; [exact Hsev | exact Hdev].
  - split; [intros _; exact Hdb | intros H; contradiction].
Qed.

Lemma filter_left_join (A B : Type) (on : A -> B -> bool) (p : A -> bool)
    (l : list A) (r : list B) :
  filter (fun x => p (fst x)) (AlertRoutes.left_join on l r) =
  AlertRoutes.left_join on (filter p l) r.
Proof.
  unfold AlertRoutes.left_join.
  induction l as [|a l IH]; [reflexivity|].
  cbn [flat_map filter]. rewrite filter_app, IH.
  assert (Hchunk :
    forall ms : list B,
      filter (fun x : A * option B => p (fst x))
        (map (fun b => (a, Some b)) ms) =
      if p a then map (fun b => (a, Some b)) ms else []).
  { induction ms as [|m ms IHm]; cbn; [destruct (p a); reflexivity|].
    rewrite IHm. destruct (p a); reflexivity. }
  destruct (filter (on a) r) as [|m ms] eqn:Hf.
  - cbn [filter fst]. destruct (p a); cbn [flat_map]; rewrite ?Hf;
      reflexivity.
  - rewrite Hchunk. destruct (p a); cbn [flat_map]; rewrite ?Hf; reflexivity.
Qed.

Lemma left_join_head (A B : Type) (on : A -> B -> bool) a l (r : list B) :
  exists b rest, AlertRoutes.left_join on (a :: l) r = (a, b) :: rest.
Proof.
  unfold AlertRoutes.left_join. cbn [flat_map].
  destruct (filter (on a) r) as [|m ms]; cbn; eexists; eexists; reflexivity.
Qed.

(** The rows that [select_alert] returns are those of the alerts with
    that id, joined. *)
Lemma select_alert_rows e d alertId :
  AlertRoutes.fails_select_alert e = false ->
  AlertRoutes.select_alert e d alertId =
  Returned
    (AlertRoutes.left_join
       (fun (r : (Z * Alert.t) * option Device.t) u =>
          AlertRoutes.refers_to (Alert.resolved_by (snd (fst r))) (User.id u))
       (AlertRoutes.left_join
          (fun (r : Z * Alert.t) dev =>
             AlertRoutes.refers_to (Alert.device_id (snd r)) (Device.id dev))
          (filter (fun r => fst r =? alertId) (security_alerts d))
          (devices d))
       (users d)).
Proof.
  intros Hf. unfold AlertRoutes.select_alert. rewrite Hf. f_equal.
  rewrite <- (filter_left_join _ (fun r : Z * Alert.t => fst r =? alertId)).
  rewrite <- (filter_left_join _
                (fun x : (Z * Alert.t) * option Device.t =>
                   fst (fst x) =? alertId)).
  reflexivity.
Qed.

Lemma filter_above (A : Type) (rows : list (Z * A)) seq id :
  (forall r, In r rows -> fst r <= seq) -> seq < id ->
  filter (fun r => fst r =? id) rows = [].
Proof.
  intros Hle Hlt. induction rows as [|r rows IH]; [reflexivity|].
  cbn [filter].
  assert (Hr : fst r <= seq) by (apply Hle; left; reflexivity).
  replace (fst r =? id) with false by (symmetry; apply Z.eqb_neq; lia).
  apply IH. intros x Hx. apply Hle. right. exact Hx.
Qed.

Lemma get_alert_misses user_name e d ss lg id_param alertId :
  AlertRoutes.fails_select_alert e = false ->
  parseInt id_param = Some alertId ->
  filter (fun r => fst r =? alertId) (security_alerts d) = [] ->
  AlertRoutes.get_alert user_name e id_param (mkSt d ss lg) =
  (Returned (Alerts.refusal 404 "Alert not found"), mkSt d ss lg).
Proof.
  intros Hf Hp Hrows.
  unfold AlertRoutes.get_alert, try_catch, bind, await, reading, ret.
  rewrite Hp. cbn [db session logged].
  rewrite select_alert_rows by exact Hf. rewrite Hrows. reflexivity.
Qed.

Lemma joined_device_missing devs k :
  filter (fun dev : Device.t => AlertRoutes.refers_to (Some k) (Device.id dev))
    devs = [] ->
  existsb (fun d => Device.id d =? k) devs = false.
Proof.
  induction devs as [|dev devs IH]; [reflexivity|].
  cbn [filter existsb AlertRoutes.refers_to].
  rewrite (Z.eqb_sym (Device.id dev) k).
  destruct (k =? Device.id dev); [discriminate|]. exact IH.
Qed.

Lemma alerts_db_keyed :
  Server.keyed (security_alerts alerts_db) (security_alerts_id_seq alerts_db).
Proof.
  split.
  - cbn. repeat constructor; cbn; intuition discriminate.
  - intros r [<-|[<-|[]]]; cbn; lia.
Qed.

(** X11. An alert that POST /api/alerts has created is the one that
    GET /api/alerts/:id returns under the id of the 201, written as a
    decimal numeral: the same row, joined with its device when it has one,
    and with no resolver. *)
Theorem created_alert_is_read_back user_name e body s resp s' e' :
  Server.keyed (security_alerts (db s)) (security_alerts_id_seq (db s)) ->
  AlertRoutes.create_alert e body s = (Returned resp, s') ->
  status_code resp = 201 ->
  AlertRoutes.fails_select_alert e' = false ->
  exists id row device user,
    resp = AlertRoutes.created (id, row) /\
    AlertRoutes.get_alert user_name e' (Text.toString id) s' =
    (Returned (AlertRoutes.found user_name ((id, row), device, user)), s') /\
    match Alert.device_id row with
    | None => device = None
    | Some k =>
        exists dev,
          device = Some dev /\ Device.id dev = k /\ In dev (devices (db s))
    end /\
    user = None.
Proof.
  intros [_ Hle] Hrun H201 Hsel.
  destruct (create_alert_effect e body s)
    as (resp0 & s0 & Hrun0 & Hss & Hcase).
  rewrite Hrun in Hrun0. injection Hrun0 as <- <-.
  destruct Hcase as [(ty & sev & _ & _ & _ & Hins & Hresp)|[Hne _]];
    [|contradiction].
  destruct (insert_security_alert_written _ _ _ Hins) as (_ & Hd' & Hfk & _).
  destruct s' as [d' ss' lg']. cbn [db] in *.
  set (id := security_alerts_id_seq (db s) + 1) in *.
  set (row := AlertRoutes.alertData e body ty sev) in *.
  assert (Hrows : filter (fun r => fst r =? id) (security_alerts d') =
                  [(id, row)]).
  { rewrite Hd'. cbn [security_alerts]. rewrite filter_app.
    rewrite (@filter_above _ (security_alerts (db s))
               (security_alerts_id_seq (db s)) id Hle) by (unfold id; lia).
    cbn. rewrite Z.eqb_refl. reflexivity. }
  assert (Hdevices : devices d' = devices (db s)) by (rewrite Hd'; reflexivity).
  exists id, row.
  unfold AlertRoutes.get_alert, try_catch, bind, await, reading, ret.
  rewrite parseInt_toString. cbn [db session logged].
  rewrite select_alert_rows by exact Hsel. rewrite Hrows.
  assert (Husers :
    forall x : option Device.t,
      filter (fun u : User.t =>
                AlertRoutes.refers_to
                  (Alert.resolved_by (snd (fst ((id, row), x))))
                  (User.id u)) (users d') = []).
  { intros x. induction (users d') as [|u us IH]; [reflexivity|].
    cbn [filter]. exact IH. }
  unfold AlertRoutes.left_join. cbn [flat_map]. rewrite !app_nil_r.
  rewrite Hdevices. cbn [snd].
  destruct (filter _ (devices (db s))) as [|dev devs] eqn:Hdevs.
  - cbn [flat_map map app]. rewrite Husers. cbn [app].
    exists None, None. split; [exact Hresp|]. split; [reflexivity|].
    split; [|reflexivity].
    destruct (Alert.device_id row) as [k|]; [|reflexivity].
    apply joined_device_missing in Hdevs.
    cbn [references] in Hfk. unfold device_exists in Hfk.
    rewrite Hdevs in Hfk. discriminate Hfk.
  - cbn [map flat_map]. rewrite Husers. cbn [app].
    exists (Some dev), None.
    split; [exact Hresp|]. split; [reflexivity|]. split; [|reflexivity].
    assert (Hin : In dev (filter
                            (fun dev0 : Device.t =>
                               AlertRoutes.refers_to
                                 (Alert.device_id row)
                                 (Device.id dev0)) (devices (db s))))
      by (rewrite Hdevs; left; reflexivity).
    apply filter_In in Hin. destruct Hin as [Hin Hk].
    destruct (Alert.device_id row) as [k|]; [|discriminate Hk].
    exists dev. cbn [AlertRoutes.refers_to] in Hk.
    split; [reflexivity|]. split; [lia | exact Hin].
Qed.

Lemma created_alert_is_read_back_witness :
  exists id row device user,
    AlertRoutes.created
      (3, AlertRoutes.alertData alert_routes port_scan "Port Scan" "high") =
    AlertRoutes.created (id, row) /\
    AlertRoutes.get_alert sample_user_name alert_routes (Text.toString id)
      (snd (AlertRoutes.create_alert alert_routes port_scan alerts_state)) =
    (Returned
       (AlertRoutes.found sample_user_name ((id, row), device, user)),
     snd (AlertRoutes.create_alert alert_routes port_scan alerts_state)) /\
    match Alert.device_id row with
    | None => device = None
    | Some k =>
        exists dev,
          device = Some dev /\ Device.id dev = k /\
          In dev (devices (db alerts_state))
    end /\
    user = None.
Proof.
  apply (@created_alert_is_read_back sample_user_name alert_routes port_scan
           alerts_state).
  - exact alerts_db_keyed.
  - reflexivity.
  - reflexivity.
  - reflexivity.
Defined.

Lemma filter_filter_negb (A : Type) (f : A -> bool) l :
  filter f (filter (fun x => negb (f x)) l) = [].
Proof.
  induction l as [|x l IH]; [reflexivity|].
  cbn [filter]. destruct (f x) eqn:Hx; cbn [negb filter]; [exact IH|].
  rewrite Hx. exact IH.
Qed.

(** X12. DELETE /api/alerts/:id answers every request; a 200 means that at
    least one alert had that id and that exactly the alerts with that id
    are gone, the others staying in their order; any other answer leaves
    the alerts as they were.  No other table and no sequence is touched. *)
Theorem remove_alert_removes_exactly e id_param s :
  exists resp s',
    AlertRoutes.remove_alert e id_param s = (Returned resp, s') /\
    session s' = session s /\
    devices (db s') = devices (db s) /\
    users (db s') = users (db s) /\
    blocked_attempts (db s') = blocked_attempts (db s) /\
    security_alerts_id_seq (db s') = security_alerts_id_seq (db s) /\
    (status_code resp <> 200 ->
     security_alerts (db s') = security_alerts (db s)) /\
    (status_code resp = 200 ->
     exists alertId,
       parseInt id_param = Some alertId /\
       (exists a, In (alertId, a) (security_alerts (db s))) /\
       security_alerts (db s') =
       filter (fun r => negb (fst r =? alertId)) (security_alerts (db s)) /\
       forall r, In r (security_alerts (db s')) <->
                 In r (security_alerts (db s)) /\ fst r <> alertId).
Proof.
  destruct (remove_alert_effect e id_param s)
    as (resp & s' & Hrun & Hss & Hdev & Husers & Hba & _ & Hseq & Hcase).
  exists resp, s'. repeat (split; [assumption|]).
  destruct Hcase as [(H200 & alertId & Hp & Hsome & Hrows)|(Hne & Hrows)].
  - split; [intros Hne; contradiction|]. intros _.
    exists alertId. split; [exact Hp|]. split; [|split; [exact Hrows|]].
    + destruct (filter (fun r => fst r =? alertId) (security_alerts (db s)))
        as [|[k a] rest] eqn:Hf; [contradiction|].
      assert (Hin : In (k, a) (filter (fun r => fst r =? alertId)
                                 (security_alerts (db s))))
        by (rewrite Hf; left; reflexivity).
      apply filter_In in Hin. destruct Hin as [Hin Hk]. cbn [fst] in Hk.
      apply Z.eqb_eq in Hk. subst k. exists a. exact Hin.
    + intros r. rewrite Hrows, filter_In.
      destruct (Z.eqb_spec (fst r) alertId); cbn [negb]; intuition congruence.
  - split; [intros _; exact Hrows | intros H; contradiction].
Qed.

(** X13. Once DELETE /api/alerts/:id has answered 200, the alert is gone for
    the other routes: GET on the same id answers 404, and so does a second
    DELETE, which changes nothing. *)
Theorem removed_alert_is_gone user_name e id_param s resp s' :
  AlertRoutes.remove_alert e id_param s = (Returned resp, s') ->
  status_code resp = 200 ->
  (forall e',
      AlertRoutes.fails_select_alert e' = false ->
      AlertRoutes.get_alert user_name e' id_param s' =
      (Returned (Alerts.refusal 404 "Alert not found"), s')) /\
  (forall e',
      AlertRoutes.fails_delete_alert e' = false ->
      exists s'',
        AlertRoutes.remove_alert e' id_param s' =
        (Returned (Alerts.refusal 404 "Alert not found"), s'') /\
        security_alerts (db s'') = security_alerts (db s') /\
        logged s'' = logged s').
Proof.
  intros Hrun H200.
  destruct (remove_alert_effect e id_param s)
    as (resp0 & s0 & Hrun0 & _ & _ & _ & _ & _ & _ & Hcase).
  rewrite Hrun in Hrun0. injection Hrun0 as <- <-.
  destruct Hcase as [(_ & alertId & Hp & _ & Hrows)|(Hne & _)];
    [|contradiction].
  assert (Hgone : filter (fun r => fst r =? alertId)
                    (security_alerts (db s')) = []).
  { rewrite Hrows. apply filter_filter_negb. }
  destruct s' as [d' ss' lg']. cbn [db logged] in *.
  split.
  - intros e' Hsel. apply get_alert_misses with (alertId := alertId);
      assumption.
  - intros e' Hdel.
    unfold AlertRoutes.remove_alert, try_catch, bind, await, ret,
      AlertRoutes.delete_alert.
    rewrite Hp, Hdel. cbn [db session logged]. rewrite Hgone.
    cbn [List.length Z.of_nat Z.eqb].
    eexists. split; [reflexivity|]. cbn [db logged security_alerts].
    split; [apply filter_none; exact Hgone | reflexivity].
Qed.

Lemma removed_alert_is_gone_witness :
  (forall e',
      AlertRoutes.fails_select_alert e' = false ->
      AlertRoutes.get_alert sample_user_name e' "2"
        (snd (AlertRoutes.remove_alert alert_routes "2" alerts_state)) =
      (Returned (Alerts.refusal 404 "Alert not found"),
       snd (AlertRoutes.remove_alert alert_routes "2" alerts_state))) /\
  (forall e',
      AlertRoutes.fails_delete_alert e' = false ->
      exists s'',
        AlertRoutes.remove_alert e' "2"
          (snd (AlertRoutes.remove_alert alert_routes "2" alerts_state)) =
        (Returned (Alerts.refusal 404 "Alert not found"), s'') /\
        security_alerts (db s'') =
        security_alerts
          (db (snd (AlertRoutes.remove_alert alert_routes "2" alerts_state))) /\
        logged s'' =
        logged (snd (AlertRoutes.remove_alert alert_routes "2" alerts_state))).
Proof.
  apply (@removed_alert_is_gone sample_user_name alert_routes "2" alerts_state
           (mkResponse 200
              (JObj [("success", JBool true);
                     ("message", JStr "Alert deleted successfully")]))).
  - reflexivity.
  - reflexivity.
Defined.

Lemma Forall2_same (A : Type) (R : A -> A -> Prop) l :
  (forall x, In x l -> R x x) -> Forall2 R l l.
Proof.
  induction l as [|x l IH]; intros H; constructor.
  - apply H. left. reflexivity.
  - apply IH. intros y Hy. apply H. right. exact Hy.
Qed.

Lemma Forall2_map_right (A : Type) (R : A -> A -> Prop) (f : A -> A) l :
  (forall x, In x l -> R x (f x)) -> Forall2 R l (map f l).
Proof.
  induction l as [|x l IH]; intros H; constructor.
  - apply H. left. reflexivity.
  - apply IH. intros y Hy. apply H. right. exact Hy.
Qed.

(** X14. PUT /api/alerts/:id/resolve answers every request and writes
    nothing but a resolution: devices, users, blocked attempts and the id
    sequences stay; the alerts stay in place under their ids with their
    device, type, severity, description, source address and time of
    detection; on a 200 the alerts with the id asked for are resolved at
    the time of the request and the others are unchanged; on any other
    answer the store is unchanged. *)
Theorem resolve_writes_only_the_resolution JSON_parse env req s :
  exists resp s',
    Alerts.resolve JSON_parse env req s = (Returned resp, s') /\
    session s' = session s /\
    devices (db s') = devices (db s) /\
    users (db s') = users (db s) /\
    blocked_attempts (db s') = blocked_attempts (db s) /\
    blocked_attempts_id_seq (db s') = blocked_attempts_id_seq (db s) /\
    security_alerts_id_seq (db s') = security_alerts_id_seq (db s) /\
    (status_code resp <> 200 -> db s' = db s) /\
    Forall2
      (fun r r' =>
         fst r' = fst r /\
         Alert.device_id (snd r') = Alert.device_id (snd r) /\
         Alert.alert_type (snd r') = Alert.alert_type (snd r) /\
         Alert.severity (snd r') = Alert.severity (snd r) /\
         Alert.description (snd r') = Alert.description (snd r) /\
         Alert.source_ip (snd r') = Alert.source_ip (snd r) /\
         Alert.detected_at (snd r') = Alert.detected_at (snd r) /\
         ((status_code resp = 200 /\
           parseInt (Alerts.id_param req) = Some (fst r)) ->
          Alert.status (snd r') = Some "resolved" /\
          Alert.resolved_at (snd r') = Some (now env)) /\
         (~ (status_code resp = 200 /\
             parseInt (Alerts.id_param req) = Some (fst r)) ->
          r' = r))
      (security_alerts (db s)) (security_alerts (db s')).
Proof.
  destruct (resolve_effect JSON_parse env req s)
    as (resp & s' & Hrun & Hss & Hcase).
  exists resp, s'. split; [exact Hrun|]. split; [exact Hss|].
  destruct Hcase as [(H200 & alertId & alert & data & row & rows & Hp & _ & _
                      & Hupd & _ & Hdata & Hby & Hset)
                    |(Hne & Hdb)].
  - destruct (update_alert_written _ _ _ _ Hupd) as (Hrows & Hba & Hdev & Hus).
    destruct (update_alert_accepted _ _ _ _ Hupd) as (_ & Hseq1 & Hseq2).
    repeat (split; [assumption|]).
    split; [intros Hne; contradiction|].
    rewrite Hrows. apply Forall2_map_right. intros [k a] _.
    unfold update_row. cbn [fst snd].
    destruct (Z.eqb_spec k alertId) as [->|Hk]; cbn [fst snd].
    + destruct (apply_keeps_identity data a) as (H1 & H2 & H3 & H4 & H5 & H6).
      repeat (split; [first [reflexivity | assumption]|]).
      split; [intros _; apply Hdata|].
      intros Hnot. exfalso. apply Hnot. auto.
    + repeat (split; [reflexivity|]).
      split; [|reflexivity].
      intros [_ Hpk]. rewrite Hp in Hpk. congruence.
  - rewrite Hdb. repeat (split; [reflexivity|]).
    apply Forall2_same. intros r _.
    repeat (split; [reflexivity|]).
    split; [|reflexivity]. intros [H200 _]. contradiction.
Qed.

Lemma find_update_row data id l :
  find (fun r => fst r =? id) (map (update_row data id) l) =
  option_map (update_row data id) (find (fun r => fst r =? id) l).
Proof.
  induction l as [|[k a] l IH]; [reflexivity|].
  cbn [map find]. unfold update_row at 1 3. cbn [fst snd].
  destruct (k =? id) eqn:Hk; cbn [fst option_map]; rewrite Hk;
    [reflexivity | exact IH].
Qed.

(** X15. An alert that PUT /api/alerts/:id/resolve has resolved cannot be
    resolved again: whatever the body of the second request, the answer is
    the 400 for an alert that is not active, and nothing is written, so
    the first resolution stands. *)
Theorem resolved_alert_stays_resolved JSON_parse env req s resp s' :
  Alerts.resolve JSON_parse env req s = (Returned resp, s') ->
  status_code resp = 200 ->
  forall JSON_parse' env' req',
    parseInt (Alerts.id_param req') = parseInt (Alerts.id_param req) ->
    fails env' FindAlert = false ->
    Alerts.resolve JSON_parse' env' req' s' =
    (Returned (Alerts.refusal 400 "Alert is already resolved or not active"),
     s').
Proof.
  intros Hrun H200 JSON_parse' env' req' Hsame Hfind'.
  destruct (resolve_effect JSON_parse env req s)
    as (resp0 & s0 & Hrun0 & _ & Hcase).
  rewrite Hrun in Hrun0. injection Hrun0 as <- <-.
  destruct Hcase as [(_ & alertId & alert & data & row & rows & Hp & Hfind & _
                      & Hupd & _ & Hdata & Hby & Hset)
                    |(Hne & _)]; [|contradiction].
  destruct (update_alert_written _ _ _ _ Hupd) as (Hrows & _).
  assert (Hnow : find_alert env' (db s') alertId =
                 Returned (Some (Alert.apply data alert))).
  { unfold find_alert in *. rewrite Hfind', Hrows, find_update_row.
    destruct (fails env FindAlert); [discriminate|].
    destruct (find (fun r => fst r =? alertId) (security_alerts (db s)))
      as [[k a]|] eqn:Hf; [|discriminate].
    cbn [option_map snd] in Hfind. injection Hfind as ->.
    apply find_some in Hf. destruct Hf as [_ Hk]. cbn [fst] in Hk.
    cbn [option_map]. unfold update_row. cbn [fst snd]. rewrite Hk.
    reflexivity. }
  destruct s' as [d' ss' lg']. cbn [db] in *.
  unfold Alerts.resolve, try_catch.
  rewrite Hsame, Hp.
  unfold bind at 1, await at 1, reading at 1. cbn [db session logged].
  rewrite Hnow. cbn [db session logged].
  destruct (Hdata alert) as [-> _]. reflexivity.
Qed.

Lemma resolved_alert_stays_resolved_witness :
  Alerts.resolve sample_JSON_parse working
    (Alerts.mkRequest " 1" (Some 2) (Some "seen twice"))
    (snd (Alerts.resolve sample_JSON_parse working resolve_first
            alerts_state)) =
  (Returned (Alerts.refusal 400 "Alert is already resolved or not active"),
   snd (Alerts.resolve sample_JSON_parse working resolve_first alerts_state)).
Proof.
  apply (@resolved_alert_stays_resolved sample_JSON_parse working
           resolve_first alerts_state
           (Alerts.resolved
              (1, Alert.apply
                    [Alert.SetStatus "resolved";
                     Alert.SetResolvedAt (now working);
                     Alert.SetResolvedBy 1]
                    (sample_alert (Some "active") None)))).
  - reflexivity.
  - reflexivity.
  - reflexivity.
  - reflexivity.
Defined.

Lemma update_alert_store env d data id row rows d' :
  update_alert env d data id = Returned (row :: rows, d') ->
  d' = mkDb (devices d) (users d) (blocked_attempts d)
         (map (update_row data id) (security_alerts d))
         (blocked_attempts_id_seq d) (security_alerts_id_seq d) /\
  assigned_users_exist d data = true.
Proof.
  unfold update_alert.
  destruct (fails env UpdateAlert); [discriminate|].
  destruct (filter _ _) as [|r0 rs]; [discriminate|].
  destruct (assigned_users_exist d data); simpl; [|discriminate].
  intros H. injection H as _ _ <-. auto.
Qed.

Lemma filter_update_row data id l :
  filter (fun r => fst r =? id) (map (update_row data id) l) =
  map (update_row data id) (filter (fun r => fst r =? id) l).
Proof.
  assert (Hfst : forall r, fst (update_row data id r) = fst r).
  { intros r. unfold update_row. destruct (fst r =? id); reflexivity. }
  induction l as [|r l IH]; [reflexivity|].
  cbn [map filter]. rewrite Hfst.
  destruct (fst r =? id); [cbn [map]; rewrite IH; reflexivity | exact IH].
Qed.

Lemma keyed_unique (A : Type) (rows : list (Z * A)) seq id a :
  Server.keyed rows seq -> In (id, a) rows ->
  filter (fun r => fst r =? id) rows = [(id, a)].
Proof.
  intros [Hnd _]. induction rows as [|[k b] rows IH]; intros Hin;
    [contradiction|].
  cbn [map fst] in Hnd. inversion Hnd as [|? ? Hnotin Hnd']. subst.
  cbn [filter fst]. destruct Hin as [Heq|Hin].
  - injection Heq as -> ->. rewrite Z.eqb_refl. f_equal.
    clear IH Hnd Hnd'. induction rows as [|[k b] rows IH]; [reflexivity|].
    cbn [filter fst]. destruct (Z.eqb_spec k id) as [->|Hne].
    + exfalso. apply Hnotin. left. reflexivity.
    + apply IH. intros H. apply Hnotin. right. exact H.
  - destruct (Z.eqb_spec k id) as [->|Hne].
    + exfalso. apply Hnotin. apply in_map_iff. exists (id, a). auto.
    + apply IH; assumption.
Qed.

Lemma joined_user_found us u :
  existsb (fun x => User.id x =? u) us = true ->
  exists usr rest,
    filter (fun x : User.t => AlertRoutes.refers_to (Some u) (User.id x)) us =
    usr :: rest /\ User.id usr = u.
Proof.
  induction us as [|x us IH]; [discriminate|].
  cbn [existsb filter AlertRoutes.refers_to].
  rewrite (Z.eqb_sym (User.id x) u).
  destruct (Z.eqb_spec u (User.id x)) as [->|Hne]; cbn [orb].
  - intros _. eexists. eexists. split; reflexivity.
  - exact IH.
Qed.

Lemma assigned_user_exists d data u :
  assigned_users_exist d data = true ->
  In (Alert.SetResolvedBy u) data ->
  user_exists d u = true.
Proof.
  unfold assigned_users_exist. rewrite forallb_forall.
  intros Hall Hin. apply (Hall _ Hin).
Qed.

(** X16. An alert that PUT /api/alerts/:id/resolve has resolved is read back
    as resolved: under the same id GET /api/alerts/:id returns the row of
    the 200, with status [resolved], the time of the request and, when the
    request named a resolver, that user joined in. *)
Theorem resolved_alert_is_read_back JSON_parse user_name env req s resp s' e' :
  Server.keyed (security_alerts (db s)) (security_alerts_id_seq (db s)) ->
  Alerts.resolve JSON_parse env req s = (Returned resp, s') ->
  status_code resp = 200 ->
  AlertRoutes.fails_select_alert e' = false ->
  exists id alert device user,
    parseInt (Alerts.id_param req) = Some id /\
    resp = Alerts.resolved (id, alert) /\
    AlertRoutes.get_alert user_name e' (Alerts.id_param req) s' =
    (Returned (AlertRoutes.found user_name ((id, alert), device, user)), s') /\
    Alert.status alert = Some "resolved" /\
    Alert.resolved_at alert = Some (now env) /\
    forall u,
      Alerts.given_user (Alerts.resolved_by req) = Some u ->
      Alert.resolved_by alert = Some u /\
      exists usr, user = Some usr /\ User.id usr = u /\ In usr (users (db s)).
Proof.
  intros Hkeyed Hrun H200 Hsel.
  destruct (resolve_effect JSON_parse env req s)
    as (resp0 & s0 & Hrun0 & _ & Hcase).
  rewrite Hrun in Hrun0. injection Hrun0 as <- <-.
  destruct Hcase as [(_ & alertId & alert & data & row & rows & Hp & Hfind & _
                      & Hupd & Hresp & Hdata & Hby & Hset)
                    |(Hne & _)]; [|contradiction].
  destruct (update_alert_store _ _ _ _ Hupd) as [Hd' Hfk].
  apply find_alert_found in Hfind.
  pose proof (@keyed_unique _ _ _ _ _ Hkeyed Hfind) as Hone.
  assert (Hrows' : filter (fun r => fst r =? alertId)
                     (security_alerts (db s')) =
                   [(alertId, Alert.apply data alert)]).
  { rewrite Hd'. cbn [security_alerts].
    rewrite filter_update_row, Hone. cbn [map]. unfold update_row.
    cbn [fst snd]. rewrite Z.eqb_refl. reflexivity. }
  assert (Hrow : row = (alertId, Alert.apply data alert)).
  { unfold update_alert in Hupd.
    destruct (fails env UpdateAlert); [discriminate|].
    rewrite filter_update_row, Hone in Hupd. cbn [map] in Hupd.
    unfold update_row in Hupd. cbn [fst snd] in Hupd.
    rewrite Z.eqb_refl in Hupd.
    destruct (negb _); [discriminate|]. injection Hupd as <- _ _.
    reflexivity. }
  subst row.
  destruct s' as [d' ss' lg']. cbn [db] in *.
  exists alertId, (Alert.apply data alert).
  unfold AlertRoutes.get_alert, try_catch, bind, await, reading, ret.
  rewrite Hp. cbn [db session logged].
  rewrite select_alert_rows by exact Hsel. rewrite Hrows'.
  destruct (left_join_head
              (fun (r : Z * Alert.t) dev =>
                 AlertRoutes.refers_to (Alert.device_id (snd r))
                   (Device.id dev))
              (alertId, Alert.apply data alert) [] (devices d'))
    as (device & rest1 & Hj1).
  rewrite Hj1.
  destruct (Hdata alert) as [Hst Hat].
  assert (Hdevices : devices d' = devices (db s)) by (rewrite Hd'; reflexivity).
  assert (Husers : users d' = users (db s)) by (rewrite Hd'; reflexivity).
  unfold AlertRoutes.left_join at 1. cbn [flat_map fst snd].
  rewrite (Hby alert), Husers.
  destruct (Alerts.given_user (Alerts.resolved_by req)) as [u|] eqn:Hu.
  - pose proof (@assigned_user_exists _ _ _ Hfk (Hset u eq_refl)) as Hex.
    destruct (@joined_user_found _ _ Hex) as (usr & rest & Hjoin & Hid).
    rewrite Hjoin. cbn [map app].
    exists device, (Some usr).
    split; [reflexivity|]. split; [exact Hresp|]. split; [reflexivity|].
    split; [exact Hst|]. split; [exact Hat|].
    intros u0 Hu0. injection Hu0 as <-. split; [reflexivity|].
    exists usr. split; [reflexivity|]. split; [exact Hid|].
    assert (Hin : In usr (usr :: rest)) by (left; reflexivity).
    rewrite <- Hjoin in Hin. apply filter_In in Hin. tauto.
  - destruct (filter _ (users (db s))) as [|usr rest]; cbn [map app].
    + exists device, None.
      split; [reflexivity|]. split; [exact Hresp|]. split; [reflexivity|].
      split; [exact Hst|]. split; [exact Hat|]. discriminate.
    + exists device, (Some usr).
      split; [reflexivity|]. split; [exact Hresp|]. split; [reflexivity|].
      split; [exact Hst|]. split; [exact Hat|]. discriminate.
Qed.

Lemma resolved_alert_is_read_back_witness :
  exists id alert device user,
    parseInt (Alerts.id_param resolve_first) = Some id /\
    Alerts.resolved
      (1, Alert.apply
            [Alert.SetStatus "resolved"; Alert.SetResolvedAt (now working);
             Alert.SetResolvedBy 1]
            (sample_alert (Some "active") None)) =
    Alerts.resolved (id, alert) /\
    AlertRoutes.get_alert sample_user_name alert_routes
      (Alerts.id_param resolve_first)
      (snd (Alerts.resolve sample_JSON_parse working resolve_first
              alerts_state)) =
    (Returned (AlertRoutes.found sample_user_name ((id, alert), device, user)),
     snd (Alerts.resolve sample_JSON_parse working resolve_first
            alerts_state)) /\
    Alert.status alert = Some "resolved" /\
    Alert.resolved_at alert = Some (now working) /\
    forall u,
      Alerts.given_user (Alerts.resolved_by resolve_first) = Some u ->
      Alert.resolved_by alert = Some u /\
      exists usr,
        user = Some usr /\ User.id usr = u /\
        In usr (users (db alerts_state)).
Proof.
  apply (@resolved_alert_is_read_back sample_JSON_parse sample_user_name
           working resolve_first alerts_state).
  - exact alerts_db_keyed.
  - reflexivity.
  - reflexivity.
  - reflexivity.
Defined.

(** ** All routes together *)

Lemma connect_writes env req s :
  Server.write (db s) (db (snd (DeviceAccess.connect env req s))).
Proof.
  destruct (connect_store_effect env req s)
    as (resp & s' & Hrun & Hcase).
  rewrite Hrun. cbn [snd].
  destruct Hcase as [->
                    |[(id & ty & details & _ & _ & _ & ->)
                     |(id & description & metadata & _ & _ & ->)]].
  - constructor.
  - destruct (after_blocked_attempt_appends env (db s)
                (DeviceAccess.blocked_attempt_row env (user_id (session s)) id
                   (DeviceAccess.ip req) ty (DeviceAccess.userAgent req)
                   details)) as [->|[-> Href]].
    + constructor.
    + constructor. exact Href.
  - destruct (after_security_alert_appends env (db s)
                (DeviceAccess.security_alert_row env id
                   "Unauthorized Device Access" "medium" description
                   (DeviceAccess.ip req) metadata)) as [->|[-> Href]].
    + constructor.
    + constructor; [exact Href | reflexivity | reflexivity].
Qed.

Lemma create_alert_writes e body s :
  Server.write (db s) (db (snd (AlertRoutes.create_alert e body s))).
Proof.
  destruct (create_alert_effect e body s)
    as (resp & s' & Hrun & _ & Hcase).
  rewrite Hrun. cbn [snd].
  destruct Hcase as [(ty & sev & _ & _ & _ & Hins & _)|[_ ->]];
    [|constructor].
  destruct (insert_security_alert_written _ _ _ Hins)
    as (_ & -> & Hdev & Hus).
  constructor; [split; assumption | reflexivity | reflexivity].
Qed.

Lemma resolve_writes JSON_parse env req s :
  Server.write (db s) (db (snd (Alerts.resolve JSON_parse env req s))).
Proof.
  destruct (resolve_effect JSON_parse env req s)
    as (resp & s' & Hrun & _ & Hcase).
  rewrite Hrun. cbn [snd].
  destruct Hcase as [(_ & alertId & alert & data & row & rows & _ & _ & _
                      & Hupd & _ & Hdata & Hby & Hset)
                    |[_ ->]]; [|constructor].
  destruct (update_alert_store _ _ _ _ Hupd) as [-> Hfk].
  apply Server.AlertsResolved with (at_ := now env); assumption.
Qed.

Lemma remove_alert_writes e id_param s :
  Server.write (db s) (db (snd (AlertRoutes.remove_alert e id_param s))).
Proof.
  destruct s as [d ss lg].
  unfold AlertRoutes.remove_alert, try_catch, bind, await, ret, log,
    AlertRoutes.delete_alert.
  cbn [db session logged].
  destruct (parseInt id_param) as [alertId|]; cbn [db snd];
    [|constructor].
  destruct (AlertRoutes.fails_delete_alert e); cbn [db snd session logged];
    [constructor|].
  destruct (_ =? 0); cbn [db snd]; constructor.
Qed.

Lemma handler_writes JSON_parse user_name q s :
  Server.write (db s) (db (snd (Server.handler JSON_parse user_name q s))).
Proof.
  destruct q as [env req|req|e p|e body|env req|e p]; cbn [Server.handler].
  - apply connect_writes.
  - destruct (disconnect_returns req s) as (resp & s' & Hrun & Hdb & _).
    rewrite Hrun. cbn [snd]. rewrite Hdb. constructor.
  - destruct (get_alert_effect user_name e p s) as (resp & ->).
    constructor.
  - apply create_alert_writes.
  - apply resolve_writes.
  - apply remove_alert_writes.
Qed.

Lemma keyed_insert (A : Type) (rows : list (Z * A)) seq a :
  Server.keyed rows seq -> Server.keyed (rows ++ [(seq + 1, a)])%list (seq + 1).
Proof.
  intros [Hnd Hle]. split.
  - rewrite map_app. cbn [map fst].
    apply NoDup_app; [exact Hnd | repeat constructor; intros [] |].
    intros k Hk [<-|[]]. apply in_map_iff in Hk.
    destruct Hk as (r & Hr & Hin). apply Hle in Hin. lia.
  - intros r Hin. apply in_app_or in Hin. destruct Hin as [Hin|[<-|[]]].
    + apply Hle in Hin. lia.
    + cbn. lia.
Qed.

Lemma keyed_update data id rows seq :
  Server.keyed rows seq -> Server.keyed (map (update_row data id) rows) seq.
Proof.
  intros [Hnd Hle].
  assert (Hfst : forall r, fst (update_row data id r) = fst r).
  { intros r. unfold update_row. destruct (fst r =? id); reflexivity. }
  split.
  - rewrite map_map. erewrite map_ext; [exact Hnd|]. exact Hfst.
  - intros r Hin. apply in_map_iff in Hin. destruct Hin as (r0 & <- & Hin).
    rewrite Hfst. apply Hle. exact Hin.
Qed.

Lemma keyed_filter (A : Type) (f : Z * A -> bool) rows seq :
  Server.keyed rows seq -> Server.keyed (filter f rows) seq.
Proof.
  intros [Hnd Hle]. split.
  - clear Hle. induction rows as [|r rows IH]; [constructor|].
    cbn [map] in Hnd. inversion Hnd as [|? ? Hnotin Hnd']. subst.
    cbn [filter]. destruct (f r); [|apply IH; exact Hnd'].
    cbn [map]. constructor; [|apply IH; exact Hnd'].
    intros Hin. apply Hnotin. apply in_map_iff in Hin.
    destruct Hin as (x & Hx & Hin). apply filter_In in Hin.
    apply in_map_iff. exists x. tauto.
  - intros r Hin. apply filter_In in Hin. apply Hle. tauto.
Qed.

Lemma write_consistent d d' :
  Server.write d d' -> Server.consistent d -> Server.consistent d'.
Proof.
  intros Hw [Hak Hbk Hres Har Hbr].
  destruct Hw as [|row Href|row Href Hact Hnone|data id at_ Hfk Hdata|id].
  - constructor; assumption.
  - constructor; cbn [security_alerts blocked_attempts
                      security_alerts_id_seq blocked_attempts_id_seq];
      try assumption.
    + apply keyed_insert. exact Hbk.
    + intros r Hin. apply in_app_or in Hin.
      destruct Hin as [Hin|[<-|[]]]; [apply Hbr; exact Hin | exact Href].
  - constructor; cbn [security_alerts blocked_attempts
                      security_alerts_id_seq blocked_attempts_id_seq];
      try assumption.
    + apply keyed_insert. exact Hak.
    + intros r Hin. apply in_app_or in Hin.
      destruct Hin as [Hin|[<-|[]]]; [apply Hres; exact Hin|].
      unfold Server.resolution_recorded. cbn [snd].
      rewrite Hact, Hnone. split; [congruence | discriminate].
    + intros r Hin. apply in_app_or in Hin.
      destruct Hin as [Hin|[<-|[]]]; [apply Har; exact Hin | exact Href].
  - constructor; cbn [security_alerts blocked_attempts
                      security_alerts_id_seq blocked_attempts_id_seq];
      try assumption.
    + apply keyed_update. exact Hak.
    + intros r Hin. apply in_map_iff in Hin.
      destruct Hin as ([k a] & <- & Hin). unfold update_row. cbn [fst snd].
      destruct (k =? id); [|apply (Hres _ Hin)].
      unfold Server.resolution_recorded. cbn [snd].
      destruct (Hdata a) as [-> ->]. split; [reflexivity | discriminate].
    + intros r Hin. apply in_map_iff in Hin.
      destruct Hin as ([k a] & <- & Hin). unfold update_row. cbn [fst snd].
      destruct (k =? id); [|apply (Har _ Hin)].
      destruct (Har _ Hin) as [Hdev Hus]. cbn [snd] in *.
      split; cbn [snd].
      * destruct (apply_keeps_identity data a) as (-> & _). exact Hdev.
      * apply apply_refers; assumption.
  - constructor; cbn [security_alerts blocked_attempts
                      security_alerts_id_seq blocked_attempts_id_seq];
      try assumption.
    + apply keyed_filter. exact Hak.
    + intros r Hin. apply filter_In in Hin. apply Hres. tauto.
    + intros r Hin. apply filter_In in Hin. apply (Har r). tauto.
Qed.

Lemma continues_refl a : Server.continues a a.
Proof. unfold Server.continues. auto. Qed.

Lemma extends_refl d : Server.extends d d.
Proof.
  constructor; try reflexivity; try lia.
  - exists []. rewrite app_nil_r. reflexivity.
  - intros r Hin _. exists r. split; [exact Hin | apply continues_refl].
Qed.

Lemma extends_trans d1 d2 d3 :
  Server.extends d1 d2 -> Server.extends d2 d3 -> Server.extends d1 d3.
Proof.
  intros [Hd1 Hu1 [m1 Hb1] Hs1 Hf1] [Hd2 Hu2 [m2 Hb2] Hs2 Hf2].
  constructor.
  - congruence.
  - congruence.
  - exists (m1 ++ m2)%list. rewrite Hb2, Hb1, app_assoc. reflexivity.
  - lia.
  - intros r Hin Hle.
    destruct (Hf2 r Hin) as (a2 & Hin2 & Hc2); [lia|].
    destruct (Hf1 a2 Hin2) as (a1 & Hin1 & Hc1).
    { destruct Hc2 as [<- _]. exact Hle. }
    exists a1. split; [exact Hin1|].
    unfold Server.continues in *. intuition congruence.
Qed.

Lemma write_extends d d' : Server.write d d' -> Server.extends d d'.
Proof.
  intros Hw.
  destruct Hw as [|row Href|row Href Hact Hnone|data id at_ Hfk Hdata|id].
  - apply extends_refl.
  - constructor; cbn; try reflexivity; try lia.
    + eexists. reflexivity.
    + intros r Hin _. exists r. split; [exact Hin | apply continues_refl].
  - constructor; cbn [devices users blocked_attempts security_alerts
                      security_alerts_id_seq]; try reflexivity; try lia.
    + exists []. rewrite app_nil_r. reflexivity.
    + intros r Hin Hle. apply in_app_or in Hin.
      destruct Hin as [Hin|[<-|[]]].
      * exists r. split; [exact Hin | apply continues_refl].
      * cbn [fst] in Hle. lia.
  - constructor; cbn [devices users blocked_attempts security_alerts
                      security_alerts_id_seq]; try reflexivity; try lia.
    + exists []. rewrite app_nil_r. reflexivity.
    + intros r Hin _. apply in_map_iff in Hin.
      destruct Hin as ([k a] & <- & Hin). exists (k, a).
      split; [exact Hin|]. unfold update_row. cbn [fst snd].
      destruct (k =? id); [|apply continues_refl].
      unfold Server.continues. cbn [fst snd].
      destruct (apply_keeps_identity data a) as (-> & -> & -> & _ & _ & ->).
      auto.
  - constructor; cbn [devices users blocked_attempts security_alerts
                      security_alerts_id_seq]; try reflexivity; try lia.
    + exists []. rewrite app_nil_r. reflexivity.
    + intros r Hin _. apply filter_In in Hin.
      exists r. split; [tauto | apply continues_refl].
Qed.

Lemma serve_extends JSON_parse user_name qs s :
  Server.extends (db s) (db (Server.serve JSON_parse user_name qs s)).
Proof.
  revert s. induction qs as [|q qs IH]; intros s; [apply extends_refl|].
  unfold Server.serve in *. cbn [fold_left].
  eapply extends_trans; [|apply IH].
  apply write_extends. apply handler_writes.
Qed.

Lemma alerts_db_consistent : Server.consistent alerts_db.
Proof.
  constructor.
  - exact alerts_db_keyed.
  - split; [constructor | intros r []].
  - intros r [<-|[<-|[]]]; unfold Server.resolution_recorded; cbn;
      split; congruence.
  - intros r [<-|[<-|[]]]; split; reflexivity.
  - intros r [].
Qed.

(** X17. The store stays consistent under any sequence of requests to the
    routes: the ids of the alerts and of the blocked attempts stay distinct
    and within their sequences, every alert has its time of resolution set
    exactly when its status is [resolved], and the device and the resolver
    that a row names exist. *)
Theorem serve_keeps_store_consistent JSON_parse user_name qs s :
  Server.consistent (db s) ->
  Server.consistent (db (Server.serve JSON_parse user_name qs s)).
Proof.
  revert s. induction qs as [|q qs IH]; intros s Hc; [exact Hc|].
  unfold Server.serve in *. cbn [fold_left]. apply IH.
  apply write_consistent with (d := db s); [apply handler_writes | exact Hc].
Qed.

Lemma serve_keeps_store_consistent_witness :
  Server.consistent
    (db (Server.serve sample_JSON_parse sample_user_name afternoon visitor)).
Proof.
  apply (@serve_keeps_store_consistent sample_JSON_parse sample_user_name
           afternoon visitor).
  exact alerts_db_consistent.
Defined.

(** X18. Whatever requests are served, the record of blocked attempts only
    grows at its end: no route alters or removes a row of it; and no route
    touches the devices or the users. *)
Theorem serve_keeps_blocked_attempts JSON_parse user_name qs s :
  devices (db (Server.serve JSON_parse user_name qs s)) = devices (db s) /\
  users (db (Server.serve JSON_parse user_name qs s)) = users (db s) /\
  exists more,
    blocked_attempts (db (Server.serve JSON_parse user_name qs s)) =
    (blocked_attempts (db s) ++ more)%list.
Proof.
  destruct (serve_extends JSON_parse user_name qs s) as [Hd Hu Hb _ _].
  auto.
Qed.

(** X19. The id of an alert is never given out twice, also after the alert
    was deleted: after any sequence of requests, an alert whose id is not
    above the sequence at the start is an alert that was there at the
    start, under the same id, with its device, type, severity and time of
    detection. *)
Theorem serve_never_reuses_alert_ids JSON_parse user_name qs s r :
  In r (security_alerts (db (Server.serve JSON_parse user_name qs s))) ->
  fst r <= security_alerts_id_seq (db s) ->
  exists a,
    In a (security_alerts (db s)) /\
    fst r = fst a /\
    Alert.device_id (snd r) = Alert.device_id (snd a) /\
    Alert.alert_type (snd r) = Alert.alert_type (snd a) /\
    Alert.severity (snd r) = Alert.severity (snd a) /\
    Alert.detected_at (snd r) = Alert.detected_at (snd a).
Proof.
  destruct (serve_extends JSON_parse user_name qs s) as [_ _ _ _ Hf].
  intros Hin Hle. destruct (Hf r Hin Hle) as (a & Ha & Hc).
  exists a. split; [exact Ha | exact Hc].
Qed.

Lemma serve_never_reuses_alert_ids_witness :
  exists a,
    In a (security_alerts (db visitor)) /\
    fst (1, Alert.apply
              [Alert.SetStatus "resolved"; Alert.SetResolvedAt (now working);
               Alert.SetResolvedBy 1]
              (sample_alert (Some "active") None)) = fst a /\
    Alert.device_id (sample_alert (Some "active") None) =
    Alert.device_id (snd a) /\
    Alert.alert_type (sample_alert (Some "active") None) =
    Alert.alert_type (snd a) /\
    Alert.severity (sample_alert (Some "active") None) =
    Alert.severity (snd a) /\
    Alert.detected_at (sample_alert (Some "active") None) =
    Alert.detected_at (snd a).
Proof.
  apply (@serve_never_reuses_alert_ids sample_JSON_parse sample_user_name
           afternoon visitor
           (1, Alert.apply
                 [Alert.SetStatus "resolved";
                  Alert.SetResolvedAt (now working);
                  Alert.SetResolvedBy 1]
                 (sample_alert (Some "active") None))).
  - left. reflexivity.
  - cbn. lia.
Defined.

(** ** middleware/auth.js *)

(** X20. The gates agree on who is signed in and who is an administrator:
    the three authentication gates let the same sessions through, which
    are those that [attachUser] marks authenticated and those that
    [redirectIfAuth] sends away from the login page; the two administrator
    gates let the same sessions through, which are those that [attachUser]
    marks as administrators, and all of them pass the authentication gates;
    [requireAuth] leaves the session of a passing request alone and, when
    it redirects, only adds the address to come back to. *)
Theorem auth_gates_agree (session : option Auth.Raw) (originalUrl : string) :
  (Auth.requireAuthOrDeny session = Auth.Next <->
   Auth.requireAuthAPI session = Auth.Next) /\
  (Auth.requireAuthAPI session = Auth.Next <->
   Auth.isAuthenticated (Auth.attachUser session) = true) /\
  (Auth.isAuthenticated (Auth.attachUser session) = true <->
   Auth.redirectIfAuth session = Auth.Redirect "/dashboard") /\
  (Auth.isAuthenticated (Auth.attachUser session) = true <->
   Auth.requireAuth session originalUrl = Returned (Auth.Next, session)) /\
  (Auth.requireAdmin session = Auth.Next <->
   Auth.requireAdminAPI session = Auth.Next) /\
  (Auth.requireAdminAPI session = Auth.Next <->
   Auth.isAdmin (Auth.attachUser session) = true) /\
  (Auth.isAdmin (Auth.attachUser session) = true ->
   Auth.isAuthenticated (Auth.attachUser session) = true) /\
  (forall raw,
      session = Some raw ->
      Auth.isAuthenticated (Auth.attachUser session) = false ->
      Auth.requireAuth session originalUrl =
      Returned (Auth.Redirect "/auth/login",
                Some (Auth.mkRaw None (Some originalUrl)
                        (Auth.connectedDevice raw)))).
Proof.
  unfold Auth.requireAuthOrDeny, Auth.requireAuthAPI, Auth.requireAdmin,
    Auth.requireAdminAPI, Auth.redirectIfAuth, Auth.requireAuth,
    Auth.attachUser, Auth.is_admin.
  cbn [Auth.isAuthenticated Auth.isAdmin].
  destruct session as [[[u|] rt cd]|]; cbn [Auth.signed_in Auth.user].
  - destruct (opt_string_eqb (Auth.role u) "admin");
      repeat split; intros; try reflexivity; try discriminate.
  - repeat split; intros; try reflexivity; try discriminate.
    match goal with H : Some _ = Some _ |- _ => injection H as <- end.
    reflexivity.
  - repeat split; intros; try reflexivity; try discriminate.
Qed.

(** A handler that always answers and keeps the id of its user, mounted
    behind [requireAuthOrDeny]. *)
Lemma behind_gate handler w :
  (forall s, exists resp s',
      handler s = (Returned resp, s') /\
      user_id (session s') = user_id (session s)) ->
  (exists reply,
      fst (Auth.behind_requireAuthOrDeny handler w) = Returned reply) /\
  Auth.signed_in
    (Auth.cookie_session (snd (Auth.behind_requireAuthOrDeny handler w))) =
  Auth.signed_in (Auth.cookie_session w) /\
  (Auth.signed_in (Auth.cookie_session w) = None ->
   Auth.behind_requireAuthOrDeny handler w =
   (Returned (Auth.Redirected "/access-denied"),
    Auth.mkWorld (Auth.store w)
      (Auth.journal w ++
         [(Warn,
           "Unauthorized access attempt - redirecting to access denied")])
      (Auth.cookie_session w))) /\
  (forall raw u,
      Auth.cookie_session w = Some raw ->
      Auth.user raw = Some u ->
      exists resp s',
        handler (mkSt (Auth.store w)
                   (mkSession (Auth.id u) (Auth.connectedDevice raw))
                   (Auth.journal w)) = (Returned resp, s') /\
        Auth.behind_requireAuthOrDeny handler w =
        (Returned (Auth.Answered resp),
         Auth.mkWorld (db s') (logged s')
           (Some (Auth.mkRaw (Some u) (Auth.returnTo raw)
                    (connectedDevice (session s')))))).
Proof.
  intros Hhandler.
  unfold Auth.behind_requireAuthOrDeny, Auth.requireAuthOrDeny, Auth.enter,
    Auth.signed_in.
  destruct (Auth.cookie_session w) as [raw|] eqn:Hraw.
  - destruct (Auth.user raw) as [u|] eqn:Hu.
    + destruct (Hhandler (mkSt (Auth.store w)
                            (mkSession (Auth.id u) (Auth.connectedDevice raw))
                            (Auth.journal w)))
        as (resp & s' & Hrun & Hid).
      cbn [session user_id] in Hid.
      rewrite Hrun. cbn [fst snd Auth.cookie_session Auth.user].
      rewrite Hid. destruct u as [uid urole]. cbn [Auth.id Auth.role].
      split; [eexists; reflexivity|]. split; [reflexivity|].
      split; [discriminate|].
      intros raw0 u0 Hr0 Hu0. injection Hr0 as <-.
      rewrite Hu in Hu0. injection Hu0 as <-.
      exists resp, s'. split; [exact Hrun | reflexivity].
    + cbn [fst snd Auth.cookie_session Auth.user]. rewrite ?Hraw, ?Hu.
      split; [eexists; reflexivity|]. split; [reflexivity|].
      split; [reflexivity|].
      intros raw0 u0 Hr0 Hu0. injection Hr0 as <-. congruence.
  - cbn [fst snd Auth.cookie_session]. rewrite ?Hraw.
    split; [eexists; reflexivity|]. split; [reflexivity|].
    split; [reflexivity|]. intros raw0 u0 Hr0. discriminate Hr0.
Qed.

Lemma connect_keeps_user env req s :
  exists resp s',
    connect env req s = (Returned resp, s') /\
    user_id (session s') = user_id (session s).
Proof.
  destruct (connect_follows_decision env req s) as (s' & Hrun & Hss & _).
  eexists. exists s'. split; [exact Hrun|]. rewrite Hss.
  destruct (decision env (db s) (user_id (session s)) (deviceId_param req));
    reflexivity.
Qed.

Lemma disconnect_keeps_user req s :
  exists resp s',
    disconnect req s = (Returned resp, s') /\
    user_id (session s') = user_id (session s).
Proof.
  destruct (disconnect_returns req s) as (resp & s' & Hrun & _ & Hid).
  exists resp, s'. auto.
Qed.

(** X21. The connect and disconnect routes of [routes/deviceAccess.js] as
    they are mounted behind [requireAuthOrDeny].  Whatever the session of
    the request, also none at all, the route answers: the read of
    [req.session.user.id] that opens both handlers, and that their [catch]
    blocks repeat, never throws.  A request without a signed-in user is
    redirected to [/access-denied]; the handler is not run, so the store is
    as it was, no blocked attempt included, and only a warning is logged.
    A request of a signed-in user gets the answer of the handler run for
    the id of that user on the connection of the session, and the session
    keeps the user as it was with the connection that the handler left.  In
    no case does the route change who is signed in. *)
Theorem mounted_device_routes_are_safe env req w :
  ((exists reply, fst (Auth.connect_route env req w) = Returned reply) /\
   Auth.signed_in
     (Auth.cookie_session (snd (Auth.connect_route env req w))) =
   Auth.signed_in (Auth.cookie_session w) /\
   (Auth.signed_in (Auth.cookie_session w) = None ->
    Auth.connect_route env req w =
    (Returned (Auth.Redirected "/access-denied"),
     Auth.mkWorld (Auth.store w)
       (Auth.journal w ++
          [(Warn,
            "Unauthorized access attempt - redirecting to access denied")])
       (Auth.cookie_session w))) /\
   (forall raw u,
       Auth.cookie_session w = Some raw ->
       Auth.user raw = Some u ->
       exists resp s',
         connect env req
           (mkSt (Auth.store w)
              (mkSession (Auth.id u) (Auth.connectedDevice raw))
              (Auth.journal w)) = (Returned resp, s') /\
         Auth.connect_route env req w =
         (Returned (Auth.Answered resp),
          Auth.mkWorld (db s') (logged s')
            (Some (Auth.mkRaw (Some u) (Auth.returnTo raw)
                     (connectedDevice (session s'))))))) /\
  ((exists reply, fst (Auth.disconnect_route req w) = Returned reply) /\
   Auth.signed_in
     (Auth.cookie_session (snd (Auth.disconnect_route req w))) =
   Auth.signed_in (Auth.cookie_session w) /\
   (Auth.signed_in (Auth.cookie_session w) = None ->
    Auth.disconnect_route req w =
    (Returned (Auth.Redirected "/access-denied"),
     Auth.mkWorld (Auth.store w)
       (Auth.journal w ++
          [(Warn,
            "Unauthorized access attempt - redirecting to access denied")])
       (Auth.cookie_session w))) /\
   (forall raw u,
       Auth.cookie_session w = Some raw ->
       Auth.user raw = Some u ->
       exists resp s',
         disconnect req
           (mkSt (Auth.store w)
              (mkSession (Auth.id u) (Auth.connectedDevice raw))
              (Auth.journal w)) = (Returned resp, s') /\
         Auth.disconnect_route req w =
         (Returned (Auth.Answered resp),
          Auth.mkWorld (db s') (logged s')
            (Some (Auth.mkRaw (Some u) (Auth.returnTo raw)
                     (connectedDevice (session s'))))))).
Proof.
  unfold Auth.connect_route, Auth.disconnect_route. split.
  - apply behind_gate. intros s. apply connect_keeps_user.
  - apply behind_gate. intros s. apply disconnect_keeps_user.
Qed.

(** ** config/env.js *)









Lemma present_idem v : Config.present (Config.present v) = Config.present v.
Proof.
  unfold Config.present. destruct v as [x|]; [|reflexivity].
  destruct (x =? "")%string eqn:Hx; [reflexivity|]. rewrite Hx. reflexivity.
Qed.

Lemma optional_value env name defaultValue :
  Config.optional env name defaultValue =
  match Config.present (env name) with
  | Some v => Some v
  | None => defaultValue
  end.
Proof.
  unfold Config.optional, Config.validateEnvVar.
  destruct (Config.present (env name)); reflexivity.
Qed.

Lemma opt_string_eqb_true o x : opt_string_eqb o x = true <-> o = Some x.
Proof.
  destruct o as [y|]; cbn; [|split; discriminate].
  rewrite String.eqb_eq. split; congruence.
Qed.

Lemma isProduction_load env :
  Config.isProduction (Config.load env) = true <->
  Config.present (env "NODE_ENV") = Some "production".
Proof.
  unfold Config.isProduction, Config.load. cbn [Config.NODE_ENV].
  rewrite opt_string_eqb_true, optional_value.
  destruct (Config.present (env "NODE_ENV")); [tauto|].
  split; discriminate.
Qed.

Lemma errors_load env :
  Config.errors (Config.load env) = [] <->
  (Config.present (env "NODE_ENV") = Some "production" ->
   Config.present (env "DB_USER") <> None /\
   Config.present (env "DB_PASSWORD") <> None /\
   (exists v, Config.present (env "SESSION_SECRET") = Some v /\
              v <> "your_super_secret_session_key_here") /\
   (exists v, Config.present (env "JWT_SECRET") = Some v /\
              v <> "your_jwt_secret_key_here")).
Proof.
  unfold Config.errors.
  destruct (Config.isProduction (Config.load env)) eqn:Hprod.
  - apply isProduction_load in Hprod.
    unfold Config.load.
    cbn [Config.database_user Config.database_password Config.session_secret
         Config.security_jwtSecret].
    rewrite !optional_value.
    assert (Hcred :
      forall name,
        Config.present
          match Config.present (env name) with
          | Some v => Some v
          | None => Some ""
          end = Config.present (env name)).
    { intros name. destruct (Config.present (env name)) as [v|] eqn:Hv;
        [|reflexivity].
      rewrite <- Hv. apply present_idem. }
    rewrite !Hcred.
    assert (Hsecret :
      forall name placeholder,
        placeholder <> "" ->
        (if opt_string_eqb
              match Config.present (env name) with
              | Some v => Some v
              | None => Some placeholder
              end placeholder
         then false else true) = true <->
        exists v, Config.present (env name) = Some v /\ v <> placeholder).
    { intros name placeholder Hne.
      destruct (Config.present (env name)) as [v|] eqn:Hv; cbn.
      - destruct (String.eqb_spec v placeholder) as [->|Hv'].
        + split; [discriminate|]. intros (v & Hv1 & Hv2). congruence.
        + split; [|reflexivity]. intros _. exists v. auto.
      - rewrite String.eqb_refl. split; [discriminate|].
        intros (v & Hv1 & _). discriminate. }
    pose proof (Hsecret "SESSION_SECRET" "your_super_secret_session_key_here")
      as Hs.
    pose proof (Hsecret "JWT_SECRET" "your_jwt_secret_key_here") as Hj.
    destruct (Config.present (env "DB_USER")) as [u|];
      destruct (Config.present (env "DB_PASSWORD")) as [p|];
      destruct (opt_string_eqb _ "your_super_secret_session_key_here");
      destruct (opt_string_eqb _ "your_jwt_secret_key_here");
      cbn [app];
      (split;
       [try discriminate; intros _ _;
        repeat split; try discriminate;
        first [apply Hs | apply Hj]; solve [reflexivity | discriminate]
       |intros H; destruct (H Hprod) as (H1 & H2 & H3 & H4);
        try reflexivity; try congruence;
        first [apply Hs in H3; [discriminate H3 | discriminate]
              |apply Hj in H4; [discriminate H4 | discriminate]]]).
  - split; [|reflexivity]. intros _ Hp.
    apply isProduction_load in Hp. congruence.
Qed.

(** X23. The configuration loads in production only with credentials and
    secrets of its own: when [NODE_ENV] is [production], loading succeeds
    exactly when [DB_USER] and [DB_PASSWORD] are set and not empty and
    [SESSION_SECRET] and [JWT_SECRET] are set, not empty and not the
    placeholders of the source; otherwise it throws.  Outside production it
    always loads.  The session cookie is marked secure exactly in
    production. *)
Theorem production_needs_secrets (env : Config.Environment) :
  (Config.require_env env = Returned (Config.load env) <->
   (Config.present (env "NODE_ENV") = Some "production" ->
    Config.present (env "DB_USER") <> None /\
    Config.present (env "DB_PASSWORD") <> None /\
    (exists v, Config.present (env "SESSION_SECRET") = Some v /\
               v <> "your_super_secret_session_key_here") /\
    (exists v, Config.present (env "JWT_SECRET") = Some v /\
               v <> "your_jwt_secret_key_here"))) /\
  (Config.require_env env = Returned (Config.load env) \/
   Config.require_env env =
   Threw (mkError None "Invalid environment configuration")) /\
  Config.session_cookie_secure (Config.load env) =
  Config.isProduction (Config.load env).
Proof.
  split; [|split].
  - rewrite <- errors_load.
    unfold Config.require_env, Config.validateConfig.
    destruct (Config.errors (Config.load env)); split;
      solve [reflexivity | discriminate].
  - unfold Config.require_env, Config.validateConfig.
    destruct (Config.errors (Config.load env)); auto.
  - unfold Config.isProduction, Config.load.
    cbn [Config.session_cookie_secure Config.NODE_ENV].
    rewrite !optional_value.
    destruct (Config.present (env "NODE_ENV")); reflexivity.
Qed.

(** ** The added code on sample data *)

Example query_retries_twice :
  Database.query
    (fun k => if (k <? 2)%nat then Database.QueryFails unavailable
              else Database.QueryReturns k) 3 =
  (Returned (Some 2%nat),
   [Database.Connected; Database.ErrorLogged; Database.RetryLogged;
    Database.Waited 1000; Database.Released;
    Database.Connected; Database.ErrorLogged; Database.RetryLogged;
    Database.Waited 2000; Database.Released;
    Database.Connected; Database.Released]).
Proof. reflexivity. Qed.

Example query_gives_up_on_foreign_key :
  Database.query
    (fun _ => @Database.QueryFails nat foreign_key_violation) 3 =
  (Threw foreign_key_violation,
   [Database.Connected; Database.ErrorLogged; Database.Released]).
Proof. reflexivity. Qed.

Example transaction_failing_rollback_hides_cause :
  Database.transaction
    (Database.mkRun None None (@Threw nat foreign_key_violation) None
       (Some unavailable)) =
  (Threw unavailable,
   [Database.Connected; Database.Sent "BEGIN"; Database.Called;
    Database.Sent "ROLLBACK"; Database.Released]).
Proof. reflexivity. Qed.

Example afternoon_alerts :
  map (fun r => (fst r, Alert.status (snd r)))
    (security_alerts
       (db (Server.serve sample_JSON_parse sample_user_name afternoon
              visitor))) =
  [(1, Some "resolved"); (3, Some "active"); (4, Some "active")].
Proof. reflexivity. Qed.

Example anonymous_connect :
  Auth.connect_route working (request_for "3")
    (Auth.mkWorld sample_db [] (Some (Auth.mkRaw None None None))) =
  (Returned (Auth.Redirected "/access-denied"),
   Auth.mkWorld sample_db
     [(Warn, "Unauthorized access attempt - redirecting to access denied")]
     (Some (Auth.mkRaw None None None))).
Proof. reflexivity. Qed.

Example production_loads :
  Config.require_env production = Returned (Config.load production) /\
  Config.PORT (Config.load production) = 8080 /\
  Config.database_port (Config.load production) = 5432 /\
  Config.session_cookie_secure (Config.load production) = true.
Proof. repeat split; reflexivity. Qed.

Example production_with_placeholders_throws :
  Config.require_env
    (fun name => if (name =? "NODE_ENV")%string then Some "production"
                 else None) =
  Threw (mkError None "Invalid environment configuration").
Proof. reflexivity. Qed.

Example port_without_digits :
  Config.number (fun _ => Some "abc") "PORT" "3000" = 0.
Proof. reflexivity. Qed.

Example port_beyond_the_safe_integers :
  Config.number (fun _ => Some "9007199254740993") "PORT" "3000" =
  9007199254740992.
Proof. reflexivity. Qed.

Example session_without_user :
  Auth.enter (connect working (request_for "3"))
    (Auth.mkWorld sample_db [] (Some (Auth.mkRaw None None None))) =
  (Threw (mkError None "Cannot read properties of undefined (reading 'id')"),
   Auth.mkWorld sample_db [] (Some (Auth.mkRaw None None None))).
Proof. reflexivity. Qed.
